(** * Organization management service: sessions and tenant lifecycle

    A shallow embedding of [src/services.js] ([OrganizationService],
    [AuthService]) together with the parts of [src/database.js] and
    [src/auth.js] it calls.

    - The MongoDB store is an explicit [World]: the two master collections
      are lists of documents in insertion order, the tenant databases are a
      finite map from database name to the [users] collection.
    - A service method is a function [World -> Result A * World].  A thrown
      [Error] is [Err] with the message of the source; the world that comes
      back with it holds every write made before the throw (nothing is
      rolled back).
    - What the code takes from libraries ([validator], [bcryptjs],
      [jsonwebtoken], [crypto], [bson]) and from the environment
      ([config.js]) is the interface [Externals].
    - [Date.now()] and the bcrypt salt are arguments of the method that
      reads them: [now] is in milliseconds and is read once per call.
    - Strings are ASCII strings; a date that the source renders with
      [toISOString] stays a number; the calls of the logger are left out. *)

From Stdlib Require Import String Ascii NArith Bool List Lia DecimalString.
From stdpp Require Import base option list gmap strings fin_maps.
Import ListNotations.

Local Open Scope string_scope.
Local Open Scope N_scope.

(** ** Values *)

(** A BSON [ObjectId], as the number the driver draws for a new document. *)
Definition ObjectId := N.

(** A [Date], in milliseconds since the epoch. *)
Definition Date := N.

(** A JavaScript exception is its message. *)
Inductive Result (A : Type) : Type :=
| Ok (a : A)
| Err (message : string).
Arguments Ok {A} a.
Arguments Err {A} message.

(** [!s] on a string: only the empty string is falsy. *)
Definition falsy (s : string) : bool := bool_decide (s = "").

(** ** Documents *)

(** A document of the master [organizations] collection. *)
Module OrgDoc.
Record t := mk {
  _id : ObjectId;
  organization_name : string;
  db_name : string;
  admin_email : string;
  admin_user_id : string;
  created_at : Date;
  is_active : bool
}.
End OrgDoc.

(** A document of the master [admin_users] collection.  [organization_id]
    is [null] until the back-fill; [organization_name] is missing from the
    seeded administrator; the two refresh fields are missing until the
    first login. *)
Module AdminDoc.
Record t := mk {
  _id : ObjectId;
  admin_email : string;
  password : string;
  role : string;
  organization_id : option string;
  organization_name : option string;
  created_at : Date;
  is_active : bool;
  refresh_token_hash : option string;
  refresh_token_issued_at : option Date
}.

(** [$set: { organization_id }] *)
Definition set_organization_id (v : string) (a : t) : t :=
  mk (_id a) (admin_email a) (password a) (role a) (Some v)
     (organization_name a) (created_at a) (is_active a)
     (refresh_token_hash a) (refresh_token_issued_at a).

(** [$set: { admin_email, password }] *)
Definition set_credentials (email hashed : string) (a : t) : t :=
  mk (_id a) email hashed (role a) (organization_id a)
     (organization_name a) (created_at a) (is_active a)
     (refresh_token_hash a) (refresh_token_issued_at a).

(** [$set: { refresh_token_hash, refresh_token_issued_at }] *)
Definition set_refresh (h : string) (d : Date) (a : t) : t :=
  mk (_id a) (admin_email a) (password a) (role a) (organization_id a)
     (organization_name a) (created_at a) (is_active a)
     (Some h) (Some d).
End AdminDoc.

(** A document of a tenant's [users] collection. *)
Module UserDoc.
Record t := mk {
  _id : ObjectId;
  email : string;
  password : string;
  role : string;
  created_at : Date;
  is_active : bool;
  updated_at : option Date
}.

(** [$set: { email, password, updated_at }] *)
Definition set_credentials (e hashed : string) (d : Date) (u : t) : t :=
  mk (_id u) e hashed (role u) (created_at u) (is_active u) (Some d).
End UserDoc.

(** ** Tokens *)

(** The decoded payload of a JSON web token. *)
Record Claims := mkClaims {
  sub : string;
  org_id : option string;
  org_name : option string;
  role : option string;
  type : option string;
  iat : N;
  exp : N
}.

(** ** The world *)

(** The calls that a method issues to the store to write, and its calls of
    the password hasher, in the order they are issued. *)
Inductive Event :=
| CreateIndex (dbName : string)
| HashPassword
| UsersInsertOne (dbName : string)
| AdminInsertOne
| OrgsInsertOne
| AdminUpdateOne
| UsersUpdateOne (dbName : string)
| OrgsDeleteOne
| AdminDeleteOne
| DropDatabase (dbName : string)
| AdminCreateIndex
| OrgsCreateIndex.

Record World := mkWorld {
  organizations : list OrgDoc.t;
  admin_users : list AdminDoc.t;
  org_dbs : gmap string (list UserDoc.t);
  next_oid : ObjectId;
  trace : list Event
}.

(** The store before anything is written. *)
Definition empty_world : World := mkWorld [] [] ∅ 0 [].

(** The [users] collection of a tenant database; a database that does not
    exist reads as empty. *)
Definition users_of (dbName : string) (w : World) : list UserDoc.t :=
  default [] (org_dbs w !! dbName).

(** ** Methods as state transformers that can throw *)

Definition M (A : Type) : Type := World -> Result A * World.

Definition ret {A} (a : A) : M A := fun w => (Ok a, w).

Definition throw {A} (message : string) : M A := fun w => (Err message, w).

Definition bind {A B} (m : M A) (k : A -> M B) : M B :=
  fun w =>
    match m w with
    | (Ok a, w') => k a w'
    | (Err e, w') => (Err e, w')
    end.

(** [try { m } catch (error) { h error.message }] *)
Definition try_catch {A} (m : M A) (h : string -> M A) : M A :=
  fun w =>
    match m w with
    | (Ok a, w') => (Ok a, w')
    | (Err e, w') => h e w'
    end.

Definition gets {A} (f : World -> A) : M A := fun w => (Ok (f w), w).

Definition modify (f : World -> World) : M unit := fun w => (Ok tt, f w).

Notation "'let*' x ':=' m 'in' k" := (bind m (fun x => k))
  (at level 10, x pattern, m at level 100, k at level 200).
Notation "m ';;;' k" := (bind m (fun _ => k))
  (at level 100, k at level 200, right associativity).

Definition log (e : Event) : M unit :=
  modify (fun w => mkWorld (organizations w) (admin_users w) (org_dbs w)
                           (next_oid w) (trace w ++ [e])).

(** The driver draws a new [ObjectId] for a document inserted without one. *)
Definition fresh_oid : M ObjectId :=
  fun w => (Ok (next_oid w),
            mkWorld (organizations w) (admin_users w) (org_dbs w)
                    (N.succ (next_oid w)) (trace w)).

Definition set_organizations (l : list OrgDoc.t) : M unit :=
  modify (fun w => mkWorld l (admin_users w) (org_dbs w) (next_oid w) (trace w)).

Definition set_admin_users (l : list AdminDoc.t) : M unit :=
  modify (fun w => mkWorld (organizations w) l (org_dbs w) (next_oid w) (trace w)).

Definition set_org_dbs (m : gmap string (list UserDoc.t)) : M unit :=
  modify (fun w => mkWorld (organizations w) (admin_users w) m (next_oid w) (trace w)).

(** ** Collections *)

(** [findOne(filter)]: the first document, in insertion order, that the
    filter accepts. *)
Definition findOne {D} (filter : D -> bool) (coll : list D) : option D :=
  List.find filter coll.

(** [updateOne(filter, { $set })] on the documents: the first match is
    rewritten, a collection without a match is left as it is. *)
Fixpoint updateFirst {D} (filter : D -> bool) (f : D -> D) (coll : list D) : list D :=
  match coll with
  | [] => []
  | d :: rest => if filter d then f d :: rest else d :: updateFirst filter f rest
  end.

(** [deleteOne(filter)] on the documents: the first match is removed. *)
Fixpoint deleteFirst {D} (filter : D -> bool) (coll : list D) : list D :=
  match coll with
  | [] => []
  | d :: rest => if filter d then rest else d :: deleteFirst filter rest
  end.

(** A unique index on the string field [key]: does a document of [coll]
    already hold the value [v]? *)
Definition key_taken {D} (key : D -> string) (v : string) (coll : list D) : bool :=
  existsb (fun d => bool_decide (key d = v)) coll.

(** The unique indexes of the store: [organization_name] on the registry,
    [admin_email] on the administrators, [email] on the [users] of a
    tenant database. *)
Inductive Index :=
| OrganizationName
| AdminEmail
| UserEmail (dbName : string).

(** ** What the code takes from outside

    [config.js] (read from the process environment) and the libraries the
    three source files import.  Nothing is assumed of them here; a theorem
    that needs a fact about one of them states it, at the values it is used
    on. *)
Class Externals := {
  (** [config.jwtSecret], [config.jwtAlgorithm] *)
  jwtSecret : string;
  jwtAlgorithm : string;
  (** [validator.isEmail] *)
  isEmail : string -> bool;
  (** [bcrypt.hash(password, salt)] and [bcrypt.compare(password, hash)] *)
  bcrypt_hash : string -> string -> string;
  bcrypt_compare : string -> string -> bool;
  (** [crypto.createHash('sha256').update(token).digest('hex')] *)
  sha256_hex : string -> string;
  (** [jsonwebtoken]: the signed encoding of a payload that already holds
      [iat] and [exp], and its inverse with the signature and algorithm
      check, which answers with the library's error message when the token
      is malformed or not signed with this secret and algorithm. *)
  jwt_encode : Claims -> string -> string -> string;
  jwt_decode : string -> string -> string -> Result Claims;
  (** [bson]: [ObjectId.prototype.toString], and [new ObjectId(s)], which
      throws [bson_error] on a string that is no object id. *)
  oid_toString : ObjectId -> string;
  oid_parse : string -> option ObjectId;
  bson_error : string;
  (** The server's message for a write that a unique index refuses; it
      names the index and the value that is already there. *)
  duplicate_key_error : Index -> string -> string;
  (** [client.db(name)]: the error with which the driver refuses the name
      of a database, a name that holds a dot for one, when it does. *)
  db_name_error : string -> option string
}.

(** ** Strings of [database.js] *)

(** [String.prototype.toLowerCase], on ASCII. *)
Definition lower_char (c : ascii) : ascii :=
  let n := N_of_ascii c in
  if (65 <=? n) && (n <=? 90) then ascii_of_N (n + 32) else c.

Fixpoint toLowerCase (s : string) : string :=
  match s with
  | EmptyString => EmptyString
  | String c s' => String (lower_char c) (toLowerCase s')
  end.

(** The class [\s] of a regular expression, on ASCII: tab, line feed,
    vertical tab, form feed, carriage return and space. *)
Definition is_space (c : ascii) : bool :=
  let n := N_of_ascii c in
  ((9 <=? n) && (n <=? 13)) || (n =? 32).

(** [s.replace(/\s+/g, '_')]: scanning from the left, a white-space
    character opens a match, the match takes the whole run ([skip_run]
    drops what is left of it), and one underscore stands for it. *)
Fixpoint replace_space_runs (s : string) : string :=
  match s with
  | EmptyString => EmptyString
  | String c s' =>
      if is_space c then String "_" (skip_run s')
      else String c (replace_space_runs s')
  end
with skip_run (s : string) : string :=
  match s with
  | EmptyString => EmptyString
  | String c s' =>
      if is_space c then skip_run s'
      else String c (replace_space_runs s')
  end.

(** [`org_${orgName.toLowerCase().replace(/\s+/g, '_')}`], the expression
    that [getOrgDb], [createOrgDatabase] and [deleteOrgDatabase] share. *)
Definition namespaceFor (orgName : string) : string :=
  "org_" +:+ replace_space_runs (toLowerCase orgName).

(** ** What the methods of [services.js] return

    A date that the source renders with [toISOString] stays a [Date]. *)

Module CreateResult.
Record t := mk {
  id : string;
  organization_name : string;
  db_name : string;
  admin_email : string;
  created_at : Date;
  message : string
}.
End CreateResult.

Module GetResult.
Record t := mk {
  id : string;
  organization_name : string;
  db_name : string;
  admin_email : string;
  created_at : Date;
  is_active : bool
}.
End GetResult.

(** The object that [updateOrganization] and [deleteOrganization] return. *)
Module Ack.
Record t := mk {
  message : string;
  organization_name : string
}.
End Ack.

Module LoginResult.
Record t := mk {
  access_token : string;
  refresh_token : string;
  token_type : string;
  expires_in : N;
  admin_id : string;
  organization_id : option string;
  organization_name : option string
}.
End LoginResult.

Module RefreshResult.
Record t := mk {
  access_token : string;
  token_type : string;
  expires_in : N
}.
End RefreshResult.

Section Service.
Context {E : Externals}.

(** ** The store calls of [services.js] *)

(** [orgsCollection.insertOne(doc)]; [organization_name] carries a unique
    index ([server.js], [seed_master_db.js]). *)
Definition orgs_insertOne (doc : ObjectId -> OrgDoc.t) : M ObjectId :=
  log OrgsInsertOne ;;;
  let* id := fresh_oid in
  let* coll := gets organizations in
  if key_taken OrgDoc.organization_name (OrgDoc.organization_name (doc id)) coll
  then throw (duplicate_key_error OrganizationName (OrgDoc.organization_name (doc id)))
  else set_organizations (coll ++ [doc id]) ;;; ret id.

(** [adminCollection.insertOne(doc)]; [admin_email] carries a unique index. *)
Definition admins_insertOne (doc : ObjectId -> AdminDoc.t) : M ObjectId :=
  log AdminInsertOne ;;;
  let* id := fresh_oid in
  let* coll := gets admin_users in
  if key_taken AdminDoc.admin_email (AdminDoc.admin_email (doc id)) coll
  then throw (duplicate_key_error AdminEmail (AdminDoc.admin_email (doc id)))
  else set_admin_users (coll ++ [doc id]) ;;; ret id.

(** [orgDb.collection('users').insertOne(doc)]; [email] carries the unique
    index that [createOrgDatabase] lays. *)
Definition users_insertOne (dbName : string) (doc : ObjectId -> UserDoc.t) : M ObjectId :=
  log (UsersInsertOne dbName) ;;;
  let* id := fresh_oid in
  let* coll := gets (users_of dbName) in
  if key_taken UserDoc.email (UserDoc.email (doc id)) coll
  then throw (duplicate_key_error (UserEmail dbName) (UserDoc.email (doc id)))
  else
    let* dbs := gets org_dbs in
    set_org_dbs (<[dbName := (coll ++ [doc id])%list]> dbs) ;;; ret id.

(** Does rewriting [d] into [d'] move the indexed field [key] onto a value
    that a document of [coll] holds? *)
Definition key_clash {D} (key : D -> string) (d d' : D) (coll : list D) : bool :=
  negb (bool_decide (key d' = key d)) && key_taken key (key d') coll.

(** [adminCollection.updateOne(filter, { $set })].  When the update moves
    [admin_email] onto a value another document holds, the unique index
    refuses it and nothing is written. *)
Definition admins_updateOne (filter : AdminDoc.t -> bool)
    (f : AdminDoc.t -> AdminDoc.t) : M unit :=
  log AdminUpdateOne ;;;
  let* coll := gets admin_users in
  match findOne filter coll with
  | None => ret tt
  | Some a =>
      if key_clash AdminDoc.admin_email a (f a) coll
      then throw (duplicate_key_error AdminEmail (AdminDoc.admin_email (f a)))
      else set_admin_users (updateFirst filter f coll)
  end.

(** [usersCollection.updateOne(filter, { $set })] in a tenant database; a
    database that does not exist has nothing to match and is not created. *)
Definition users_updateOne (dbName : string) (filter : UserDoc.t -> bool)
    (f : UserDoc.t -> UserDoc.t) : M unit :=
  log (UsersUpdateOne dbName) ;;;
  let* coll := gets (users_of dbName) in
  match findOne filter coll with
  | None => ret tt
  | Some u =>
      if key_clash UserDoc.email u (f u) coll
      then throw (duplicate_key_error (UserEmail dbName) (UserDoc.email (f u)))
      else
        let* dbs := gets org_dbs in
        set_org_dbs (<[dbName := updateFirst filter f coll]> dbs)
  end.

(** [orgsCollection.deleteOne(filter)] *)
Definition orgs_deleteOne (filter : OrgDoc.t -> bool) : M unit :=
  log OrgsDeleteOne ;;;
  let* coll := gets organizations in
  set_organizations (deleteFirst filter coll).

(** [adminCollection.deleteOne(filter)] *)
Definition admins_deleteOne (filter : AdminDoc.t -> bool) : M unit :=
  log AdminDeleteOne ;;;
  let* coll := gets admin_users in
  set_admin_users (deleteFirst filter coll).

(** ** [database.js]: [DatabaseManager] *)

(** [this.client.db(dbName)]: the handle is the name of the database; the
    driver throws when it refuses the name, and nothing has reached the
    server then. *)
Definition client_db (dbName : string) : M string :=
  match db_name_error dbName with
  | Some message => throw message
  | None => ret dbName
  end.

(** [getOrgDb(orgName)] *)
Definition getOrgDb (orgName : string) : M string :=
  client_db (namespaceFor orgName).

(** [createOrgDatabase(orgName)]: laying the index on [users] brings the
    database into being when it is not there. *)
Definition createOrgDatabase (orgName : string) : M (string * string) :=
  let dbName := namespaceFor orgName in
  let* orgDb := client_db dbName in
  log (CreateIndex orgDb) ;;;
  let* dbs := gets org_dbs in
  match dbs !! orgDb with
  | Some _ => ret tt
  | None => set_org_dbs (<[orgDb := []]> dbs)
  end ;;;
  ret (dbName, orgDb).

(** [deleteOrgDatabase(orgName)] *)
Definition deleteOrgDatabase (orgName : string) : M string :=
  let dbName := namespaceFor orgName in
  let* orgDb := client_db dbName in
  log (DropDatabase orgDb) ;;;
  let* dbs := gets org_dbs in
  set_org_dbs (delete orgDb dbs) ;;;
  ret dbName.

(** ** [auth.js]: [PasswordManager], [TokenManager] *)

(** [hashPassword(password)], with the salt that [bcrypt.genSalt(12)] drew. *)
Definition hashPassword (salt password : string) : M string :=
  log HashPassword ;;;
  ret (bcrypt_hash password salt).

Definition verifyPassword (password hashedPassword : string) : bool :=
  bcrypt_compare password hashedPassword.

(** [jwt.sign(payload, secret, { algorithm, expiresIn })]: the library sets
    [iat] to the clock in whole seconds and [exp] to [iat] plus the span,
    and signs that. *)
Definition jwt_sign (payload : N -> N -> Claims) (expiresIn : N) (now : Date) : string :=
  let iat := now / 1000 in
  jwt_encode (payload iat (iat + expiresIn)) jwtSecret jwtAlgorithm.

(** [createAccessToken(adminId, orgId, orgName, role)], [expiresIn: '15m'] *)
Definition createAccessToken (adminId : string) (orgId orgName : option string)
    (role : string) (now : Date) : string :=
  jwt_sign (mkClaims adminId orgId orgName (Some role) None) (15 * 60) now.

(** [createRefreshToken(adminId, orgId)], [expiresIn: '7d'] *)
Definition createRefreshToken (adminId : string) (orgId : option string)
    (now : Date) : string :=
  jwt_sign (mkClaims adminId orgId None None (Some "refresh"))
           (7 * 24 * 60 * 60) now.

(** [jwt.verify(token, secret, { algorithms })]: the signature first, then
    the expiry against the clock in whole seconds. *)
Definition jwt_verify (token : string) (now : Date) : Result Claims :=
  match jwt_decode token jwtSecret jwtAlgorithm with
  | Err m => Err m
  | Ok c => if exp c <=? now / 1000 then Err "jwt expired" else Ok c
  end.

(** [verifyToken(token)] *)
Definition verifyToken (token : string) (now : Date) : Result Claims :=
  match jwt_verify token now with
  | Ok c => Ok c
  | Err m => Err ("Invalid token: " +:+ m)
  end.

(** [hashToken(token)] *)
Definition hashToken (token : string) : string := sha256_hex token.

(** A pure computation that can throw, run inside a method. *)
Definition lift {A} (r : Result A) : M A := fun w => (r, w).

(** ** [services.js]: [OrganizationService] *)

Definition org_named (orgName : string) (o : OrgDoc.t) : bool :=
  bool_decide (OrgDoc.organization_name o = orgName).

Definition createOrganization (now : Date) (salt : string)
    (orgName email password : string) : M CreateResult.t :=
  if falsy orgName || falsy email || falsy password then
    throw "Organization name, email, and password are required"
  else if negb (isEmail email) then
    throw "Invalid email format"
  else if (String.length password <? 6)%nat then
    throw "Password must be at least 6 characters"
  else
    let* existing := gets (fun w => findOne (org_named orgName) (organizations w)) in
    match existing with
    | Some _ => throw "Organization with this name already exists"
    | None =>
        try_catch
          (let* (dbName, orgDb) := createOrgDatabase orgName in
           let* hashedPassword := hashPassword salt password in
           let* userResult :=
             users_insertOne orgDb (fun id =>
               UserDoc.mk id email hashedPassword "org_admin" now true None) in
           let* adminResult :=
             admins_insertOne (fun id =>
               AdminDoc.mk id email hashedPassword "org_admin" None (Some orgName)
                           now true None None) in
           let* orgsResult :=
             orgs_insertOne (fun id =>
               OrgDoc.mk id orgName dbName email (oid_toString userResult) now true) in
           admins_updateOne
             (fun a => bool_decide (AdminDoc._id a = adminResult))
             (AdminDoc.set_organization_id (oid_toString orgsResult)) ;;;
           ret (CreateResult.mk (oid_toString orgsResult) orgName dbName email now
                                "Organization created successfully"))
          (fun m => throw ("Failed to create organization: " +:+ m))
    end.

Definition getOrganization (orgName : string) : M GetResult.t :=
  if falsy orgName then
    throw "Organization name is required"
  else
    let* org := gets (fun w => findOne (org_named orgName) (organizations w)) in
    match org with
    | None => throw "Organization not found"
    | Some org =>
        ret (GetResult.mk (oid_toString (OrgDoc._id org))
                          (OrgDoc.organization_name org) (OrgDoc.db_name org)
                          (OrgDoc.admin_email org) (OrgDoc.created_at org)
                          (OrgDoc.is_active org))
    end.

Definition updateOrganization (now : Date) (salt : string)
    (orgName email password : string) : M Ack.t :=
  if falsy orgName || falsy email || falsy password then
    throw "Organization name, email, and password are required"
  else if negb (isEmail email) then
    throw "Invalid email format"
  else
    let* org := gets (fun w => findOne (org_named orgName) (organizations w)) in
    match org with
    | None => throw "Organization not found"
    | Some org =>
        try_catch
          (let* hashedPassword := hashPassword salt password in
           admins_updateOne
             (fun a => bool_decide (AdminDoc.organization_id a
                                    = Some (oid_toString (OrgDoc._id org))))
             (AdminDoc.set_credentials email hashedPassword) ;;;
           let* orgDb := getOrgDb orgName in
           users_updateOne orgDb
             (fun u => bool_decide (UserDoc.role u = "admin"))
             (UserDoc.set_credentials email hashedPassword now) ;;;
           ret (Ack.mk "Organization updated successfully" orgName))
          (fun m => throw ("Failed to update organization: " +:+ m))
    end.

Definition deleteOrganization (orgName : string) (adminId : option string) : M Ack.t :=
  if falsy orgName then
    throw "Organization name is required"
  else
    let* org := gets (fun w => findOne (org_named orgName) (organizations w)) in
    match org with
    | None => throw "Organization not found"
    | Some org =>
        try_catch
          (orgs_deleteOne (org_named orgName) ;;;
           admins_deleteOne
             (fun a => bool_decide (AdminDoc.organization_id a
                                    = Some (oid_toString (OrgDoc._id org)))) ;;;
           deleteOrgDatabase orgName ;;;
           ret (Ack.mk "Organization deleted successfully" orgName))
          (fun m => throw ("Failed to delete organization: " +:+ m))
    end.

(** ** [services.js]: [AuthService] *)

Definition adminLogin (now : Date) (email password : string) : M LoginResult.t :=
  if falsy email || falsy password then
    throw "Email and password are required"
  else
    let* admin := gets (fun w =>
      findOne (fun a => bool_decide (AdminDoc.admin_email a = email)) (admin_users w)) in
    match admin with
    | None => throw "Invalid credentials"
    | Some admin =>
        if negb (verifyPassword password (AdminDoc.password admin)) then
          throw "Invalid credentials"
        else
          let accessToken :=
            createAccessToken (oid_toString (AdminDoc._id admin))
              (AdminDoc.organization_id admin) (AdminDoc.organization_name admin)
              (AdminDoc.role admin) now in
          let refreshToken :=
            createRefreshToken (oid_toString (AdminDoc._id admin))
              (AdminDoc.organization_id admin) now in
          let hashedRefresh := hashToken refreshToken in
          admins_updateOne
            (fun a => bool_decide (AdminDoc._id a = AdminDoc._id admin))
            (AdminDoc.set_refresh hashedRefresh now) ;;;
          ret (LoginResult.mk accessToken refreshToken "bearer" (15 * 60)
                              (oid_toString (AdminDoc._id admin))
                              (AdminDoc.organization_id admin)
                              (AdminDoc.organization_name admin))
    end.

Definition refreshAccessToken (now : Date) (adminId refreshToken : string)
    : M RefreshResult.t :=
  try_catch
    (let* decoded := lift (verifyToken refreshToken now) in
     if negb (bool_decide (type decoded = Some "refresh")) then
       throw "Invalid refresh token type"
     else
       let* oid := match oid_parse adminId with
                   | Some oid => ret oid
                   | None => throw bson_error
                   end in
       let* admin := gets (fun w =>
         findOne (fun a => bool_decide (AdminDoc._id a = oid)) (admin_users w)) in
       match admin with
       | None => throw "Admin not found"
       | Some admin =>
           let hashedToken := hashToken refreshToken in
           if negb (bool_decide (AdminDoc.refresh_token_hash admin = Some hashedToken)) then
             throw "Refresh token mismatch"
           else
             let newAccessToken :=
               createAccessToken (oid_toString (AdminDoc._id admin))
                 (AdminDoc.organization_id admin) (AdminDoc.organization_name admin)
                 (AdminDoc.role admin) now in
             ret (RefreshResult.mk newAccessToken "bearer" (15 * 60))
       end)
    (fun m => throw ("Token refresh failed: " +:+ m)).

End Service.

(** ** A sample environment

    One implementation of [Externals] that computes, to run the methods on
    concrete worlds: tokens and digests are written out in clear, an object
    id is its decimal numeral. *)
Module Sample.

Definition show_N (n : N) : string :=
  NilZero.string_of_uint (N.to_uint n).

Definition read_N (s : string) : option N :=
  match s with
  | EmptyString => None
  | _ => N.of_uint <$> NilEmpty.uint_of_string s
  end.

Definition show_opt (o : option string) : string :=
  match o with
  | None => "~"
  | Some s => "=" +:+ s
  end.

Definition read_opt (s : string) : option string :=
  match s with
  | String "=" s' => Some s'
  | _ => None
  end.

(** The fields of a token, separated by [|]. *)
Fixpoint split_bar (s : string) : list string :=
  match s with
  | EmptyString => [EmptyString]
  | String c s' =>
      if Ascii.eqb c "|" then EmptyString :: split_bar s'
      else match split_bar s' with
           | [] => [String c EmptyString]
           | f :: fs => String c f :: fs
           end
  end.

Definition encode (c : Claims) (secret alg : string) : string :=
  secret +:+ "|" +:+ alg +:+ "|" +:+ sub c +:+ "|" +:+ show_opt (org_id c)
    +:+ "|" +:+ show_opt (org_name c) +:+ "|" +:+ show_opt (role c)
    +:+ "|" +:+ show_opt (type c) +:+ "|" +:+ show_N (iat c)
    +:+ "|" +:+ show_N (exp c).

Definition decode (token secret alg : string) : Result Claims :=
  match split_bar token with
  | [k; a; s; oi; on; r; t; i; e] =>
      match read_N i, read_N e with
      | Some i, Some e =>
          if bool_decide (k = secret) && bool_decide (a = alg)
          then Ok (mkClaims s (read_opt oi) (read_opt on) (read_opt r)
                            (read_opt t) i e)
          else Err "invalid signature"
      | _, _ => Err "jwt malformed"
      end
  | _ => Err "jwt malformed"
  end.

Definition has_at (s : string) : bool :=
  existsb (fun c => Ascii.eqb c "@") (list_ascii_of_string s).

Definition has_dot (s : string) : bool :=
  existsb (fun c => Ascii.eqb c ".") (list_ascii_of_string s).

Definition externals : Externals := {|
  jwtSecret := "k";
  jwtAlgorithm := "HS256";
  isEmail := has_at;
  bcrypt_hash password salt := salt +:+ "$" +:+ password;
  bcrypt_compare password hashed :=
    bool_decide (String.substring
                   (String.length hashed - String.length password - 1)
                   (S (String.length password)) hashed
                 = "$" +:+ password);
  sha256_hex token := "#" +:+ token;
  jwt_encode := encode;
  jwt_decode := decode;
  oid_toString := show_N;
  oid_parse := read_N;
  bson_error := "input must be a 24 character hex string, 12 byte Uint8Array, or an integer";
  duplicate_key_error index value :=
    "E11000 duplicate key error collection: "
    +:+ match index with
        | OrganizationName => "master_db.organizations index: organization_name_1"
        | AdminEmail => "master_db.admin_users index: admin_email_1"
        | UserEmail dbName => dbName +:+ ".users index: email_1"
        end
    +:+ " dup key: " +:+ value;
  db_name_error name :=
    if has_dot name then Some "Database names cannot contain the character '.'"
    else None
|}.

End Sample.

(** ** Sample worlds *)

Module Scenario.
#[local] Existing Instance Sample.externals.

(** After [create("Acme Inc", "admin@acme.com", "Secret123")] on the empty
    store. *)
Definition created : World :=
  snd (createOrganization 1000 "s1" "Acme Inc" "admin@acme.com" "Secret123"
                          empty_world).

(** After a first login of its administrator, at 5000 ms. *)
Definition logged_in : World :=
  snd (adminLogin 5000 "admin@acme.com" "Secret123" created).

(** The refresh token that this login issued. *)
Definition refresh_token_A : string := "k|HS256|1|=2|~|~|=refresh|5|604805".

(** After a second login, 400 ms later. *)
Definition logged_in_again : World :=
  snd (adminLogin 5400 "admin@acme.com" "Secret123" logged_in).

(** After a second login, two seconds later. *)
Definition logged_in_later : World :=
  snd (adminLogin 7000 "admin@acme.com" "Secret123" logged_in).
End Scenario.

(** * The vocabulary of the properties *)

(** ** Filters *)

(** [{ _id: oid }] *)
Definition admin_with_id (oid : ObjectId) (a : AdminDoc.t) : bool :=
  bool_decide (AdminDoc._id a = oid).

(** [{ admin_email: email }] *)
Definition admin_with_email (email : string) (a : AdminDoc.t) : bool :=
  bool_decide (AdminDoc.admin_email a = email).

(** [{ role }] *)
Definition user_with_role (role : string) (u : UserDoc.t) : bool :=
  bool_decide (UserDoc.role u = role).

(** ** Tokens and results *)

(** The presented token carries a good signature and has not expired. *)
Definition valid_token `{E : Externals} (token : string) (now : Date) (c : Claims) : Prop :=
  jwt_decode token jwtSecret jwtAlgorithm = Ok c /\ now / 1000 < exp c.

(** The payload of the refresh token that a login at [now] signs. *)
Definition refresh_payload (adminId : string) (orgId : option string) (now : Date) : Claims :=
  mkClaims adminId orgId None None (Some "refresh")
           (now / 1000) (now / 1000 + 7 * 24 * 60 * 60).

(** The refresh token that a login of [admin] at [now] issues. *)
Definition issued_refresh_token `{E : Externals} (now : Date) (admin : AdminDoc.t) : string :=
  createRefreshToken (oid_toString (AdminDoc._id admin))
                     (AdminDoc.organization_id admin) now.

(** The access token that a refresh issues for the administrator it found. *)
Definition refreshed `{E : Externals} (now : Date) (admin : AdminDoc.t) : RefreshResult.t :=
  RefreshResult.mk
    (createAccessToken (oid_toString (AdminDoc._id admin))
       (AdminDoc.organization_id admin) (AdminDoc.organization_name admin)
       (AdminDoc.role admin) now)
    "bearer" (15 * 60).

(** What a login of [admin] at [now] returns. *)
Definition login_result `{E : Externals} (now : Date) (admin : AdminDoc.t) : LoginResult.t :=
  LoginResult.mk
    (createAccessToken (oid_toString (AdminDoc._id admin))
       (AdminDoc.organization_id admin) (AdminDoc.organization_name admin)
       (AdminDoc.role admin) now)
    (issued_refresh_token now admin) "bearer" (15 * 60)
    (oid_toString (AdminDoc._id admin))
    (AdminDoc.organization_id admin) (AdminDoc.organization_name admin).

(** The message with which [routes.js] answers 403 on [DELETE /org/delete]
    when the caller's token belongs to another organization. *)
Definition forbidden_delete_message : string := "Cannot delete other organizations".

(** ** The store after a method that succeeded *)

(** The store after a create that succeeded: three documents appended, the
    administrator's organization reference filled in, six calls issued. *)
Definition after_create `{E : Externals} (now : Date)
    (salt orgName email password : string) (w : World) : World :=
  let dbName := namespaceFor orgName in
  let hashed := bcrypt_hash password salt in
  let uid := next_oid w in
  let aid := N.succ uid in
  let oid := N.succ aid in
  mkWorld
    (organizations w
     ++ [OrgDoc.mk oid orgName dbName email (oid_toString uid) now true])
    (updateFirst (fun a => bool_decide (AdminDoc._id a = aid))
       (AdminDoc.set_organization_id (oid_toString oid))
       (admin_users w
        ++ [AdminDoc.mk aid email hashed "org_admin" None (Some orgName)
                        now true None None]))
    (<[dbName := (users_of dbName w
                  ++ [UserDoc.mk uid email hashed "org_admin" now true None])%list]>
       (org_dbs w))
    (N.succ oid)
    (trace w ++ [CreateIndex dbName; HashPassword; UsersInsertOne dbName;
                 AdminInsertOne; OrgsInsertOne; AdminUpdateOne]).

(** The store after a delete that found the record [org]. *)
Definition after_delete `{E : Externals} (orgName : string) (org : OrgDoc.t)
    (w : World) : World :=
  mkWorld
    (deleteFirst (org_named orgName) (organizations w))
    (deleteFirst
       (fun a => bool_decide (AdminDoc.organization_id a
                              = Some (oid_toString (OrgDoc._id org))))
       (admin_users w))
    (delete (namespaceFor orgName) (org_dbs w))
    (next_oid w)
    (trace w ++ [OrgsDeleteOne; AdminDeleteOne; DropDatabase (namespaceFor orgName)]).

(** The store after a delete that found the record [org] and to which the
    driver then refused the tenant database: the record and the
    administrator are gone, the tenant databases are as they were. *)
Definition after_refused_delete `{E : Externals} (orgName : string) (org : OrgDoc.t)
    (w : World) : World :=
  mkWorld
    (deleteFirst (org_named orgName) (organizations w))
    (deleteFirst
       (fun a => bool_decide (AdminDoc.organization_id a
                              = Some (oid_toString (OrgDoc._id org))))
       (admin_users w))
    (org_dbs w)
    (next_oid w)
    (trace w ++ [OrgsDeleteOne; AdminDeleteOne]).

(** The store after a login of [admin] at [now]. *)
Definition after_login `{E : Externals} (now : Date) (admin : AdminDoc.t) (w : World) : World :=
  mkWorld (organizations w)
    (updateFirst (admin_with_id (AdminDoc._id admin))
       (AdminDoc.set_refresh (hashToken (issued_refresh_token now admin)) now)
       (admin_users w))
    (org_dbs w) (next_oid w) (trace w ++ [AdminUpdateOne]).

(** ** The order of the writes of a create, as stated *)

(** The calls of a successful create in the order in which C9 lists them:
    the administrator before the tenant's user. *)
Definition stated_create_order (dbName : string) : list Event :=
  [CreateIndex dbName; HashPassword; AdminInsertOne; UsersInsertOne dbName;
   OrgsInsertOne; AdminUpdateOne].

(** ** The derived database name, as the specification words it *)





(** ** What every method keeps true of the store *)

(** The unique index of the registry: no two records share a name. *)
Definition unique_names (w : World) : Prop :=
  NoDup (map OrgDoc.organization_name (organizations w)).

(** Every user of every tenant database has the role "org_admin". *)
Definition tenant_users_are_org_admins (w : World) : Prop :=
  forall dbName u, In u (users_of dbName w) -> UserDoc.role u = "org_admin".

Definition store_invariant (w : World) : Prop :=
  unique_names w /\ tenant_users_are_org_admins w.

(** A method keeps [inv] whether it returns or throws. *)
Definition preserves (inv : World -> Prop) {A} (m : M A) : Prop :=
  forall w, inv w -> inv (snd (m w)).

(** A call of one of the six methods of [services.js]. *)
Inductive Call :=
| CallCreate (now : Date) (salt orgName email password : string)
| CallGet (orgName : string)
| CallUpdate (now : Date) (salt orgName email password : string)
| CallDelete (orgName : string) (adminId : option string)
| CallLogin (now : Date) (email password : string)
| CallRefresh (now : Date) (adminId refreshToken : string).

(** The store after a call, returned or thrown. *)
Definition perform `{E : Externals} (c : Call) (w : World) : World :=
  match c with
  | CallCreate now salt orgName email password =>
      snd (createOrganization now salt orgName email password w)
  | CallGet orgName => snd (getOrganization orgName w)
  | CallUpdate now salt orgName email password =>
      snd (updateOrganization now salt orgName email password w)
  | CallDelete orgName adminId => snd (deleteOrganization orgName adminId w)
  | CallLogin now email password => snd (adminLogin now email password w)
  | CallRefresh now adminId refreshToken =>
      snd (refreshAccessToken now adminId refreshToken w)
  end.

(** The stores that calls of the service build from the empty one. *)
Inductive Reachable `{E : Externals} : World -> Prop :=
| Reachable_empty : Reachable empty_world
| Reachable_step (w : World) (c : Call) : Reachable w -> Reachable (perform c w).

(** * The HTTP layer and the seed script

    [src/validators.js], [src/routes.js] and [scripts/seed_master_db.js],
    on the same world.  Of a rate limiter of [express-rate-limit] the count
    that the library holds for the client is an argument of the route, as
    the clock is.  The calls of the logger are left out; of a validation
    failure the list of [details] is left out. *)

(** ** Requests and responses *)

(** A value of a parsed body or query string: a string, or any other JSON
    value, of which the code only ever asks whether it is truthy. *)
Inductive Json :=
| JString (s : string)
| JOther (truthy : bool).

(** [v ? _ : _] on a member that may be missing. *)
Definition truthy (v : option Json) : bool :=
  match v with
  | Some (JString s) => negb (falsy s)
  | Some (JOther b) => b
  | None => false
  end.

(** [req]: the [Authorization] header, the parsed body (an object, empty
    when the request has none) and the parsed query string. *)
Module Req.
Record t := mk {
  authorization : option string;
  body : gmap string Json;
  query : gmap string Json
}.
End Req.

(** What a handler passes to [res.json]. *)
Inductive Body :=
| ErrorBody (code message : string)
| CreateBody (r : CreateResult.t)
| GetBody (r : GetResult.t)
| AckBody (r : Ack.t)
| LoginBody (r : LoginResult.t)
| RefreshBody (r : RefreshResult.t)
| VerifyBody (admin_id : string) (organization_id organization_name role : option string)
             (message : string)
| HealthBody (status : string) (timestamp : Date)
| TextBody (text : string).

(** [res.status(status).json(json)] *)
Module Res.
Record t := mk {
  status : N;
  json : Body
}.
End Res.

(** A route: the response, and the store it leaves. *)
Definition Route : Type := World -> Res.t * World.

(** [haystack.includes(needle)] *)
Fixpoint includes (needle haystack : string) : bool :=
  String.prefix needle haystack ||
  match haystack with
  | EmptyString => false
  | String _ rest => includes needle rest
  end.

(** ** [validators.js] *)

(** [Joi.string().email()]: the address check of the library. *)
Class Joi := {
  joi_email : string -> bool
}.

(** A key of a schema: [Joi.string()[.min(n)][.max(n)][.email()].required()].
    Every key of every schema of the source is a required string. *)
Record StringRule := mkRule {
  rule_min : option nat;
  rule_max : option nat;
  rule_email : bool
}.

Definition Schema : Type := list (string * StringRule).

Definition createOrgSchema : Schema :=
  [("organization_name", mkRule (Some 2%nat) (Some 100%nat) false);
   ("email", mkRule None None true);
   ("password", mkRule (Some 6%nat) (Some 100%nat) false)].

Definition loginSchema : Schema :=
  [("email", mkRule None None true);
   ("password", mkRule None None false)].

Definition updateOrgSchema : Schema :=
  [("organization_name", mkRule (Some 2%nat) (Some 100%nat) false);
   ("email", mkRule None None true);
   ("password", mkRule (Some 6%nat) (Some 100%nat) false)].

Definition deleteOrgSchema : Schema :=
  [("organization_name", mkRule (Some 2%nat) (Some 100%nat) false)].

Definition getOrgSchema : Schema :=
  [("organization_name", mkRule (Some 2%nat) (Some 100%nat) false)].

(** [refreshTokenSchema] of [routes.js] *)
Definition refreshTokenSchema : Schema :=
  [("admin_id", mkRule None None false);
   ("refresh_token", mkRule None None false)].

Section Validators.
Context {J : Joi}.

(** A string passes its rule: a Joi string is not empty, and keeps to the
    bounds on its length and to the address check when they are set. *)
Definition string_ok (rule : StringRule) (s : string) : bool :=
  negb (falsy s)
  && match rule_min rule with
     | Some n => (n <=? String.length s)%nat
     | None => true
     end
  && match rule_max rule with
     | Some n => (String.length s <=? n)%nat
     | None => true
     end
  && (if rule_email rule then joi_email s else true).

(** A required string key: present, a string, and passing its rule. *)
Definition key_ok (source : gmap string Json) (entry : string * StringRule) : bool :=
  match source !! entry.1 with
  | Some (JString s) => string_ok entry.2 s
  | _ => false
  end.

(** A key of the source that the schema does not name is not allowed. *)
Definition key_known (schema : Schema) (key : string) : bool :=
  existsb (fun entry => bool_decide (entry.1 = key)) schema.

(** [schema.validate(source, { abortEarly: false })] has no [error]. *)
Definition schema_validate (schema : Schema) (source : gmap string Json) : bool :=
  forallb (key_ok source) schema
  && forallb (key_known schema) (map fst (map_to_list source)).

(** [validateRequest(schema)]: the body is validated when it has a truthy
    [organization_name], the query string otherwise; [req.validatedData] is
    the validated object. *)
Definition validateRequest (schema : Schema) (req : Req.t) : Res.t + gmap string Json :=
  let source :=
    if truthy (Req.body req !! "organization_name") then Req.body req
    else Req.query req in
  if schema_validate schema source then inr source
  else inl (Res.mk 400 (ErrorBody "VALIDATION_ERROR" "Input validation failed")).

End Validators.

(** A member of [req.validatedData] that the handler hands to a service:
    after validation every key of the schema holds a string. *)
Definition field (data : gmap string Json) (key : string) : string :=
  match data !! key with
  | Some (JString s) => s
  | _ => EmptyString
  end.

(** ** [routes.js] *)

Section Routes.
Context {E : Externals} {J : Joi}.

(** [extractToken]: [req.token] *)
Definition extractToken (req : Req.t) : option string :=
  match Req.authorization req with
  | Some authHeader =>
      if negb (falsy authHeader) && String.prefix "Bearer " authHeader
      then Some (String.substring 7 (String.length authHeader - 7) authHeader)
      else None
  | None => None
  end.

(** [requireAuth]: the 401 it answers with, or [req.user]. *)
Definition requireAuth (now : Date) (token : option string) : Res.t + Claims :=
  match token with
  | None => inl (Res.mk 401 (ErrorBody "MISSING_TOKEN" "Authorization header missing"))
  | Some token =>
      if falsy token then
        inl (Res.mk 401 (ErrorBody "MISSING_TOKEN" "Authorization header missing"))
      else
        match verifyToken token now with
        | Ok decoded => inr decoded
        | Err _ => inl (Res.mk 401 (ErrorBody "INVALID_TOKEN" "Invalid or expired token"))
        end
  end.

(** [try { const result = await service; ok(result) } catch (error)
    { failed(error.message) }] *)
Definition respond {A} (service : M A) (ok : A -> Res.t) (failed : string -> Res.t) : Route :=
  fun w =>
    match service w with
    | (Ok result, w') => (ok result, w')
    | (Err message, w') => (failed message, w')
    end.

Definition answer (res : Res.t) : Route := fun w => (res, w).

(** The check of [PUT /org/update] and [DELETE /org/delete]:
    [req.user.role !== 'admin' && req.user.org_name !== organization_name] *)
Definition other_organization (user : Claims) (organization_name : string) : bool :=
  negb (bool_decide (role user = Some "admin"))
  && negb (bool_decide (org_name user = Some organization_name)).

(** [rateLimit({ windowMs: 15 * 60 * 1000, max, message })] of
    [express-rate-limit], mounted before the rest of a route.  The library
    counts the requests of a client in its current window of fifteen
    minutes, this one included and the refused ones too; [hits] is the
    count it holds for the client before this request.  When the count
    goes over [max] it answers itself, 429 with the message as text, and
    the rest of the route does not run. *)
Definition rateLimit (max : N) (message : string) (hits : N) (next : Route) : Route :=
  if max <? hits + 1 then answer (Res.mk 429 (TextBody message)) else next.

(** [createOrgLimiter] *)
Definition createOrgLimiter : N -> Route -> Route :=
  rateLimit 5 "Too many organization creation attempts, please try again later.".

(** [loginLimiter] *)
Definition loginLimiter : N -> Route -> Route :=
  rateLimit 5 "Too many login attempts, please try again later.".

(** [POST /org/create] *)
Definition post_org_create (hits : N) (now : Date) (salt : string) (req : Req.t) : Route :=
  createOrgLimiter hits
    match validateRequest createOrgSchema req with
    | inl res => answer res
    | inr data =>
        respond
          (createOrganization now salt (field data "organization_name")
                              (field data "email") (field data "password"))
          (fun result => Res.mk 200 (CreateBody result))
          (fun message =>
             Res.mk (if includes "already exists" message then 409 else 400)
                    (ErrorBody "CREATE_ORG_ERROR" message))
    end.

(** [GET /org/get] *)
Definition get_org_get (req : Req.t) : Route :=
  match validateRequest getOrgSchema req with
  | inl res => answer res
  | inr data =>
      respond
        (getOrganization (field data "organization_name"))
        (fun result => Res.mk 200 (GetBody result))
        (fun message =>
           Res.mk (if includes "not found" message then 404 else 400)
                  (ErrorBody "GET_ORG_ERROR" message))
  end.

(** [PUT /org/update] *)
Definition put_org_update (now : Date) (salt : string) (req : Req.t) : Route :=
  match requireAuth now (extractToken req) with
  | inl res => answer res
  | inr user =>
      match validateRequest updateOrgSchema req with
      | inl res => answer res
      | inr data =>
          if other_organization user (field data "organization_name") then
            answer (Res.mk 403 (ErrorBody "FORBIDDEN" "Cannot update other organizations"))
          else
            respond
              (updateOrganization now salt (field data "organization_name")
                                  (field data "email") (field data "password"))
              (fun result => Res.mk 200 (AckBody result))
              (fun message =>
                 Res.mk (if includes "not found" message then 404 else 400)
                        (ErrorBody "UPDATE_ORG_ERROR" message))
      end
  end.

(** [DELETE /org/delete] *)
Definition delete_org_delete (now : Date) (req : Req.t) : Route :=
  match requireAuth now (extractToken req) with
  | inl res => answer res
  | inr user =>
      match validateRequest deleteOrgSchema req with
      | inl res => answer res
      | inr data =>
          if other_organization user (field data "organization_name") then
            answer (Res.mk 403 (ErrorBody "FORBIDDEN" forbidden_delete_message))
          else
            respond
              (deleteOrganization (field data "organization_name") (Some (sub user)))
              (fun result => Res.mk 200 (AckBody result))
              (fun message =>
                 Res.mk (if includes "not found" message then 404 else 403)
                        (ErrorBody "DELETE_ORG_ERROR" message))
      end
  end.

(** [POST /admin/login] *)
Definition post_admin_login (hits : N) (now : Date) (req : Req.t) : Route :=
  loginLimiter hits
    match validateRequest loginSchema req with
    | inl res => answer res
    | inr data =>
        respond
          (adminLogin now (field data "email") (field data "password"))
          (fun result => Res.mk 200 (LoginBody result))
          (fun message =>
             Res.mk (if includes "credentials" message then 401 else 400)
                    (ErrorBody "LOGIN_ERROR" message))
    end.

(** [POST /auth/refresh] *)
Definition post_auth_refresh (now : Date) (req : Req.t) : Route :=
  match validateRequest refreshTokenSchema req with
  | inl res => answer res
  | inr data =>
      respond
        (refreshAccessToken now (field data "admin_id") (field data "refresh_token"))
        (fun result => Res.mk 200 (RefreshBody result))
        (fun message => Res.mk 401 (ErrorBody "REFRESH_ERROR" message))
  end.


(** [GET /health] *)
Definition get_health (now : Date) : Route :=
  answer (Res.mk 200 (HealthBody "ok" now)).

End Routes.

(** ** [scripts/seed_master_db.js] *)

Section Seed.
Context {E : Externals}.

(** [seedMasterDb()].  It lays the two unique indexes at every run, before
    it looks for "Sample Org".  They are the indexes that every world has
    in place, whose refusals are those of the insert and update calls, so
    laying them again goes through and changes no document.  [Err] is the
    line that the script prints before [process.exit(1)]. *)
Definition seedMasterDb (now : Date) (salt : string) : M unit :=
  try_catch
    (log AdminCreateIndex ;;;
     log OrgsCreateIndex ;;;
     let* existing := gets (fun w => findOne (org_named "Sample Org") (organizations w)) in
     match existing with
     | Some _ => ret tt
     | None =>
         let password := "sample_password_123" in
         let* hashedPassword := hashPassword salt password in
         let* adminResult :=
           admins_insertOne (fun id =>
             AdminDoc.mk id "admin@sample.com" hashedPassword "admin" None None
                         now true None None) in
         let* orgResult :=
           orgs_insertOne (fun id =>
             OrgDoc.mk id "Sample Org" "org_sample_org" "admin@sample.com"
                       (oid_toString adminResult) now true) in
         admins_updateOne
           (fun a => bool_decide (AdminDoc._id a = adminResult))
           (AdminDoc.set_organization_id (oid_toString orgResult))
     end)
    (fun m => throw ("Seeding error: " +:+ m)).

End Seed.

(** ** A sample of the HTTP layer *)

Module SampleHttp.

(** An address check that computes: an [@] and a dot. *)
Definition email_like (s : string) : bool :=
  existsb (fun c => Ascii.eqb c "@") (list_ascii_of_string s)
  && existsb (fun c => Ascii.eqb c ".") (list_ascii_of_string s).

Definition joi : Joi := {| joi_email := email_like |}.

(** A JSON object with string members. *)
Definition object (members : list (string * string)) : gmap string Json :=
  list_to_map (map (fun m => (m.1, JString m.2)) members).

End SampleHttp.

(** * The vocabulary of the further properties *)

(** An upper-case ASCII letter. *)
Definition is_upper (c : ascii) : bool :=
  let n := N_of_ascii c in (65 <=? n) && (n <=? 90).

(** A run of white space: one character or more, all of them white
    space. *)
Definition space_run (s : string) : bool :=
  negb (falsy s) && forallb is_space (list_ascii_of_string s).

(** The characters that a derived database name is made of. *)
Definition name_char (c : ascii) : bool := negb (is_space c) && negb (is_upper c).

(** [{ organization_id: org._id.toString() }] *)
Definition admin_of `{E : Externals} (org : OrgDoc.t) (a : AdminDoc.t) : bool :=
  bool_decide (AdminDoc.organization_id a = Some (oid_toString (OrgDoc._id org))).

(** The administrator that a successful create leaves in the store. *)
Definition created_admin `{E : Externals} (now : Date)
    (salt orgName email password : string) (w : World) : AdminDoc.t :=
  AdminDoc.mk (N.succ (next_oid w)) email (bcrypt_hash password salt) "org_admin"
              (Some (oid_toString (N.succ (N.succ (next_oid w))))) (Some orgName)
              now true None None.


(** What a login leaves alone in an administrator's record: everything but
    the two refresh fields. *)
Definition identity_of (a : AdminDoc.t) :=
  (AdminDoc._id a, AdminDoc.admin_email a, AdminDoc.password a, AdminDoc.role a,
   AdminDoc.organization_id a, AdminDoc.organization_name a,
   AdminDoc.created_at a, AdminDoc.is_active a).

(** The unique index of [admin_users], and the ids that the driver has
    drawn so far. *)
Definition unique_admin_emails (w : World) : Prop :=
  NoDup (map AdminDoc.admin_email (admin_users w)).

Definition admin_ids_drawn (w : World) : Prop :=
  NoDup (map AdminDoc._id (admin_users w)) /\
  forall a, In a (admin_users w) -> AdminDoc._id a < next_oid w.

Definition admin_invariant (w : World) : Prop :=
  unique_admin_emails w /\ admin_ids_drawn w.

(** A second tenant beside the one of [Scenario.created], and a tenant
    whose name differs from "Acme Inc" in case only. *)
Module TwoTenants.
#[local] Existing Instance Sample.externals.

Definition both : World :=
  snd (createOrganization 2000 "s2" "Beta Ltd" "admin@beta.com" "Secret456"
                          Scenario.created).

Definition colliding : World :=
  snd (createOrganization 2000 "s2" "acme inc" "admin@lower.com" "Secret456"
                          Scenario.created).
End TwoTenants.

(** Does the call name [n] as the organization to create or to delete? *)
Definition writes_record (c : Call) (n : string) : bool :=
  match c with
  | CallCreate _ _ orgName _ _ | CallDelete orgName _ => bool_decide (orgName = n)
  | _ => false
  end.

(** Is the call a create or a delete? *)
Definition writes_registry (c : Call) : bool :=
  match c with
  | CallCreate _ _ _ _ _ | CallDelete _ _ => true
  | _ => false
  end.

(** A property of the store that only looks at the registry. *)
Definition on_registry (inv : list OrgDoc.t -> Prop) (w : World) : Prop :=
  inv (organizations w).

(** The payload of the access token that is signed at [now]. *)
Definition access_payload (adminId : string) (orgId orgName : option string)
    (role : string) (now : Date) : Claims :=
  mkClaims adminId orgId orgName (Some role) None
           (now / 1000) (now / 1000 + 15 * 60).

(** The two bodies with which [requireAuth] answers 401. *)
Definition missing_token : Res.t :=
  Res.mk 401 (ErrorBody "MISSING_TOKEN" "Authorization header missing").

Definition invalid_token : Res.t :=
  Res.mk 401 (ErrorBody "INVALID_TOKEN" "Invalid or expired token").

(** What the two limiters answer to a request beyond the fifth of a
    client's window. *)
Definition too_many_creates : Res.t :=
  Res.mk 429 (TextBody "Too many organization creation attempts, please try again later.").

Definition too_many_logins : Res.t :=
  Res.mk 429 (TextBody "Too many login attempts, please try again later.").

(** The body with which [validateRequest] answers 400, without its list of
    details. *)
Definition validation_error : Res.t :=
  Res.mk 400 (ErrorBody "VALIDATION_ERROR" "Input validation failed").

(** The store after the two index calls that open every run of the seed. *)
Definition indexes_laid (w : World) : World :=
  mkWorld (organizations w) (admin_users w) (org_dbs w) (next_oid w)
          (trace w ++ [AdminCreateIndex; OrgsCreateIndex]).

(** The store after a seed that wrote: the super administrator and the
    record of "Sample Org", and no tenant database. *)
Definition after_seed `{E : Externals} (now : Date) (salt : string) (w : World) : World :=
  let aid := next_oid w in
  let oid := N.succ aid in
  mkWorld
    (organizations w
     ++ [OrgDoc.mk oid "Sample Org" "org_sample_org" "admin@sample.com"
                   (oid_toString aid) now true])
    (updateFirst (admin_with_id aid)
       (AdminDoc.set_organization_id (oid_toString oid))
       (admin_users w
        ++ [AdminDoc.mk aid "admin@sample.com" (bcrypt_hash "sample_password_123" salt)
                        "admin" None None now true None None]))
    (org_dbs w)
    (N.succ oid)
    (trace w ++ [AdminCreateIndex; OrgsCreateIndex; HashPassword; AdminInsertOne;
                 OrgsInsertOne; AdminUpdateOne]).

(** The administrator that the seed leaves in a store in which its id was
    not in use. *)
Definition seeded_admin `{E : Externals} (now : Date) (salt : string) (w : World)
    : AdminDoc.t :=
  AdminDoc.mk (next_oid w) "admin@sample.com" (bcrypt_hash "sample_password_123" salt)
              "admin" (Some (oid_toString (N.succ (next_oid w)))) None now true None None.

(** * Properties *)

(** ** Collections *)

Section Collections.
Context {D : Type}.
Implicit Types (p q : D -> bool) (f : D -> D) (l : list D) (d : D).

Lemma findOne_app_None p l d :
  findOne p l = None ->
  findOne p (l ++ [d]) = if p d then Some d else None.
Proof.
  unfold findOne. induction l as [|x l IH]; simpl.
  - destruct (p d); reflexivity.
  - destruct (p x); [discriminate | exact IH].
Qed.

Lemma findOne_Some_In p l d : findOne p l = Some d -> In d l.
Proof. unfold findOne. intros H. apply find_some in H. tauto. Qed.

Lemma findOne_updateFirst_same p f l :
  (forall d, p (f d) = p d) ->
  findOne p (updateFirst p f l) = f <$> findOne p l.
Proof.
  intros Hp. unfold findOne. induction l as [|x l IH]; simpl; [reflexivity|].
  destruct (p x) eqn:Hx; simpl.
  - rewrite Hp, Hx. reflexivity.
  - rewrite Hx. exact IH.
Qed.

Lemma findOne_updateFirst_stable q p f l d :
  (forall d, q (f d) = q d) ->
  findOne q l = Some d ->
  findOne q (updateFirst p f l) = Some d \/
  findOne q (updateFirst p f l) = Some (f d).
Proof.
  intros Hq. unfold findOne. induction l as [|x l IH]; simpl; [discriminate|].
  destruct (p x) eqn:Hp; simpl.
  - rewrite Hq. destruct (q x); intros H; [|left; exact H].
    right. congruence.
  - destruct (q x); intros H; [left; exact H | apply IH; exact H].
Qed.

Lemma updateFirst_None p f l : findOne p l = None -> updateFirst p f l = l.
Proof.
  unfold findOne. induction l as [|x l IH]; simpl; [reflexivity|].
  destruct (p x); [discriminate|]. intros H. rewrite IH; auto.
Qed.

Lemma findOne_none_all p l :
  (forall d, In d l -> p d = false) -> findOne p l = None.
Proof.
  unfold findOne. induction l as [|x l IH]; simpl; [reflexivity|].
  intros H. rewrite (H x) by (left; reflexivity). apply IH.
  intros d Hd. apply H. right. exact Hd.
Qed.

(** Under a unique index, removing the first holder of a value leaves no
    holder of it. *)
Lemma findOne_deleteFirst_unique (key : D -> string) (v : string) l :
  NoDup (map key l) ->
  findOne (fun d => bool_decide (key d = v))
          (deleteFirst (fun d => bool_decide (key d = v)) l) = None.
Proof.
  unfold findOne. induction l as [|x l IH]; simpl; [reflexivity|].
  intros Hnd. apply NoDup_cons in Hnd as [Hx Hnd].
  case_bool_decide as Hk; simpl.
  - apply findOne_none_all. intros y Hy. case_bool_decide as Hy'; [|reflexivity].
    exfalso. apply Hx. rewrite Hk, <- Hy'. apply list_elem_of_In, in_map, Hy.
  - rewrite bool_decide_eq_false_2 by exact Hk. apply IH, Hnd.
Qed.

End Collections.

Lemma In_updateFirst {D} (p : D -> bool) (f : D -> D) (l : list D) (d : D) :
  In d l -> In d (updateFirst p f l) \/ In (f d) (updateFirst p f l).
Proof.
  induction l as [|x l IH]; simpl; [tauto|].
  intros [-> | Hd].
  - destruct (p d); simpl; auto.
  - destruct (p x); simpl; [auto|]. destruct (IH Hd); auto.
Qed.

Lemma findOne_app_Some {D} (p : D -> bool) (l : list D) (d : D) :
  p d = true -> exists d0, findOne p (l ++ [d]) = Some d0.
Proof.
  intros Hd. unfold findOne. induction l as [|x l IH]; simpl.
  - rewrite Hd. eauto.
  - destruct (p x); eauto.
Qed.

Lemma findOne_In_Some {D} (p : D -> bool) (l : list D) (d : D) :
  In d l -> p d = true -> exists d0, findOne p l = Some d0.
Proof.
  unfold findOne. induction l as [|x l IH]; simpl; [tauto|].
  intros [-> | Hd] Hp.
  - rewrite Hp. eauto.
  - destruct (p x); eauto.
Qed.

Lemma In_updateFirst_inv {D} (p : D -> bool) (f : D -> D) (l : list D) (d : D) :
  In d (updateFirst p f l) -> In d l \/ exists d0, In d0 l /\ d = f d0.
Proof.
  induction l as [|x l IH]; simpl; [tauto|].
  destruct (p x); simpl.
  - intros [<-|H]; [right; exists x; auto | auto].
  - intros [<-|H]; [auto|]. destruct (IH H) as [?|(d0 & ? & ?)]; [auto|].
    right. exists d0. auto.
Qed.

Lemma key_taken_findOne {D} (key : D -> string) (v : string) (l : list D) :
  findOne (fun d => bool_decide (key d = v)) l = None -> key_taken key v l = false.
Proof.
  unfold findOne, key_taken. induction l as [|x l IH]; simpl; [reflexivity|].
  destruct (bool_decide (key x = v)); [discriminate | exact IH].
Qed.

Lemma NoDup_snoc_fresh {D} (key : D -> string) (l : list D) (d : D) :
  key_taken key (key d) l = false ->
  NoDup (map key l) -> NoDup (map key (l ++ [d])).
Proof.
  intros Hk Hnd. rewrite map_app. apply NoDup_app. split; [exact Hnd|].
  split; [|apply NoDup_singleton].
  intros v Hv Hv'. apply list_elem_of_singleton in Hv'. subst v.
  apply list_elem_of_In, in_map_iff in Hv as (x & Hx & Hin).
  unfold key_taken in Hk. apply not_true_iff_false in Hk. apply Hk.
  apply existsb_exists. exists x. split; [exact Hin|].
  apply bool_decide_eq_true_2, Hx.
Qed.

Lemma NoDup_deleteFirst {D} (key : D -> string) (p : D -> bool) (l : list D) :
  NoDup (map key l) -> NoDup (map key (deleteFirst p l)).
Proof.
  induction l as [|x l IH]; simpl; [auto|].
  intros Hnd. apply NoDup_cons in Hnd as [Hx Hnd].
  destruct (p x); [exact Hnd|]. simpl. apply NoDup_cons. split; [|auto].
  intros Hin. apply Hx. clear -Hin.
  induction l as [|y l IH]; simpl in *; [exact Hin|].
  destruct (p y); [right; exact Hin|].
  apply elem_of_cons in Hin as [->|Hin]; [left | right; auto].
Qed.

(** ** Sequencing *)

Ltac run :=
  cbv [bind ret throw try_catch gets modify log fresh_oid lift
       set_organizations set_admin_users set_org_dbs].

Lemma falsy_false (s : string) : s <> "" -> falsy s = false.
Proof. intros H. unfold falsy. apply bool_decide_eq_false_2, H. Qed.

Lemma bind_Ok_inv {A B} (m : M A) (k : A -> M B) w b w' :
  bind m k w = (Ok b, w') ->
  exists a w1, m w = (Ok a, w1) /\ k a w1 = (Ok b, w').
Proof.
  unfold bind. destruct (m w) as [[a|e] w1]; [|discriminate].
  intros H. exists a, w1. split; [reflexivity | exact H].
Qed.

Lemma bind_Ok {A B} (m : M A) (k : A -> M B) w a w1 :
  m w = (Ok a, w1) -> bind m k w = k a w1.
Proof. unfold bind. intros ->. reflexivity. Qed.

Lemma bind_Err {A B} (m : M A) (k : A -> M B) w e w1 :
  m w = (Err e, w1) -> bind m k w = (Err e, w1).
Proof. unfold bind. intros ->. reflexivity. Qed.

Lemma try_catch_Ok_inv {A} (m : M A) (prefix : string) w a w' :
  try_catch m (fun e => throw (prefix +:+ e)) w = (Ok a, w') -> m w = (Ok a, w').
Proof.
  unfold try_catch, throw. destruct (m w) as [[a'|e] w1]; [|discriminate].
  intros H. exact H.
Qed.

Lemma try_catch_Ok {A} (m : M A) (h : string -> M A) w a w' :
  m w = (Ok a, w') -> try_catch m h w = (Ok a, w').
Proof. unfold try_catch. intros ->. reflexivity. Qed.

(** ** The store calls, one at a time *)

Section StoreCalls.
Context {E : Externals}.

Lemma createOrgDatabase_run orgName w :
  db_name_error (namespaceFor orgName) = None ->
  createOrgDatabase orgName w =
  (Ok (namespaceFor orgName, namespaceFor orgName),
   mkWorld (organizations w) (admin_users w)
     (match org_dbs w !! namespaceFor orgName with
      | Some _ => org_dbs w
      | None => <[namespaceFor orgName := []]> (org_dbs w)
      end)
     (next_oid w) (trace w ++ [CreateIndex (namespaceFor orgName)])).
Proof.
  intros Hdb. unfold createOrgDatabase, client_db. rewrite Hdb. run. simpl.
  destruct (org_dbs w !! namespaceFor orgName); reflexivity.
Qed.

(** A name that the driver refuses: nothing is provisioned. *)
Lemma createOrgDatabase_refused orgName w message :
  db_name_error (namespaceFor orgName) = Some message ->
  createOrgDatabase orgName w = (Err message, w).
Proof.
  intros Hdb. unfold createOrgDatabase, client_db. rewrite Hdb. reflexivity.
Qed.

Lemma deleteOrgDatabase_run orgName w :
  db_name_error (namespaceFor orgName) = None ->
  deleteOrgDatabase orgName w =
  (Ok (namespaceFor orgName),
   mkWorld (organizations w) (admin_users w)
     (delete (namespaceFor orgName) (org_dbs w))
     (next_oid w) (trace w ++ [DropDatabase (namespaceFor orgName)])).
Proof.
  intros Hdb. unfold deleteOrgDatabase, client_db. rewrite Hdb. reflexivity.
Qed.

Lemma deleteOrgDatabase_refused orgName w message :
  db_name_error (namespaceFor orgName) = Some message ->
  deleteOrgDatabase orgName w = (Err message, w).
Proof.
  intros Hdb. unfold deleteOrgDatabase, client_db. rewrite Hdb. reflexivity.
Qed.

Lemma getOrgDb_run orgName w :
  db_name_error (namespaceFor orgName) = None ->
  getOrgDb orgName w = (Ok (namespaceFor orgName), w).
Proof.
  intros Hdb. unfold getOrgDb, client_db. rewrite Hdb. reflexivity.
Qed.

Lemma getOrgDb_refused orgName w message :
  db_name_error (namespaceFor orgName) = Some message ->
  getOrgDb orgName w = (Err message, w).
Proof.
  intros Hdb. unfold getOrgDb, client_db. rewrite Hdb. reflexivity.
Qed.

Lemma hashPassword_run salt password w :
  hashPassword salt password w =
  (Ok (bcrypt_hash password salt),
   mkWorld (organizations w) (admin_users w) (org_dbs w) (next_oid w)
           (trace w ++ [HashPassword])).
Proof. reflexivity. Qed.

Lemma users_insertOne_Ok_inv dbName doc w id w1 :
  users_insertOne dbName doc w = (Ok id, w1) ->
  id = next_oid w /\
  key_taken UserDoc.email (UserDoc.email (doc id)) (users_of dbName w) = false /\
  w1 = mkWorld (organizations w) (admin_users w)
         (<[dbName := (users_of dbName w ++ [doc id])%list]> (org_dbs w))
         (N.succ (next_oid w)) (trace w ++ [UsersInsertOne dbName]).
Proof.
  unfold users_insertOne. run. unfold users_of. simpl.
  destruct (key_taken _ _ _) eqn:Hk; [discriminate|].
  intros [= <- <-]. auto.
Qed.

Lemma admins_insertOne_Ok_inv doc w id w1 :
  admins_insertOne doc w = (Ok id, w1) ->
  id = next_oid w /\
  key_taken AdminDoc.admin_email (AdminDoc.admin_email (doc id)) (admin_users w) = false /\
  w1 = mkWorld (organizations w) (admin_users w ++ [doc id]) (org_dbs w)
         (N.succ (next_oid w)) (trace w ++ [AdminInsertOne]).
Proof.
  unfold admins_insertOne. run. simpl.
  destruct (key_taken _ _ _) eqn:Hk; [discriminate|].
  intros [= <- <-]. auto.
Qed.

Lemma orgs_insertOne_Ok_inv doc w id w1 :
  orgs_insertOne doc w = (Ok id, w1) ->
  id = next_oid w /\
  key_taken OrgDoc.organization_name (OrgDoc.organization_name (doc id))
            (organizations w) = false /\
  w1 = mkWorld (organizations w ++ [doc id]) (admin_users w) (org_dbs w)
         (N.succ (next_oid w)) (trace w ++ [OrgsInsertOne]).
Proof.
  unfold orgs_insertOne. run. simpl.
  destruct (key_taken _ _ _) eqn:Hk; [discriminate|].
  intros [= <- <-]. auto.
Qed.

Lemma admins_updateOne_Ok_inv filter f w u w1 :
  admins_updateOne filter f w = (Ok u, w1) ->
  w1 = mkWorld (organizations w) (updateFirst filter f (admin_users w)) (org_dbs w)
         (next_oid w) (trace w ++ [AdminUpdateOne]).
Proof.
  unfold admins_updateOne. run. simpl.
  destruct (findOne filter (admin_users w)) as [a|] eqn:Hf.
  - destruct (key_clash _ _ _ _); [discriminate|]. intros [= _ <-]. reflexivity.
  - intros [= _ <-]. rewrite (updateFirst_None _ _ _ Hf). reflexivity.
Qed.

(** An update that leaves [admin_email] alone cannot be refused. *)
Lemma admins_updateOne_run filter f w :
  (forall a, AdminDoc.admin_email (f a) = AdminDoc.admin_email a) ->
  admins_updateOne filter f w =
  (Ok tt, mkWorld (organizations w) (updateFirst filter f (admin_users w)) (org_dbs w)
            (next_oid w) (trace w ++ [AdminUpdateOne])).
Proof.
  intros Hf. unfold admins_updateOne. run. simpl.
  destruct (findOne filter (admin_users w)) as [a|] eqn:Hfind.
  - unfold key_clash. rewrite bool_decide_eq_true_2 by apply Hf. reflexivity.
  - rewrite (updateFirst_None _ _ _ Hfind). reflexivity.
Qed.


Lemma admins_insertOne_run doc w :
  key_taken AdminDoc.admin_email (AdminDoc.admin_email (doc (next_oid w)))
            (admin_users w) = false ->
  admins_insertOne doc w =
  (Ok (next_oid w),
   mkWorld (organizations w) (admin_users w ++ [doc (next_oid w)]) (org_dbs w)
     (N.succ (next_oid w)) (trace w ++ [AdminInsertOne])).
Proof.
  intros Hk. unfold admins_insertOne. run. simpl. rewrite Hk. reflexivity.
Qed.

Lemma orgs_insertOne_run doc w :
  key_taken OrgDoc.organization_name (OrgDoc.organization_name (doc (next_oid w)))
            (organizations w) = false ->
  orgs_insertOne doc w =
  (Ok (next_oid w),
   mkWorld (organizations w ++ [doc (next_oid w)]) (admin_users w) (org_dbs w)
     (N.succ (next_oid w)) (trace w ++ [OrgsInsertOne])).
Proof.
  intros Hk. unfold orgs_insertOne. run. simpl. rewrite Hk. reflexivity.
Qed.

End StoreCalls.

Lemma users_updateOne_no_match `{E : Externals} dbName filter f w :
  findOne filter (users_of dbName w) = None ->
  users_updateOne dbName filter f w
  = (Ok tt, mkWorld (organizations w) (admin_users w) (org_dbs w) (next_oid w)
              (trace w ++ [UsersUpdateOne dbName])).
Proof.
  intros Hf. unfold users_updateOne. run. unfold users_of in *. simpl.
  rewrite Hf. reflexivity.
Qed.

(** ** The derived database name *)



(** The name that [src/test.js] expects for its organization, and the one
    that [seed_master_db.js] writes for the seeded one. *)
Example namespaceFor_test_company : namespaceFor "Test Company" = "org_test_company".
Proof. reflexivity. Qed.

Example namespaceFor_sample_org : namespaceFor "Sample Org" = "org_sample_org".
Proof. reflexivity. Qed.

Example namespaceFor_run_of_spaces :
  namespaceFor (" Acme" +:+ String "009" "  Inc ") = "org__acme_inc_".
Proof. reflexivity. Qed.

(** ** [createOrganization] *)

Lemma createOrganization_Ok_inv `{E : Externals} now salt orgName email password w s w' :
  createOrganization now salt orgName email password w = (Ok s, w') ->
  orgName <> "" /\
  findOne (org_named orgName) (organizations w) = None /\
  s = CreateResult.mk (oid_toString (N.succ (N.succ (next_oid w)))) orgName
        (namespaceFor orgName) email now "Organization created successfully" /\
  w' = after_create now salt orgName email password w.
Proof.
  unfold createOrganization. intros H.
  destruct (falsy orgName) eqn:Hn; [discriminate|]. simpl in H.
  apply bool_decide_eq_false_1 in Hn. split; [exact Hn|].
  destruct (falsy email || falsy password); [discriminate|].
  destruct (negb (isEmail email)); [discriminate|].
  destruct (String.length password <? 6)%nat; [discriminate|].
  apply bind_Ok_inv in H as (existing & w0 & Hget & H).
  unfold gets in Hget. injection Hget as <- <-.
  destruct (findOne (org_named orgName) (organizations w)) eqn:Hf; [discriminate|].
  split; [reflexivity|].
  apply try_catch_Ok_inv in H.
  destruct (db_name_error (namespaceFor orgName)) as [message|] eqn:Hdb.
  { rewrite (bind_Err _ _ _ _ _ (createOrgDatabase_refused orgName w _ Hdb)) in H.
    discriminate. }
  rewrite (bind_Ok _ _ _ _ _ (createOrgDatabase_run orgName w Hdb)) in H.
  rewrite (bind_Ok _ _ _ _ _ (hashPassword_run salt password _)) in H.
  apply bind_Ok_inv in H as (uid & w1 & Hu & H).
  apply users_insertOne_Ok_inv in Hu as (-> & _ & ->).
  apply bind_Ok_inv in H as (aid & w2 & Ha & H).
  apply admins_insertOne_Ok_inv in Ha as (-> & _ & ->).
  apply bind_Ok_inv in H as (oid & w3 & Ho & H).
  apply orgs_insertOne_Ok_inv in Ho as (-> & _ & ->).
  apply bind_Ok_inv in H as (u & w4 & Hb & H).
  apply admins_updateOne_Ok_inv in Hb as ->.
  unfold ret in H. injection H as <- <-. simpl.
  split; [reflexivity|].
  unfold after_create, users_of. simpl. f_equal.
  - destruct (org_dbs w !! namespaceFor orgName) eqn:Hdbs; simpl.
    + rewrite Hdbs. reflexivity.
    + rewrite lookup_insert_eq, insert_insert_eq. reflexivity.
  - rewrite <- !app_assoc. reflexivity.
Qed.

Lemma users_of_ensured dbName w o a n t :
  users_of dbName
    (mkWorld o a
       (match org_dbs w !! dbName with
        | Some _ => org_dbs w
        | None => <[dbName := []]> (org_dbs w)
        end) n t)
  = users_of dbName w.
Proof.
  unfold users_of. simpl. destruct (org_dbs w !! dbName) eqn:Hdb; simpl.
  - rewrite Hdb. reflexivity.
  - rewrite lookup_insert_eq. reflexivity.
Qed.

(** What a create that succeeded has checked, and what the store calls it
    issued have accepted. *)
Lemma createOrganization_Ok_checked `{E : Externals}
    now salt orgName email password w s w' :
  createOrganization now salt orgName email password w = (Ok s, w') ->
  email <> "" /\ password <> "" /\ isEmail email = true /\
  (6 <= String.length password)%nat /\
  key_taken AdminDoc.admin_email email (admin_users w) = false /\
  key_taken UserDoc.email email (users_of (namespaceFor orgName) w) = false /\
  db_name_error (namespaceFor orgName) = None.
Proof.
  unfold createOrganization. intros H.
  destruct (falsy orgName); [discriminate|].
  destruct (falsy email) eqn:He; [discriminate|].
  destruct (falsy password) eqn:Hp; [discriminate|]. simpl in H.
  apply bool_decide_eq_false_1 in He, Hp.
  destruct (isEmail email); [|discriminate]. simpl in H.
  destruct (Nat.ltb_spec (String.length password) 6) as [|Hl]; [discriminate|].
  do 4 (split; [assumption || reflexivity|]).
  apply bind_Ok_inv in H as (existing & w0 & Hget & H).
  unfold gets in Hget. injection Hget as <- <-.
  destruct (findOne (org_named orgName) (organizations w)); [discriminate|].
  apply try_catch_Ok_inv in H.
  destruct (db_name_error (namespaceFor orgName)) as [message|] eqn:Hdb.
  { rewrite (bind_Err _ _ _ _ _ (createOrgDatabase_refused orgName w _ Hdb)) in H.
    discriminate. }
  rewrite (bind_Ok _ _ _ _ _ (createOrgDatabase_run orgName w Hdb)) in H.
  rewrite (bind_Ok _ _ _ _ _ (hashPassword_run salt password _)) in H.
  apply bind_Ok_inv in H as (uid & w1 & Hu & H).
  apply users_insertOne_Ok_inv in Hu as (-> & Hu & ->).
  apply bind_Ok_inv in H as (aid & w2 & Ha & H).
  apply admins_insertOne_Ok_inv in Ha as (-> & Ha & ->).
  simpl in Hu, Ha. rewrite users_of_ensured in Hu. auto.
Qed.

Section CreateSucceeds.
Context {E : Externals}.


End CreateSucceeds.




(** So it does on a store that holds the email: "Beta Ltd",
    "admin@acme.com", "Secret123" pass the input checks and "Beta Ltd" is
    not registered, but the email is the one of the administrator of
    "Acme Inc"; the unique index of [admin_users] refuses the insert, the
    create throws, and [getOrganization] on "Beta Ltd" returns no record. *)
Example create_then_get_taken_email :
  findOne (org_named "Beta Ltd") (organizations Scenario.created) = None /\
  fst (createOrganization (E := Sample.externals) 2000 "s2" "Beta Ltd"
         "admin@acme.com" "Secret123" Scenario.created)
  = Err ("Failed to create organization: "
         +:+ duplicate_key_error (Externals := Sample.externals)
               AdminEmail "admin@acme.com") /\
  fst (getOrganization (E := Sample.externals) "Beta Ltd"
         (snd (createOrganization (E := Sample.externals) 2000 "s2" "Beta Ltd"
                 "admin@acme.com" "Secret123" Scenario.created)))
  = Err "Organization not found".
Proof. repeat split; vm_compute; reflexivity. Qed.

(** C9, as the code has it.  A successful create issues exactly these
    calls, in this order: the index that provisions the tenant database,
    one password hash, the insert of the tenant's user, the insert of the
    administrator, the insert of the organization record, the update that
    fills in the administrator's organization reference.  The tenant's user
    and the administrator store that one hash; the organization record is
    appended with the derived database name, which the summary returns; and
    the administrator stored under the new id refers to the new record. *)
Theorem createOrganization_write_order `{E : Externals}
    (now : Date) (salt orgName email password : string) (w w' : World)
    (s : CreateResult.t) :
  createOrganization now salt orgName email password w = (Ok s, w') ->
  let dbName := namespaceFor orgName in
  let hashed := bcrypt_hash password salt in
  trace w' = (trace w ++ [CreateIndex dbName; HashPassword; UsersInsertOne dbName;
                          AdminInsertOne; OrgsInsertOne; AdminUpdateOne])%list /\
  users_of dbName w'
    = (users_of dbName w
       ++ [UserDoc.mk (next_oid w) email hashed "org_admin" now true None])%list /\
  (exists a, In a (admin_users w') /\
             AdminDoc._id a = N.succ (next_oid w) /\
             AdminDoc.admin_email a = email /\
             AdminDoc.password a = hashed) /\
  organizations w'
    = (organizations w
       ++ [OrgDoc.mk (N.succ (N.succ (next_oid w))) orgName dbName email
                     (oid_toString (next_oid w)) now true])%list /\
  (exists a, findOne (admin_with_id (N.succ (next_oid w))) (admin_users w') = Some a /\
             AdminDoc.organization_id a = Some (CreateResult.id s)) /\
  CreateResult.db_name s = dbName.
Proof.
  intros H. apply createOrganization_Ok_inv in H as (Hn & Hf & -> & ->).
  unfold after_create. simpl.
  split; [reflexivity|].
  split; [unfold users_of; simpl; rewrite lookup_insert_eq; reflexivity|].
  split.
  { set (new := AdminDoc.mk _ _ _ _ _ _ _ _ _ _).
    destruct (In_updateFirst
                (fun a => bool_decide (AdminDoc._id a = N.succ (next_oid w)))
                (AdminDoc.set_organization_id
                   (oid_toString (N.succ (N.succ (next_oid w)))))
                (admin_users w ++ [new]) new) as [Hin|Hin].
    - apply in_or_app. right. left. reflexivity.
    - exists new. auto.
    - eexists. split; [exact Hin|]. auto. }
  split; [reflexivity|].
  split; [|reflexivity].
  unfold admin_with_id. rewrite findOne_updateFirst_same by reflexivity.
  set (new := AdminDoc.mk _ _ _ _ _ _ _ _ _ _).
  destruct (findOne_app_Some
              (fun a => bool_decide (AdminDoc._id a = N.succ (next_oid w)))
              (admin_users w) new) as [a0 Ha0].
  { apply bool_decide_eq_true_2. reflexivity. }
  rewrite Ha0. eexists. split; reflexivity.
Qed.

Lemma createOrganization_write_order_witness :
  trace Scenario.created
    = [CreateIndex "org_acme_inc"; HashPassword; UsersInsertOne "org_acme_inc";
       AdminInsertOne; OrgsInsertOne; AdminUpdateOne] /\
  users_of "org_acme_inc" Scenario.created
    = [UserDoc.mk 0 "admin@acme.com" "s1$Secret123" "org_admin" 1000 true None].
Proof.
  destruct (createOrganization_write_order (E := Sample.externals) 1000 "s1"
              "Acme Inc" "admin@acme.com" "Secret123" empty_world
              Scenario.created
              (CreateResult.mk "2" "Acme Inc" "org_acme_inc" "admin@acme.com" 1000
                               "Organization created successfully"))
    as (Ht & Hu & _); [vm_compute; reflexivity|].
  split; [exact Ht | exact Hu].
Defined.

(** C9, as stated, fails: the create of "Acme Inc" succeeds, and the calls
    it issued are not in the stated order, for the tenant's user is
    inserted before the administrator. *)
Lemma createOrganization_write_order_counterexample :
  fst (createOrganization (E := Sample.externals) 1000 "s1" "Acme Inc"
         "admin@acme.com" "Secret123" empty_world)
  = Ok (CreateResult.mk "2" "Acme Inc" "org_acme_inc" "admin@acme.com" 1000
                        "Organization created successfully") /\
  trace (snd (createOrganization (E := Sample.externals) 1000 "s1" "Acme Inc"
                "admin@acme.com" "Secret123" empty_world))
  = [CreateIndex "org_acme_inc"; HashPassword; UsersInsertOne "org_acme_inc";
     AdminInsertOne; OrgsInsertOne; AdminUpdateOne] /\
  trace (snd (createOrganization (E := Sample.externals) 1000 "s1" "Acme Inc"
                "admin@acme.com" "Secret123" empty_world))
  <> stated_create_order "org_acme_inc".
Proof.
  split; [vm_compute; reflexivity|].
  assert (H : trace (snd (createOrganization (E := Sample.externals) 1000 "s1"
                "Acme Inc" "admin@acme.com" "Secret123" empty_world))
              = [CreateIndex "org_acme_inc"; HashPassword;
                 UsersInsertOne "org_acme_inc"; AdminInsertOne; OrgsInsertOne;
                 AdminUpdateOne]) by (vm_compute; reflexivity).
  rewrite H. split; [reflexivity | discriminate].
Qed.

Lemma createOrganization_no_write `{E : Externals} now salt orgName email password w o :
  findOne (org_named orgName) (organizations w) = Some o ->
  exists m, createOrganization now salt orgName email password w = (Err m, w).
Proof.
  intros Hf. unfold createOrganization.
  destruct (falsy orgName || falsy email || falsy password); [eexists; reflexivity|].
  destruct (negb (isEmail email)); [eexists; reflexivity|].
  destruct (String.length password <? 6)%nat; [eexists; reflexivity|].
  run. simpl. rewrite Hf. eexists; reflexivity.
Qed.

Lemma createOrganization_taken `{E : Externals} now salt orgName email password w o :
  findOne (org_named orgName) (organizations w) = Some o ->
  orgName <> "" -> email <> "" -> password <> "" ->
  isEmail email = true -> (6 <= String.length password)%nat ->
  createOrganization now salt orgName email password w
    = (Err "Organization with this name already exists", w).
Proof.
  intros Hf Hn He Hp Hm Hl. unfold createOrganization.
  rewrite (falsy_false _ Hn), (falsy_false _ He), (falsy_false _ Hp), Hm. simpl.
  destruct (Nat.ltb_spec (String.length password) 6) as [Hlt|_]; [lia|].
  run. simpl. rewrite Hf. reflexivity.
Qed.

(** The input checks come first, whatever the registry holds: inputs that
    fail one of them get the message of the first that fails, and nothing
    is read or written. *)
Lemma createOrganization_failed_check `{E : Externals}
    now salt orgName email password w :
  (orgName = "" \/ email = "" \/ password = "" ->
   createOrganization now salt orgName email password w
   = (Err "Organization name, email, and password are required", w)) /\
  (orgName <> "" -> email <> "" -> password <> "" -> isEmail email = false ->
   createOrganization now salt orgName email password w
   = (Err "Invalid email format", w)) /\
  (orgName <> "" -> email <> "" -> password <> "" -> isEmail email = true ->
   (String.length password < 6)%nat ->
   createOrganization now salt orgName email password w
   = (Err "Password must be at least 6 characters", w)).
Proof.
  unfold createOrganization. repeat split.
  - intros H.
    assert (falsy orgName || falsy email || falsy password = true) as ->;
      [|reflexivity].
    unfold falsy. destruct H as [-> | [-> | ->]]; simpl;
      rewrite ?orb_true_r; reflexivity.
  - intros Hn He Hp Hm.
    rewrite (falsy_false _ Hn), (falsy_false _ He), (falsy_false _ Hp), Hm.
    reflexivity.
  - intros Hn He Hp Hm Hl.
    rewrite (falsy_false _ Hn), (falsy_false _ He), (falsy_false _ Hp), Hm. simpl.
    destruct (Nat.ltb_spec (String.length password) 6) as [_|Hge]; [reflexivity | lia].
Qed.

(** C7, as the code has it.  When the registry holds an organization of
    this name, [createOrganization] throws before it provisions or writes
    anything: the store, the first organization's record with it, comes
    back as it was.  With a name, an email and a password that pass the
    three input checks the message is "Organization with this name already
    exists"; the input checks come before the look-up, so inputs that fail
    one of them get that check's message instead. *)
Theorem createOrganization_duplicate_name `{E : Externals}
    (now : Date) (salt orgName email password : string) (w : World) (o : OrgDoc.t) :
  findOne (org_named orgName) (organizations w) = Some o ->
  (exists m, createOrganization now salt orgName email password w = (Err m, w)) /\
  (orgName <> "" -> email <> "" -> password <> "" ->
   isEmail email = true -> (6 <= String.length password)%nat ->
   createOrganization now salt orgName email password w
     = (Err "Organization with this name already exists", w)).
Proof.
  intros Hf. split.
  - eapply createOrganization_no_write, Hf.
  - eapply createOrganization_taken, Hf.
Qed.

Lemma createOrganization_duplicate_name_witness :
  (exists m, createOrganization (E := Sample.externals) 2000 "s2" "Acme Inc"
               "another@acme.com" "Other456" Scenario.created
             = (Err m, Scenario.created)) /\
  createOrganization (E := Sample.externals) 2000 "s2" "Acme Inc"
    "another@acme.com" "Other456" Scenario.created
  = (Err "Organization with this name already exists", Scenario.created).
Proof.
  destruct (createOrganization_duplicate_name (E := Sample.externals) 2000 "s2"
              "Acme Inc" "another@acme.com" "Other456" Scenario.created
              (OrgDoc.mk 2 "Acme Inc" "org_acme_inc" "admin@acme.com" "0" 1000 true))
    as [H1 H2]; [vm_compute; reflexivity|].
  split; [exact H1|].
  apply H2; try discriminate; [vm_compute; reflexivity | simpl; lia].
Defined.

(** C7, as stated, fails: "Acme Inc" is registered, and a second create of
    that name with an email that is not well formed throws "Invalid email
    format", not "Organization with this name already exists". *)
Lemma createOrganization_duplicate_name_counterexample :
  findOne (org_named "Acme Inc") (organizations Scenario.created)
    = Some (OrgDoc.mk 2 "Acme Inc" "org_acme_inc" "admin@acme.com" "0" 1000 true) /\
  createOrganization (E := Sample.externals) 2000 "s2" "Acme Inc"
    "not-an-email" "Secret123" Scenario.created
  = (Err "Invalid email format", Scenario.created) /\
  fst (createOrganization (E := Sample.externals) 2000 "s2" "Acme Inc"
         "not-an-email" "Secret123" Scenario.created)
  <> Err "Organization with this name already exists".
Proof.
  split; [vm_compute; reflexivity|].
  assert (H : createOrganization (E := Sample.externals) 2000 "s2" "Acme Inc"
                "not-an-email" "Secret123" Scenario.created
              = (Err "Invalid email format", Scenario.created)) by reflexivity.
  rewrite H. split; [reflexivity | discriminate].
Qed.

(** ** [deleteOrganization] *)

Lemma deleteOrganization_not_found `{E : Externals} orgName adminId w :
  orgName <> "" ->
  findOne (org_named orgName) (organizations w) = None ->
  deleteOrganization orgName adminId w = (Err "Organization not found", w).
Proof.
  intros Hn Hf. unfold deleteOrganization. rewrite (falsy_false _ Hn).
  run. simpl. rewrite Hf. reflexivity.
Qed.

Lemma getOrganization_not_found `{E : Externals} orgName w :
  orgName <> "" ->
  findOne (org_named orgName) (organizations w) = None ->
  getOrganization orgName w = (Err "Organization not found", w).
Proof.
  intros Hn Hf. unfold getOrganization. rewrite (falsy_false _ Hn).
  run. simpl. rewrite Hf. reflexivity.
Qed.

Lemma deleteOrganization_found `{E : Externals} orgName adminId w org :
  orgName <> "" ->
  findOne (org_named orgName) (organizations w) = Some org ->
  db_name_error (namespaceFor orgName) = None ->
  deleteOrganization orgName adminId w
    = (Ok (Ack.mk "Organization deleted successfully" orgName),
       after_delete orgName org w).
Proof.
  intros Hn Hf Hdb. unfold deleteOrganization. rewrite (falsy_false _ Hn).
  unfold orgs_deleteOne, admins_deleteOne, deleteOrgDatabase, client_db, after_delete.
  rewrite Hdb. run. simpl. rewrite Hf. simpl. rewrite <- !app_assoc. reflexivity.
Qed.

(** The driver refuses the database name of a registered organization: the
    record and the administrator are deleted before [deleteOrgDatabase]
    throws, and nothing puts them back. *)
Lemma deleteOrganization_refused `{E : Externals} orgName adminId w org message :
  orgName <> "" ->
  findOne (org_named orgName) (organizations w) = Some org ->
  db_name_error (namespaceFor orgName) = Some message ->
  deleteOrganization orgName adminId w
    = (Err ("Failed to delete organization: " +:+ message),
       after_refused_delete orgName org w).
Proof.
  intros Hn Hf Hdb. unfold deleteOrganization. rewrite (falsy_false _ Hn).
  unfold orgs_deleteOne, admins_deleteOne, deleteOrgDatabase, client_db,
    after_refused_delete.
  rewrite Hdb. run. simpl. rewrite Hf. simpl. rewrite <- !app_assoc. reflexivity.
Qed.

(** The guard on the name comes first: for the empty name nothing is
    looked up. *)
Lemma deleteOrganization_missing_name `{E : Externals} adminId w :
  deleteOrganization "" adminId w = (Err "Organization name is required", w).
Proof. reflexivity. Qed.

(** C8, as the code has it.  For a name that is present (not the empty
    string): with no organization of that name registered,
    [deleteOrganization] throws "Organization not found" and writes
    nothing; with one registered, whose derived database name the driver
    accepts, it succeeds after issuing exactly three calls, in this order:
    delete the registry record, delete the administrator that refers to
    it, drop the tenant database.  The registry keeps names unique, and
    then, on the store the delete leaves, both [getOrganization] and a
    repeated [deleteOrganization] on the name throw "Organization not
    found".  When the driver refuses the derived database name, the first
    two calls are issued all the same, and the delete then throws "Failed
    to delete organization: " followed by the driver's message. *)
Theorem deleteOrganization_effects `{E : Externals}
    (orgName : string) (adminId : option string) (w : World) :
  orgName <> "" ->
  (findOne (org_named orgName) (organizations w) = None ->
   deleteOrganization orgName adminId w = (Err "Organization not found", w)) /\
  (forall org message,
     findOne (org_named orgName) (organizations w) = Some org ->
     db_name_error (namespaceFor orgName) = Some message ->
     deleteOrganization orgName adminId w
       = (Err ("Failed to delete organization: " +:+ message),
          after_refused_delete orgName org w)) /\
  (forall org, findOne (org_named orgName) (organizations w) = Some org ->
     db_name_error (namespaceFor orgName) = None ->
     exists w',
       deleteOrganization orgName adminId w
         = (Ok (Ack.mk "Organization deleted successfully" orgName), w') /\
       trace w' = (trace w ++ [OrgsDeleteOne; AdminDeleteOne;
                               DropDatabase (namespaceFor orgName)])%list /\
       organizations w' = deleteFirst (org_named orgName) (organizations w) /\
       admin_users w'
         = deleteFirst
             (fun a => bool_decide (AdminDoc.organization_id a
                                    = Some (oid_toString (OrgDoc._id org))))
             (admin_users w) /\
       org_dbs w' = delete (namespaceFor orgName) (org_dbs w) /\
       (unique_names w ->
        getOrganization orgName w' = (Err "Organization not found", w') /\
        forall adminId',
          deleteOrganization orgName adminId' w' = (Err "Organization not found", w'))).
Proof.
  intros Hn. split; [apply deleteOrganization_not_found, Hn|].
  split; [intros org message Hf Hdb; apply deleteOrganization_refused; assumption|].
  intros org Hf Hdb. exists (after_delete orgName org w).
  split; [apply deleteOrganization_found; assumption|].
  repeat (split; [reflexivity|]).
  intros Hnd.
  assert (Hgone : findOne (org_named orgName)
                    (organizations (after_delete orgName org w)) = None).
  { simpl. apply (findOne_deleteFirst_unique OrgDoc.organization_name), Hnd. }
  split; [apply getOrganization_not_found; assumption|].
  intros adminId'. apply deleteOrganization_not_found; assumption.
Qed.

Lemma deleteOrganization_effects_witness :
  exists w',
    deleteOrganization (E := Sample.externals) "Acme Inc" (Some "1") Scenario.logged_in
      = (Ok (Ack.mk "Organization deleted successfully" "Acme Inc"), w') /\
    organizations w' = [] /\ admin_users w' = [] /\ org_dbs w' = ∅ /\
    getOrganization (E := Sample.externals) "Acme Inc" w'
      = (Err "Organization not found", w') /\
    deleteOrganization (E := Sample.externals) "Acme Inc" (Some "1") w'
      = (Err "Organization not found", w').
Proof.
  destruct (deleteOrganization_effects (E := Sample.externals) "Acme Inc" (Some "1")
              Scenario.logged_in) as (_ & _ & H); [discriminate|].
  destruct (H (OrgDoc.mk 2 "Acme Inc" "org_acme_inc" "admin@acme.com" "0" 1000 true))
    as (w' & Hd & _ & Ho & Ha & Hdb & Hafter); [vm_compute; reflexivity ..|].
  exists w'. split; [exact Hd|].
  split; [rewrite Ho; vm_compute; reflexivity|].
  split; [rewrite Ha; vm_compute; reflexivity|].
  split; [rewrite Hdb; vm_compute; reflexivity|].
  destruct Hafter as [Hg Hr].
  - vm_compute. apply NoDup_cons. split; [apply not_elem_of_nil | apply NoDup_nil_2].
  - split; [exact Hg | apply Hr].
Defined.

(** C8, as stated, fails: the registry is empty, so no organization is
    registered under the empty name, and deleting that name throws
    "Organization name is required", not "Organization not found". *)
Lemma deleteOrganization_empty_name_counterexample :
  findOne (org_named "") (organizations empty_world) = None /\
  deleteOrganization (E := Sample.externals) "" (Some "1") empty_world
    = (Err "Organization name is required", empty_world) /\
  fst (deleteOrganization (E := Sample.externals) "" (Some "1") empty_world)
    <> Err "Organization not found".
Proof.
  split; [reflexivity|].
  assert (H : deleteOrganization (E := Sample.externals) "" (Some "1")
                empty_world
              = (Err "Organization name is required", empty_world))
    by reflexivity.
  rewrite H. split; [reflexivity | discriminate].
Qed.

(** C10.  [deleteOrganization] does not look at its [adminId] argument: for
    any two requesting principals, absent ones included, it gives the same
    result and the same store; and when it throws, the message is one of
    its own two, or "Failed to delete organization: " followed by the
    driver's refusal of the database name, never the 403 answer of the
    route. *)
Theorem deleteOrganization_ignores_requester `{E : Externals}
    (orgName : string) (id1 id2 : option string) (w : World) :
  deleteOrganization orgName id1 w = deleteOrganization orgName id2 w /\
  (forall m, fst (deleteOrganization orgName id1 w) = Err m ->
             m = "Organization name is required" \/ m = "Organization not found" \/
             exists message,
               db_name_error (namespaceFor orgName) = Some message /\
               m = "Failed to delete organization: " +:+ message) /\
  fst (deleteOrganization orgName id1 w) <> Err forbidden_delete_message.
Proof.
  split; [reflexivity|].
  assert (Hm : forall m, fst (deleteOrganization orgName id1 w) = Err m ->
             m = "Organization name is required" \/ m = "Organization not found" \/
             exists message,
               db_name_error (namespaceFor orgName) = Some message /\
               m = "Failed to delete organization: " +:+ message).
  { intros m.
    destruct (decide (orgName = "")) as [->|Hn].
    { intros [= <-]. left. reflexivity. }
    destruct (findOne (org_named orgName) (organizations w)) as [org|] eqn:Hf.
    - destruct (db_name_error (namespaceFor orgName)) as [message|] eqn:Hdb.
      + rewrite (deleteOrganization_refused _ _ _ _ _ Hn Hf Hdb).
        intros [= <-]. right. right. exists message. auto.
      + rewrite (deleteOrganization_found _ _ _ _ Hn Hf Hdb). discriminate.
    - rewrite (deleteOrganization_not_found _ _ _ Hn Hf).
      intros [= <-]. right. left. reflexivity. }
  split; [exact Hm|].
  intros H. destruct (Hm _ H) as [H'|[H'|(message & _ & H')]];
    unfold forbidden_delete_message in H'; cbv in H'; discriminate H'.
Qed.

(** ** [adminLogin] *)

Lemma adminLogin_unknown_email `{E : Externals} now email password w :
  email <> "" -> password <> "" ->
  findOne (admin_with_email email) (admin_users w) = None ->
  adminLogin now email password w = (Err "Invalid credentials", w).
Proof.
  intros He Hp Hf. unfold adminLogin, admin_with_email in *.
  rewrite (falsy_false _ He), (falsy_false _ Hp). run. simpl. rewrite Hf. reflexivity.
Qed.

Lemma adminLogin_wrong_password `{E : Externals} now email password w admin :
  email <> "" -> password <> "" ->
  findOne (admin_with_email email) (admin_users w) = Some admin ->
  verifyPassword password (AdminDoc.password admin) = false ->
  adminLogin now email password w = (Err "Invalid credentials", w).
Proof.
  intros He Hp Hf Hv. unfold adminLogin, admin_with_email in *.
  rewrite (falsy_false _ He), (falsy_false _ Hp). run. simpl. rewrite Hf, Hv.
  reflexivity.
Qed.

Lemma adminLogin_missing_input `{E : Externals} now email password w :
  email = "" \/ password = "" ->
  adminLogin now email password w = (Err "Email and password are required", w).
Proof.
  intros H. unfold adminLogin.
  assert (falsy email || falsy password = true) as ->; [|reflexivity].
  unfold falsy. destruct H as [-> | ->]; simpl; [reflexivity|].
  apply orb_true_r.
Qed.

(** C2, as the code has it.  For every email and password that are both
    present: when no administrator holds the email, and when one does but
    the password fails [bcrypt.compare] against the stored hash, login
    throws "Invalid credentials" and writes nothing; the two failures are
    the same value.  (With an email or a password missing, the guard at the
    head of [adminLogin] answers first, with its own message.) *)
Theorem adminLogin_invalid_credentials `{E : Externals}
    (now now' : Date) (email password email' password' : string)
    (w w' : World) (admin : AdminDoc.t) :
  email <> "" -> password <> "" -> email' <> "" -> password' <> "" ->
  findOne (admin_with_email email) (admin_users w) = None ->
  findOne (admin_with_email email') (admin_users w') = Some admin ->
  verifyPassword password' (AdminDoc.password admin) = false ->
  adminLogin now email password w = (Err "Invalid credentials", w) /\
  adminLogin now' email' password' w' = (Err "Invalid credentials", w') /\
  fst (adminLogin now email password w) = fst (adminLogin now' email' password' w').
Proof.
  intros He Hp He' Hp' Hnone Hsome Hv.
  rewrite (adminLogin_unknown_email now email password w He Hp Hnone).
  rewrite (adminLogin_wrong_password now' email' password' w' admin He' Hp' Hsome Hv).
  repeat split; reflexivity.
Qed.

Lemma adminLogin_invalid_credentials_witness :
  adminLogin (E := Sample.externals) 2000 "ghost@acme.com" "Secret123" Scenario.created
    = (Err "Invalid credentials", Scenario.created) /\
  adminLogin (E := Sample.externals) 3000 "admin@acme.com" "secret123" Scenario.created
    = (Err "Invalid credentials", Scenario.created) /\
  fst (adminLogin (E := Sample.externals) 2000 "ghost@acme.com" "Secret123" Scenario.created)
    = fst (adminLogin (E := Sample.externals) 3000 "admin@acme.com" "secret123" Scenario.created).
Proof.
  apply (adminLogin_invalid_credentials (E := Sample.externals) 2000 3000
           "ghost@acme.com" "Secret123" "admin@acme.com" "secret123"
           Scenario.created Scenario.created
           (AdminDoc.mk 1 "admin@acme.com" "s1$Secret123" "org_admin" (Some "2")
                        (Some "Acme Inc") 1000 true None None));
    try discriminate; vm_compute; reflexivity.
Defined.

(** C2, as stated, fails: nobody holds "ghost@acme.com", the password is
    the empty string, and login throws the message of its presence guard,
    not "Invalid credentials". *)
Lemma adminLogin_empty_password_counterexample :
  findOne (admin_with_email "ghost@acme.com") (admin_users Scenario.created) = None /\
  adminLogin (E := Sample.externals) 2000 "ghost@acme.com" "" Scenario.created
    = (Err "Email and password are required", Scenario.created) /\
  fst (adminLogin (E := Sample.externals) 2000 "ghost@acme.com" "" Scenario.created)
    <> Err "Invalid credentials".
Proof.
  split; [vm_compute; reflexivity|].
  split; [apply adminLogin_missing_input; right; reflexivity|].
  rewrite adminLogin_missing_input by (right; reflexivity). discriminate.
Qed.

(** ** [refreshAccessToken] *)

(** The checks of [refreshAccessToken], in the order the code makes them. *)
Lemma refreshAccessToken_cases `{E : Externals} now adminId refreshToken w :
  refreshAccessToken now adminId refreshToken w =
  (match verifyToken refreshToken now with
   | Err m => Err ("Token refresh failed: " +:+ m)
   | Ok decoded =>
       if bool_decide (type decoded = Some "refresh") then
         match oid_parse adminId with
         | None => Err ("Token refresh failed: " +:+ bson_error)
         | Some oid =>
             match findOne (admin_with_id oid) (admin_users w) with
             | None => Err "Token refresh failed: Admin not found"
             | Some admin =>
                 if bool_decide (AdminDoc.refresh_token_hash admin
                                 = Some (hashToken refreshToken))
                 then Ok (refreshed now admin)
                 else Err "Token refresh failed: Refresh token mismatch"
             end
         end
       else Err "Token refresh failed: Invalid refresh token type"
   end, w).
Proof.
  unfold refreshAccessToken. run.
  destruct (verifyToken refreshToken now) as [decoded|m]; [|reflexivity].
  destruct (bool_decide (type decoded = Some "refresh")); simpl; [|reflexivity].
  destruct (oid_parse adminId) as [oid|]; [|reflexivity].
  fold (admin_with_id oid).
  destruct (findOne (admin_with_id oid) (admin_users w)) as [admin|]; [|reflexivity].
  destruct (bool_decide (AdminDoc.refresh_token_hash admin
                         = Some (hashToken refreshToken))); reflexivity.
Qed.

Lemma verifyToken_valid `{E : Externals} token now c :
  valid_token token now c -> verifyToken token now = Ok c.
Proof.
  intros [Hd He]. unfold verifyToken, jwt_verify. rewrite Hd.
  destruct (N.leb_spec (exp c) (now / 1000)); [lia | reflexivity].
Qed.

Lemma verifyToken_bad_signature `{E : Externals} token now m :
  jwt_decode token jwtSecret jwtAlgorithm = Err m ->
  verifyToken token now = Err ("Invalid token: " +:+ m).
Proof. intros Hd. unfold verifyToken, jwt_verify. rewrite Hd. reflexivity. Qed.

Lemma verifyToken_expired `{E : Externals} token now c :
  jwt_decode token jwtSecret jwtAlgorithm = Ok c -> exp c <= now / 1000 ->
  verifyToken token now = Err "Invalid token: jwt expired".
Proof.
  intros Hd He. unfold verifyToken, jwt_verify. rewrite Hd.
  destruct (N.leb_spec (exp c) (now / 1000)); [reflexivity | lia].
Qed.

Lemma refreshAccessToken_stored `{E : Externals} now adminId token w c oid a :
  valid_token token now c -> type c = Some "refresh" ->
  oid_parse adminId = Some oid ->
  findOne (admin_with_id oid) (admin_users w) = Some a ->
  AdminDoc.refresh_token_hash a = Some (hashToken token) ->
  refreshAccessToken now adminId token w = (Ok (refreshed now a), w).
Proof.
  intros Hv Ht Hp Hf Hh. rewrite refreshAccessToken_cases.
  rewrite (verifyToken_valid _ _ _ Hv), bool_decide_eq_true_2 by exact Ht.
  rewrite Hp, Hf, bool_decide_eq_true_2 by exact Hh. reflexivity.
Qed.

Lemma refreshAccessToken_mismatch `{E : Externals} now adminId token w c oid a :
  valid_token token now c -> type c = Some "refresh" ->
  oid_parse adminId = Some oid ->
  findOne (admin_with_id oid) (admin_users w) = Some a ->
  AdminDoc.refresh_token_hash a <> Some (hashToken token) ->
  refreshAccessToken now adminId token w
    = (Err "Token refresh failed: Refresh token mismatch", w).
Proof.
  intros Hv Ht Hp Hf Hh. rewrite refreshAccessToken_cases.
  rewrite (verifyToken_valid _ _ _ Hv), bool_decide_eq_true_2 by exact Ht.
  rewrite Hp, Hf, bool_decide_eq_false_2 by exact Hh. reflexivity.
Qed.

(** C4, as the code has it.  [refreshAccessToken] never writes, and its
    outcome is settled by these checks, in this order.
    - The token does not verify (signature or format refused by
      [jsonwebtoken], or expired): "Invalid token: ...".
    - It verifies but its [type] is not "refresh": "Invalid refresh token
      type".
    - The given id is not the text of an object id: the error that
      [new ObjectId(adminId)] throws.
    - No administrator has this id: "Admin not found".
    - The SHA-256 of the presented token is not the stored hash (a record
      that has never logged in stores none): "Refresh token mismatch".
    - Otherwise it succeeds with a new access token.
    Every message comes back behind "Token refresh failed: ". *)
Theorem refreshAccessToken_outcomes `{E : Externals}
    (now : Date) (adminId refreshToken : string) (w : World) :
  (forall m, jwt_decode refreshToken jwtSecret jwtAlgorithm = Err m ->
     refreshAccessToken now adminId refreshToken w
       = (Err ("Token refresh failed: Invalid token: " +:+ m), w)) /\
  (forall c, jwt_decode refreshToken jwtSecret jwtAlgorithm = Ok c ->
     exp c <= now / 1000 ->
     refreshAccessToken now adminId refreshToken w
       = (Err "Token refresh failed: Invalid token: jwt expired", w)) /\
  (forall c, valid_token refreshToken now c -> type c <> Some "refresh" ->
     refreshAccessToken now adminId refreshToken w
       = (Err "Token refresh failed: Invalid refresh token type", w)) /\
  (forall c, valid_token refreshToken now c -> type c = Some "refresh" ->
     oid_parse adminId = None ->
     refreshAccessToken now adminId refreshToken w
       = (Err ("Token refresh failed: " +:+ bson_error), w)) /\
  (forall c oid, valid_token refreshToken now c -> type c = Some "refresh" ->
     oid_parse adminId = Some oid ->
     findOne (admin_with_id oid) (admin_users w) = None ->
     refreshAccessToken now adminId refreshToken w
       = (Err "Token refresh failed: Admin not found", w)) /\
  (forall c oid admin, valid_token refreshToken now c -> type c = Some "refresh" ->
     oid_parse adminId = Some oid ->
     findOne (admin_with_id oid) (admin_users w) = Some admin ->
     AdminDoc.refresh_token_hash admin <> Some (hashToken refreshToken) ->
     refreshAccessToken now adminId refreshToken w
       = (Err "Token refresh failed: Refresh token mismatch", w)) /\
  (forall c oid admin, valid_token refreshToken now c -> type c = Some "refresh" ->
     oid_parse adminId = Some oid ->
     findOne (admin_with_id oid) (admin_users w) = Some admin ->
     AdminDoc.refresh_token_hash admin = Some (hashToken refreshToken) ->
     refreshAccessToken now adminId refreshToken w = (Ok (refreshed now admin), w)).
Proof.
  rewrite refreshAccessToken_cases.
  split; [intros m Hd; rewrite (verifyToken_bad_signature _ _ _ Hd); reflexivity|].
  split; [intros c Hd He; rewrite (verifyToken_expired _ _ _ Hd He); reflexivity|].
  split.
  { intros c Hv Ht. rewrite (verifyToken_valid _ _ _ Hv).
    rewrite bool_decide_eq_false_2 by exact Ht. reflexivity. }
  split.
  { intros c Hv Ht Hp. rewrite (verifyToken_valid _ _ _ Hv).
    rewrite bool_decide_eq_true_2 by exact Ht. rewrite Hp. reflexivity. }
  split.
  { intros c oid Hv Ht Hp Hf. rewrite (verifyToken_valid _ _ _ Hv).
    rewrite bool_decide_eq_true_2 by exact Ht. rewrite Hp, Hf. reflexivity. }
  split.
  { intros c oid admin Hv Ht Hp Hf Hh. rewrite (verifyToken_valid _ _ _ Hv).
    rewrite bool_decide_eq_true_2 by exact Ht. rewrite Hp, Hf.
    rewrite bool_decide_eq_false_2 by exact Hh. reflexivity. }
  intros c oid admin Hv Ht Hp Hf Hh. rewrite (verifyToken_valid _ _ _ Hv).
  rewrite bool_decide_eq_true_2 by exact Ht. rewrite Hp, Hf.
  rewrite bool_decide_eq_true_2 by exact Hh. reflexivity.
Qed.

(** The first and the last of these outcomes on the sample store: a token
    signed with another secret, and the token of the last login. *)
Lemma refreshAccessToken_outcomes_witness :
  refreshAccessToken (E := Sample.externals) 9000 "1"
    "x|HS256|1|=2|~|~|=refresh|5|604805" Scenario.logged_in
  = (Err "Token refresh failed: Invalid token: invalid signature", Scenario.logged_in) /\
  refreshAccessToken (E := Sample.externals) 9000 "1"
    Scenario.refresh_token_A Scenario.logged_in
  = (Ok (RefreshResult.mk "k|HS256|1|=2|=Acme Inc|=org_admin|~|9|909" "bearer" 900),
     Scenario.logged_in).
Proof.
  split.
  - apply (refreshAccessToken_outcomes (E := Sample.externals) 9000 "1"
             "x|HS256|1|=2|~|~|=refresh|5|604805" Scenario.logged_in).
    vm_compute. reflexivity.
  - destruct (refreshAccessToken_outcomes (E := Sample.externals) 9000 "1"
                Scenario.refresh_token_A Scenario.logged_in)
      as (_ & _ & _ & _ & _ & _ & H).
    apply (H (mkClaims "1" (Some "2") None None (Some "refresh") 5 604805) 1
             (AdminDoc.mk 1 "admin@acme.com" "s1$Secret123" "org_admin" (Some "2")
                (Some "Acme Inc") 1000 true
                (Some "#k|HS256|1|=2|~|~|=refresh|5|604805") (Some 5000)));
      try (vm_compute; reflexivity).
    split; vm_compute; reflexivity.
Defined.

(** C4, as stated, fails.  The presented token is the one the last login
    issued: good signature, not expired, of type "refresh".  The given id
    is not the text of an object id, so no administrator has it; the call
    does not succeed, and what it throws is neither "Admin not found" nor
    one of the two token errors: it is the error of [new ObjectId]. *)
Lemma refreshAccessToken_malformed_id_counterexample :
  valid_token (E := Sample.externals) Scenario.refresh_token_A 9000
    (mkClaims "1" (Some "2") None None (Some "refresh") 5 604805) /\
  forallb (fun a => negb (bool_decide
             (oid_toString (Externals := Sample.externals) (AdminDoc._id a) = "not-an-id")))
          (admin_users Scenario.logged_in) = true /\
  refreshAccessToken (E := Sample.externals) 9000 "not-an-id"
    Scenario.refresh_token_A Scenario.logged_in
  = (Err "Token refresh failed: input must be a 24 character hex string, 12 byte Uint8Array, or an integer",
     Scenario.logged_in) /\
  fst (refreshAccessToken (E := Sample.externals) 9000 "not-an-id"
         Scenario.refresh_token_A Scenario.logged_in)
  <> Err "Token refresh failed: Admin not found".
Proof.
  split; [split; vm_compute; reflexivity|].
  split; [vm_compute; reflexivity|].
  assert (H : refreshAccessToken (E := Sample.externals) 9000 "not-an-id"
                Scenario.refresh_token_A Scenario.logged_in
              = (Err "Token refresh failed: input must be a 24 character hex string, 12 byte Uint8Array, or an integer",
                 Scenario.logged_in)) by (vm_compute; reflexivity).
  rewrite H. split; [reflexivity | discriminate].
Qed.

(** C5.  A refresh that succeeds returns an access token, the token type
    and the life span, and nothing else; the access token is made from the
    administrator that the store holds under the given id; and the store,
    so that administrator's record with its refresh-token hash and issue
    date, is what it was before the call. *)
Theorem refreshAccessToken_success_frame `{E : Externals}
    (now : Date) (adminId refreshToken : string) (w w' : World) (r : RefreshResult.t) :
  refreshAccessToken now adminId refreshToken w = (Ok r, w') ->
  w' = w /\
  exists oid admin,
    oid_parse adminId = Some oid /\
    findOne (admin_with_id oid) (admin_users w') = Some admin /\
    AdminDoc.refresh_token_hash admin = Some (hashToken refreshToken) /\
    r = RefreshResult.mk
          (createAccessToken (oid_toString (AdminDoc._id admin))
             (AdminDoc.organization_id admin) (AdminDoc.organization_name admin)
             (AdminDoc.role admin) now)
          "bearer" 900.
Proof.
  rewrite refreshAccessToken_cases. intros H.
  destruct (verifyToken refreshToken now) as [decoded|m]; [|discriminate].
  destruct (bool_decide (type decoded = Some "refresh")); [|discriminate].
  destruct (oid_parse adminId) as [oid|]; [|discriminate].
  destruct (findOne (admin_with_id oid) (admin_users w)) as [admin|] eqn:Hf;
    [|discriminate].
  case_bool_decide as Hh; [|discriminate].
  injection H as <- <-. split; [reflexivity|].
  exists oid, admin. auto.
Qed.

Lemma refreshAccessToken_success_frame_witness :
  Scenario.logged_in = Scenario.logged_in /\
  exists oid admin,
    oid_parse (Externals := Sample.externals) "1" = Some oid /\
    findOne (admin_with_id oid) (admin_users Scenario.logged_in) = Some admin /\
    AdminDoc.refresh_token_hash admin
      = Some (hashToken (E := Sample.externals) Scenario.refresh_token_A) /\
    RefreshResult.mk "k|HS256|1|=2|=Acme Inc|=org_admin|~|9|909" "bearer" 900
    = RefreshResult.mk
        (createAccessToken (E := Sample.externals)
           (oid_toString (Externals := Sample.externals) (AdminDoc._id admin))
           (AdminDoc.organization_id admin) (AdminDoc.organization_name admin)
           (AdminDoc.role admin) 9000)
        "bearer" 900.
Proof.
  apply (refreshAccessToken_success_frame (E := Sample.externals) 9000 "1"
           Scenario.refresh_token_A).
  vm_compute. reflexivity.
Defined.

(** ** Login, then refresh *)

Lemma issued_refresh_token_encode `{E : Externals} now admin :
  issued_refresh_token now admin
  = jwt_encode (refresh_payload (oid_toString (AdminDoc._id admin))
                                (AdminDoc.organization_id admin) now)
               jwtSecret jwtAlgorithm.
Proof. reflexivity. Qed.

(** The clock enters a token in whole seconds: two logins of one
    administrator within the same second issue the same refresh token. *)
Lemma issued_refresh_token_same_second `{E : Externals} now now' admin admin' :
  now / 1000 = now' / 1000 ->
  AdminDoc._id admin' = AdminDoc._id admin ->
  AdminDoc.organization_id admin' = AdminDoc.organization_id admin ->
  issued_refresh_token now' admin' = issued_refresh_token now admin.
Proof.
  intros Ht Hi Ho. rewrite !issued_refresh_token_encode.
  unfold refresh_payload. rewrite Ht, Hi, Ho. reflexivity.
Qed.

Lemma adminLogin_found `{E : Externals} now email password w admin :
  email <> "" -> password <> "" ->
  findOne (admin_with_email email) (admin_users w) = Some admin ->
  verifyPassword password (AdminDoc.password admin) = true ->
  adminLogin now email password w = (Ok (login_result now admin), after_login now admin w).
Proof.
  intros He Hp Hf Hv. unfold adminLogin.
  rewrite (falsy_false _ He), (falsy_false _ Hp). simpl.
  unfold bind at 1. unfold gets. fold (admin_with_email email). rewrite Hf, Hv. simpl.
  erewrite bind_Ok; [reflexivity|].
  apply admins_updateOne_run. reflexivity.
Qed.

Lemma adminLogin_Ok_inv `{E : Externals} now email password w r w1 :
  adminLogin now email password w = (Ok r, w1) ->
  exists admin,
    findOne (admin_with_email email) (admin_users w) = Some admin /\
    verifyPassword password (AdminDoc.password admin) = true /\
    r = login_result now admin /\ w1 = after_login now admin w.
Proof.
  intros H.
  destruct (decide (email = "")) as [He|He].
  { rewrite adminLogin_missing_input in H; [discriminate | left; exact He]. }
  destruct (decide (password = "")) as [Hp|Hp].
  { rewrite adminLogin_missing_input in H; [discriminate | right; exact Hp]. }
  destruct (findOne (admin_with_email email) (admin_users w)) as [admin|] eqn:Hf.
  - destruct (verifyPassword password (AdminDoc.password admin)) eqn:Hv.
    + rewrite (adminLogin_found _ _ _ _ _ He Hp Hf Hv) in H.
      injection H as <- <-. exists admin. auto.
    + rewrite (adminLogin_wrong_password _ _ _ _ _ He Hp Hf Hv) in H. discriminate.
  - rewrite (adminLogin_unknown_email _ _ _ _ He Hp Hf) in H. discriminate.
Qed.

(** After a login of [admin], the record stored under its id holds the
    hash of the refresh token that this login issued. *)
Lemma after_login_stored_hash `{E : Externals} now admin w :
  In admin (admin_users w) ->
  exists a,
    findOne (admin_with_id (AdminDoc._id admin)) (admin_users (after_login now admin w))
      = Some a /\
    AdminDoc.refresh_token_hash a = Some (hashToken (issued_refresh_token now admin)).
Proof.
  intros Hin. simpl. rewrite findOne_updateFirst_same by reflexivity.
  destruct (findOne_In_Some (admin_with_id (AdminDoc._id admin)) _ _ Hin) as [a0 Ha0].
  { apply bool_decide_eq_true_2. reflexivity. }
  rewrite Ha0. eexists. split; reflexivity.
Qed.

(** A later login with the same email finds the same administrator, up to
    the refresh fields that the earlier login wrote. *)
Lemma after_login_same_admin `{E : Externals} now admin w email a' :
  findOne (admin_with_email email) (admin_users w) = Some admin ->
  findOne (admin_with_email email) (admin_users (after_login now admin w)) = Some a' ->
  AdminDoc._id a' = AdminDoc._id admin /\
  AdminDoc.organization_id a' = AdminDoc.organization_id admin.
Proof.
  intros Hf Hf'. simpl in Hf'.
  destruct (findOne_updateFirst_stable (admin_with_email email)
              (admin_with_id (AdminDoc._id admin))
              (AdminDoc.set_refresh (hashToken (issued_refresh_token now admin)) now)
              (admin_users w) admin) as [H|H]; try reflexivity; try exact Hf;
    rewrite H in Hf'; injection Hf' as <-; split; reflexivity.
Qed.

(** C1, as the code has it.  Let a login of the administrator [admin]
    succeed at [now1] and issue the refresh token [R]; [R] decodes to the
    payload that was signed, and the id that the login returned reads back
    as [admin]'s id.
    - The record stored under that id now holds the SHA-256 of [R].
    - Until [R] expires, seven days after the second in which it was
      issued, a refresh that presents [R] succeeds.
    - A later login with the same email returns the same id and leaves the
      hash of its own refresh token in the record.  A token carries the
      clock in whole seconds and nothing else that varies.  When the later
      login falls in another second than the first, its token reads back
      with another [iat] and so is another token than [R]; unless SHA-256
      gives the two tokens one digest, the record then holds another hash
      than that of [R], and a refresh that presents [R] throws "Refresh
      token mismatch".  A later login in the same second as the first
      issues [R] again, and presenting [R] still succeeds. *)
Theorem refresh_token_follows_last_login `{E : Externals}
    (now1 : Date) (email password : string) (w w1 : World)
    (r1 : LoginResult.t) (admin : AdminDoc.t) :
  findOne (admin_with_email email) (admin_users w) = Some admin ->
  adminLogin now1 email password w = (Ok r1, w1) ->
  oid_parse (LoginResult.admin_id r1) = Some (AdminDoc._id admin) ->
  jwt_decode (LoginResult.refresh_token r1) jwtSecret jwtAlgorithm
    = Ok (refresh_payload (LoginResult.admin_id r1)
                          (LoginResult.organization_id r1) now1) ->
  let R := LoginResult.refresh_token r1 in
  let expiry := now1 / 1000 + 7 * 24 * 60 * 60 in
  (exists a, findOne (admin_with_id (AdminDoc._id admin)) (admin_users w1) = Some a /\
             AdminDoc.refresh_token_hash a = Some (hashToken R)) /\
  (forall now2, now2 / 1000 < expiry ->
     exists r, refreshAccessToken now2 (LoginResult.admin_id r1) R w1 = (Ok r, w1)) /\
  (forall now3 password' r3 w3,
     adminLogin now3 email password' w1 = (Ok r3, w3) ->
     LoginResult.admin_id r3 = LoginResult.admin_id r1 /\
     (exists a, findOne (admin_with_id (AdminDoc._id admin)) (admin_users w3) = Some a /\
                AdminDoc.refresh_token_hash a
                  = Some (hashToken (LoginResult.refresh_token r3))) /\
     (now3 / 1000 <> now1 / 1000 ->
      jwt_decode (LoginResult.refresh_token r3) jwtSecret jwtAlgorithm
        = Ok (refresh_payload (LoginResult.admin_id r3)
                              (LoginResult.organization_id r3) now3) ->
      (sha256_hex (LoginResult.refresh_token r3) = sha256_hex R ->
       LoginResult.refresh_token r3 = R) ->
      LoginResult.refresh_token r3 <> R /\
      forall now4, now4 / 1000 < expiry ->
        refreshAccessToken now4 (LoginResult.admin_id r1) R w3
          = (Err "Token refresh failed: Refresh token mismatch", w3)) /\
     (now3 / 1000 = now1 / 1000 ->
      LoginResult.refresh_token r3 = R /\
      forall now4, now4 / 1000 < expiry ->
        exists r, refreshAccessToken now4 (LoginResult.admin_id r1) R w3 = (Ok r, w3))).
Proof.
  intros Hfind Hlogin Hoid Hdec R expiry.
  apply adminLogin_Ok_inv in Hlogin as (admin0 & Hfind0 & _ & -> & ->).
  rewrite Hfind in Hfind0. injection Hfind0 as <-.
  simpl in Hoid, Hdec. subst R. simpl LoginResult.refresh_token. simpl LoginResult.admin_id.
  assert (Hin : In admin (admin_users w)) by (eapply findOne_Some_In, Hfind).
  assert (Hvalid : forall now', now' / 1000 < expiry ->
            valid_token (issued_refresh_token now1 admin) now'
              (refresh_payload (oid_toString (AdminDoc._id admin))
                               (AdminDoc.organization_id admin) now1)).
  { intros now' Hlt. split; [exact Hdec | exact Hlt]. }
  destruct (after_login_stored_hash now1 admin w Hin) as (a1 & Ha1 & Hh1).
  split; [exists a1; auto|].
  split.
  { intros now2 Hlt. eexists.
    exact (refreshAccessToken_stored now2 _ _ _ _ _ a1
             (Hvalid now2 Hlt) eq_refl Hoid Ha1 Hh1). }
  intros now3 password' r3 w3 Hlogin3.
  apply adminLogin_Ok_inv in Hlogin3 as (a' & Hfind' & _ & -> & ->).
  destruct (after_login_same_admin _ _ _ _ _ Hfind Hfind') as [Hid Horg].
  simpl LoginResult.refresh_token. simpl LoginResult.admin_id.
  split; [rewrite Hid; reflexivity|].
  assert (Hin' : In a' (admin_users (after_login now1 admin w)))
    by (eapply findOne_Some_In, Hfind').
  destruct (after_login_stored_hash now3 a' _ Hin') as (a3 & Ha3 & Hh3).
  rewrite Hid in Ha3.
  split; [exists a3; auto|].
  split.
  { intros Hsec Hdec3 Hsha.
    assert (Hne : issued_refresh_token now3 a' <> issued_refresh_token now1 admin).
    { intros Heq. rewrite Heq, Hdec in Hdec3.
      apply (f_equal (fun c => match c with Ok c => iat c | Err _ => 0 end)) in Hdec3.
      apply Hsec. symmetry. exact Hdec3. }
    split; [exact Hne|].
    intros now4 Hlt.
    apply (refreshAccessToken_mismatch now4 _ _ _ _ _ a3
             (Hvalid now4 Hlt) eq_refl Hoid Ha3).
    rewrite Hh3. intros [= Heq]. apply Hne, Hsha, Heq. }
  intros Hsec.
  assert (Hsame : issued_refresh_token now3 a' = issued_refresh_token now1 admin)
    by (apply issued_refresh_token_same_second; auto).
  split; [exact Hsame|].
  intros now4 Hlt. eexists.
  apply (refreshAccessToken_stored now4 _ _ _ _ _ a3
           (Hvalid now4 Hlt) eq_refl Hoid Ha3).
  rewrite Hh3, Hsame. reflexivity.
Qed.

Lemma refresh_token_follows_last_login_witness :
  (exists r, refreshAccessToken (E := Sample.externals) 9000 "1"
               Scenario.refresh_token_A Scenario.logged_in
             = (Ok r, Scenario.logged_in)) /\
  refreshAccessToken (E := Sample.externals) 9000 "1"
    Scenario.refresh_token_A Scenario.logged_in_later
  = (Err "Token refresh failed: Refresh token mismatch", Scenario.logged_in_later).
Proof.
  destruct (refresh_token_follows_last_login (E := Sample.externals) 5000
              "admin@acme.com" "Secret123" Scenario.created Scenario.logged_in
              (LoginResult.mk "k|HS256|1|=2|=Acme Inc|=org_admin|~|5|905"
                 Scenario.refresh_token_A "bearer" 900 "1" (Some "2") (Some "Acme Inc"))
              (AdminDoc.mk 1 "admin@acme.com" "s1$Secret123" "org_admin" (Some "2")
                 (Some "Acme Inc") 1000 true None None))
    as (_ & Hrefresh & Hlater); try (vm_compute; reflexivity).
  split.
  - apply (Hrefresh 9000). vm_compute. reflexivity.
  - destruct (Hlater 7000 "Secret123"
                (LoginResult.mk "k|HS256|1|=2|=Acme Inc|=org_admin|~|7|907"
                   "k|HS256|1|=2|~|~|=refresh|7|604807" "bearer" 900 "1"
                   (Some "2") (Some "Acme Inc"))
                Scenario.logged_in_later) as (_ & _ & Hmismatch & _);
      [vm_compute; reflexivity|].
    destruct Hmismatch as [_ Hmismatch].
    + vm_compute. discriminate.
    + vm_compute. reflexivity.
    + intros Hsha. vm_compute in Hsha. discriminate Hsha.
    + apply (Hmismatch 9000). vm_compute. reflexivity.
Defined.

(** C1, as stated, fails.  The administrator of "Acme Inc" logs in at
    5000 ms and is issued the refresh token [Scenario.refresh_token_A];
    the same administrator logs in again at 5400 ms, which overwrites the
    stored hash; a refresh that then presents the first token does not
    throw "Refresh token mismatch": it succeeds, because the second login,
    within the same second, issued the same token. *)
Lemma refresh_after_second_login_counterexample :
  adminLogin (E := Sample.externals) 5000 "admin@acme.com" "Secret123" Scenario.created
    = (Ok (LoginResult.mk "k|HS256|1|=2|=Acme Inc|=org_admin|~|5|905"
             Scenario.refresh_token_A "bearer" 900 "1" (Some "2") (Some "Acme Inc")),
       Scenario.logged_in) /\
  adminLogin (E := Sample.externals) 5400 "admin@acme.com" "Secret123" Scenario.logged_in
    = (Ok (LoginResult.mk "k|HS256|1|=2|=Acme Inc|=org_admin|~|5|905"
             Scenario.refresh_token_A "bearer" 900 "1" (Some "2") (Some "Acme Inc")),
       Scenario.logged_in_again) /\
  refreshAccessToken (E := Sample.externals) 9000 "1"
    Scenario.refresh_token_A Scenario.logged_in_again
  = (Ok (RefreshResult.mk "k|HS256|1|=2|=Acme Inc|=org_admin|~|9|909" "bearer" 900),
     Scenario.logged_in_again) /\
  fst (refreshAccessToken (E := Sample.externals) 9000 "1"
         Scenario.refresh_token_A Scenario.logged_in_again)
  <> Err "Token refresh failed: Refresh token mismatch".
Proof.
  split; [vm_compute; reflexivity|].
  split; [vm_compute; reflexivity|].
  assert (H : refreshAccessToken (E := Sample.externals) 9000 "1"
                Scenario.refresh_token_A Scenario.logged_in_again
              = (Ok (RefreshResult.mk "k|HS256|1|=2|=Acme Inc|=org_admin|~|9|909"
                       "bearer" 900),
                 Scenario.logged_in_again)) by (vm_compute; reflexivity).
  rewrite H. split; [reflexivity | discriminate].
Qed.

(** ** [updateOrganization] and the tenant's user *)

(** When no user of the tenant has the role "admin", [updateOrganization]
    leaves every tenant database as it was, whatever it returns. *)
Lemma updateOrganization_tenant_untouched `{E : Externals}
    now salt orgName email password w :
  findOne (user_with_role "admin") (users_of (namespaceFor orgName) w) = None ->
  org_dbs (snd (updateOrganization now salt orgName email password w)) = org_dbs w.
Proof.
  intros Hno. unfold updateOrganization.
  destruct (falsy orgName || falsy email || falsy password); [reflexivity|].
  destruct (negb (isEmail email)); [reflexivity|].
  unfold bind at 1. unfold gets.
  destruct (findOne (org_named orgName) (organizations w)) as [org|]; [|reflexivity].
  unfold try_catch.
  rewrite (bind_Ok _ _ _ _ _ (hashPassword_run salt password w)).
  set (w1 := mkWorld _ _ _ _ _).
  destruct (admins_updateOne
              (fun a => bool_decide (AdminDoc.organization_id a
                                     = Some (oid_toString (OrgDoc._id org))))
              (AdminDoc.set_credentials email (bcrypt_hash password salt)) w1)
    as [[u|e] w2] eqn:Hupd.
  - rewrite (bind_Ok _ _ _ _ _ Hupd).
    apply admins_updateOne_Ok_inv in Hupd as ->.
    destruct (db_name_error (namespaceFor orgName)) as [message|] eqn:Hdb.
    { rewrite (bind_Err _ _ _ _ _ (getOrgDb_refused orgName _ _ Hdb)). reflexivity. }
    rewrite (bind_Ok _ _ _ _ _ (getOrgDb_run orgName _ Hdb)).
    match goal with
    | |- context [bind (users_updateOne ?d ?p ?f) ?k ?W] =>
        rewrite (bind_Ok _ k W _ _ (users_updateOne_no_match d p f W Hno))
    end.
    reflexivity.
  - rewrite (bind_Err _ _ _ _ _ Hupd). simpl.
    revert Hupd. unfold admins_updateOne. run. simpl.
    destruct (findOne _ (admin_users w)); [|discriminate].
    destruct (key_clash _ _ _ _); [|discriminate].
    intros [= _ <-]. reflexivity.
Qed.

(** C6 fails on the code.  After a create has written the tenant's user
    with the role "org_admin", [updateOrganization] on the same
    organization looks in the tenant database for a user of role "admin",
    finds none, and writes nothing there: the tenant's user keeps the old
    email and the hash of the old password. *)
Theorem updateOrganization_skips_tenant_user `{E : Externals}
    (now now' : Date) (salt salt' orgName email password email' password' : string)
    (w w1 : World) (s : CreateResult.t) :
  createOrganization now salt orgName email password w = (Ok s, w1) ->
  findOne (user_with_role "admin") (users_of (namespaceFor orgName) w) = None ->
  let w2 := snd (updateOrganization now' salt' orgName email' password' w1) in
  users_of (namespaceFor orgName) w2
  = (users_of (namespaceFor orgName) w
     ++ [UserDoc.mk (next_oid w) email (bcrypt_hash password salt) "org_admin"
                    now true None])%list.
Proof.
  intros Hc Hno w2.
  apply createOrganization_Ok_inv in Hc as (_ & _ & _ & ->).
  assert (Husers : users_of (namespaceFor orgName)
                     (after_create now salt orgName email password w)
                   = (users_of (namespaceFor orgName) w
                      ++ [UserDoc.mk (next_oid w) email (bcrypt_hash password salt)
                                     "org_admin" now true None])%list).
  { unfold users_of, after_create. simpl. rewrite lookup_insert_eq. reflexivity. }
  subst w2. unfold users_of at 1.
  rewrite updateOrganization_tenant_untouched; [exact Husers|].
  rewrite Husers, (findOne_app_None _ _ _ Hno). reflexivity.
Qed.

(** The run that [src/test.js] makes: create an organization, then update
    its email and password.  The update reports success and the
    administrator in the master store has the new credentials; the tenant's
    user still has the old ones. *)
Lemma updateOrganization_skips_tenant_user_witness :
  fst (updateOrganization (E := Sample.externals) 9000 "s2" "Acme Inc"
         "new@acme.com" "NewSecret456" Scenario.created)
  = Ok (Ack.mk "Organization updated successfully" "Acme Inc") /\
  admin_users (snd (updateOrganization (E := Sample.externals) 9000 "s2" "Acme Inc"
                      "new@acme.com" "NewSecret456" Scenario.created))
  = [AdminDoc.mk 1 "new@acme.com" "s2$NewSecret456" "org_admin" (Some "2")
                 (Some "Acme Inc") 1000 true None None] /\
  users_of "org_acme_inc"
    (snd (updateOrganization (E := Sample.externals) 9000 "s2" "Acme Inc"
            "new@acme.com" "NewSecret456" Scenario.created))
  = [UserDoc.mk 0 "admin@acme.com" "s1$Secret123" "org_admin" 1000 true None].
Proof.
  split; [vm_compute; reflexivity|].
  split; [vm_compute; reflexivity|].
  apply (updateOrganization_skips_tenant_user (E := Sample.externals) 1000 9000
           "s1" "s2" "Acme Inc" "admin@acme.com" "Secret123" "new@acme.com"
           "NewSecret456" empty_world Scenario.created
           (CreateResult.mk "2" "Acme Inc" "org_acme_inc" "admin@acme.com" 1000
                            "Organization created successfully"));
    vm_compute; reflexivity.
Defined.

(** ** What every method keeps true of the store *)

Section Preservation.
Context {E : Externals}.
Variable inv : World -> Prop.

Lemma preserves_ret {A} (a : A) : preserves inv (ret a).
Proof. intros w H. exact H. Qed.

Lemma preserves_throw {A} (e : string) : preserves inv (throw (A := A) e).
Proof. intros w H. exact H. Qed.

Lemma preserves_gets {A} (f : World -> A) : preserves inv (gets f).
Proof. intros w H. exact H. Qed.

Lemma preserves_lift {A} (r : Result A) : preserves inv (lift r).
Proof. intros w H. exact H. Qed.

Lemma preserves_bind {A B} (m : M A) (k : A -> M B) :
  preserves inv m -> (forall a, preserves inv (k a)) -> preserves inv (bind m k).
Proof.
  intros Hm Hk w H. unfold bind. specialize (Hm w H).
  destruct (m w) as [[a|e] w1]; simpl in *; [apply Hk, Hm | exact Hm].
Qed.

Lemma preserves_try_catch {A} (m : M A) (h : string -> M A) :
  preserves inv m -> (forall e, preserves inv (h e)) -> preserves inv (try_catch m h).
Proof.
  intros Hm Hh w H. unfold try_catch. specialize (Hm w H).
  destruct (m w) as [[a|e] w1]; simpl in *; [exact Hm | apply Hh, Hm].
Qed.

End Preservation.

Section StoreInvariant.
Context {E : Externals}.

Lemma store_invariant_frame w w' :
  organizations w' = organizations w -> org_dbs w' = org_dbs w ->
  store_invariant w -> store_invariant w'.
Proof.
  intros Ho Hd [Hn Ht]. split.
  - unfold unique_names. rewrite Ho. exact Hn.
  - intros dbName u. unfold users_of. rewrite Hd. apply Ht.
Qed.

Lemma store_invariant_org_dbs w w' :
  organizations w' = organizations w ->
  (forall dbName u, In u (users_of dbName w') ->
                    In u (users_of dbName w) \/ UserDoc.role u = "org_admin") ->
  store_invariant w -> store_invariant w'.
Proof.
  intros Ho Hd [Hn Ht]. split.
  - unfold unique_names. rewrite Ho. exact Hn.
  - intros dbName u Hu. destruct (Hd dbName u Hu) as [H|H]; [eapply Ht, H | exact H].
Qed.

Lemma preserves_log e : preserves store_invariant (log e).
Proof. intros w. apply store_invariant_frame; reflexivity. Qed.

Lemma preserves_fresh_oid : preserves store_invariant fresh_oid.
Proof. intros w. apply store_invariant_frame; reflexivity. Qed.

Lemma preserves_orgs_insertOne doc : preserves store_invariant (orgs_insertOne doc).
Proof.
  intros w [Hn Ht]. unfold orgs_insertOne. run. simpl.
  destruct (key_taken _ _ _) eqn:Hk; simpl.
  - split; [exact Hn | exact Ht].
  - split; [|exact Ht]. unfold unique_names. simpl.
    apply NoDup_snoc_fresh; assumption.
Qed.

Lemma preserves_orgs_deleteOne filter : preserves store_invariant (orgs_deleteOne filter).
Proof.
  intros w [Hn Ht]. unfold orgs_deleteOne. run. simpl.
  split; [|exact Ht]. unfold unique_names. simpl. apply NoDup_deleteFirst, Hn.
Qed.

Lemma preserves_admins_insertOne doc : preserves store_invariant (admins_insertOne doc).
Proof.
  intros w. unfold admins_insertOne. run. simpl.
  destruct (key_taken _ _ _); simpl; apply store_invariant_frame; reflexivity.
Qed.

Lemma preserves_admins_updateOne filter f :
  preserves store_invariant (admins_updateOne filter f).
Proof.
  intros w. unfold admins_updateOne. run. simpl.
  destruct (findOne filter (admin_users w)); [destruct (key_clash _ _ _ _)|];
    simpl; apply store_invariant_frame; reflexivity.
Qed.

Lemma preserves_admins_deleteOne filter :
  preserves store_invariant (admins_deleteOne filter).
Proof. intros w. apply store_invariant_frame; reflexivity. Qed.

Lemma users_of_insert dbName dbName' coll w o a n t :
  users_of dbName' (mkWorld o a (<[dbName := coll]> (org_dbs w)) n t)
  = if decide (dbName = dbName') then coll else users_of dbName' w.
Proof.
  unfold users_of. simpl. rewrite lookup_insert. destruct (decide _); reflexivity.
Qed.

Lemma preserves_users_insertOne dbName doc :
  (forall id, UserDoc.role (doc id) = "org_admin") ->
  preserves store_invariant (users_insertOne dbName doc).
Proof.
  intros Hrole w. unfold users_insertOne. run. simpl.
  destruct (key_taken _ _ _); simpl.
  - apply store_invariant_frame; reflexivity.
  - apply store_invariant_org_dbs; [reflexivity|].
    intros dbName' u. rewrite users_of_insert.
    destruct (decide (dbName = dbName')) as [<-|_]; [|auto].
    unfold users_of at 1. simpl. intros Hu. apply in_app_or in Hu as [Hu|[<-|[]]].
    + left. exact Hu.
    + right. apply Hrole.
Qed.

Lemma preserves_users_updateOne dbName filter f :
  (forall u, UserDoc.role (f u) = UserDoc.role u) ->
  preserves store_invariant (users_updateOne dbName filter f).
Proof.
  intros Hrole w Hinv. unfold users_updateOne. run. simpl.
  destruct (findOne filter _); [destruct (key_clash _ _ _ _)|]; simpl;
    try (revert Hinv; apply store_invariant_frame; reflexivity).
  generalize Hinv. apply store_invariant_org_dbs; [reflexivity|].
  intros dbName' u. rewrite users_of_insert.
  destruct (decide (dbName = dbName')) as [<-|_]; [|auto].
  intros Hu.
  apply In_updateFirst_inv in Hu as [Hu|(u0 & Hu0 & ->)]; [left; exact Hu|].
  right. rewrite Hrole. destruct Hinv as [_ Ht]. apply (Ht dbName), Hu0.
Qed.

Lemma preserves_createOrgDatabase orgName :
  preserves store_invariant (createOrgDatabase orgName).
Proof.
  intros w.
  destruct (db_name_error (namespaceFor orgName)) as [message|] eqn:Hdb.
  { rewrite (createOrgDatabase_refused _ _ _ Hdb). auto. }
  rewrite (createOrgDatabase_run _ _ Hdb). simpl.
  destruct (org_dbs w !! namespaceFor orgName) eqn:Hdbs.
  - apply store_invariant_frame; reflexivity.
  - apply store_invariant_org_dbs; [reflexivity|].
    intros dbName' u. rewrite users_of_insert.
    destruct (decide _); [intros [] | auto].
Qed.

Lemma preserves_deleteOrgDatabase orgName :
  preserves store_invariant (deleteOrgDatabase orgName).
Proof.
  intros w.
  destruct (db_name_error (namespaceFor orgName)) as [message|] eqn:Hdb.
  { rewrite (deleteOrgDatabase_refused _ _ _ Hdb). auto. }
  rewrite (deleteOrgDatabase_run _ _ Hdb). simpl.
  apply store_invariant_org_dbs; [reflexivity|].
  intros dbName' u. unfold users_of. simpl. rewrite lookup_delete.
  destruct (decide _); [intros [] | auto].
Qed.

Lemma preserves_hashPassword salt password :
  preserves store_invariant (hashPassword salt password).
Proof. intros w. apply store_invariant_frame; reflexivity. Qed.

Lemma preserves_getOrgDb orgName : preserves store_invariant (getOrgDb orgName).
Proof.
  intros w. unfold getOrgDb, client_db.
  destruct (db_name_error (namespaceFor orgName)); auto.
Qed.

Create HintDb preserves.

#[local] Hint Resolve preserves_ret preserves_throw preserves_gets preserves_lift
  preserves_log preserves_fresh_oid preserves_orgs_insertOne
  preserves_orgs_deleteOne preserves_admins_insertOne preserves_admins_updateOne
  preserves_admins_deleteOne preserves_createOrgDatabase
  preserves_deleteOrgDatabase preserves_hashPassword preserves_getOrgDb
  : preserves.

Ltac preserve :=
  repeat first
    [ solve [auto with preserves]
    | apply preserves_users_insertOne; intros ?; reflexivity
    | apply preserves_users_updateOne; intros ?; reflexivity
    | apply preserves_try_catch; [|intros ?]
    | apply preserves_bind; [|intros ?]
    | match goal with
      | |- preserves _ (if ?b then _ else _) => destruct b
      | |- preserves _ (match ?x with _ => _ end) => destruct x
      end ].

Lemma preserves_createOrganization now salt orgName email password :
  preserves store_invariant (createOrganization now salt orgName email password).
Proof. unfold createOrganization. preserve. Qed.

Lemma preserves_getOrganization orgName :
  preserves store_invariant (getOrganization orgName).
Proof. unfold getOrganization. preserve. Qed.

Lemma preserves_updateOrganization now salt orgName email password :
  preserves store_invariant (updateOrganization now salt orgName email password).
Proof. unfold updateOrganization. preserve. Qed.

Lemma preserves_deleteOrganization orgName adminId :
  preserves store_invariant (deleteOrganization orgName adminId).
Proof. unfold deleteOrganization. preserve. Qed.

Lemma preserves_adminLogin now email password :
  preserves store_invariant (adminLogin now email password).
Proof. unfold adminLogin. preserve. Qed.

Lemma preserves_refreshAccessToken now adminId refreshToken :
  preserves store_invariant (refreshAccessToken now adminId refreshToken).
Proof. unfold refreshAccessToken. preserve. Qed.

(** Every store that the service can build keeps names unique and holds
    only "org_admin" users in its tenant databases. *)
Lemma reachable_store_invariant w : Reachable w -> store_invariant w.
Proof.
  induction 1 as [|w c _ IH].
  - split; [apply NoDup_nil_2 | intros dbName u []].
  - destruct c; simpl.
    + apply preserves_createOrganization, IH.
    + apply preserves_getOrganization, IH.
    + apply preserves_updateOrganization, IH.
    + apply preserves_deleteOrganization, IH.
    + apply preserves_adminLogin, IH.
    + apply preserves_refreshAccessToken, IH.
Qed.

(** On a store that the service built, [updateOrganization] never writes
    to a tenant database. *)
Lemma reachable_update_tenant_untouched now salt orgName email password w :
  Reachable w ->
  org_dbs (snd (updateOrganization now salt orgName email password w)) = org_dbs w.
Proof.
  intros Hr. apply updateOrganization_tenant_untouched.
  apply findOne_none_all. intros u Hu.
  destruct (reachable_store_invariant w Hr) as [_ Ht].
  unfold user_with_role. rewrite (Ht _ _ Hu). reflexivity.
Qed.

End StoreInvariant.

(** * Further properties *)

(** ** The derived database name *)

Lemma lower_char_not_upper (c : ascii) : is_upper (lower_char c) = false.
Proof. destruct c as [[] [] [] [] [] [] [] []]; reflexivity. Qed.

Lemma lower_char_space (c : ascii) : is_space (lower_char c) = is_space c.
Proof. destruct c as [[] [] [] [] [] [] [] []]; reflexivity. Qed.

Lemma lower_char_idempotent (c : ascii) : lower_char (lower_char c) = lower_char c.
Proof. destruct c as [[] [] [] [] [] [] [] []]; reflexivity. Qed.

Lemma toLowerCase_idempotent (s : string) : toLowerCase (toLowerCase s) = toLowerCase s.
Proof.
  induction s as [|c s IH]; simpl; [reflexivity|].
  rewrite lower_char_idempotent, IH. reflexivity.
Qed.

Lemma toLowerCase_app (s t : string) :
  toLowerCase (s +:+ t) = toLowerCase s +:+ toLowerCase t.
Proof. induction s as [|c s IH]; simpl; [reflexivity | rewrite IH; reflexivity]. Qed.

Lemma replace_space_runs_chars (s : string) :
  forallb (fun c => negb (is_upper c)) (list_ascii_of_string s) = true ->
  forallb name_char (list_ascii_of_string (replace_space_runs s)) = true /\
  forallb name_char (list_ascii_of_string (skip_run s)) = true.
Proof.
  induction s as [|c s IH]; simpl; [auto|].
  intros H. apply andb_true_iff in H as [Hc Hs]. destruct (IH Hs) as [IH1 IH2].
  destruct (is_space c) eqn:Hsp; simpl.
  - rewrite IH2. auto.
  - unfold name_char at 1 3. rewrite Hsp, Hc, IH1. auto.
Qed.

Lemma toLowerCase_no_upper (s : string) :
  forallb (fun c => negb (is_upper c)) (list_ascii_of_string (toLowerCase s)) = true.
Proof.
  induction s as [|c s IH]; simpl; [reflexivity|].
  rewrite lower_char_not_upper, IH. reflexivity.
Qed.

(** X1.  The name that [getOrgDb], [createOrgDatabase] and
    [deleteOrgDatabase] derive starts with "org_" and holds no ASCII white
    space and no upper-case ASCII letter, whatever the organization's
    name. *)
Theorem namespaceFor_shape (orgName : string) :
  String.prefix "org_" (namespaceFor orgName) = true /\
  forallb name_char (list_ascii_of_string (namespaceFor orgName)) = true.
Proof.
  unfold namespaceFor. split.
  - simpl. destruct (replace_space_runs (toLowerCase orgName)); reflexivity.
  - simpl. apply (replace_space_runs_chars (toLowerCase orgName)).
    apply toLowerCase_no_upper.
Qed.

Lemma replace_space_runs_doubled (s t : string) (c1 c2 : ascii) :
  is_space c1 = true -> is_space c2 = true ->
  replace_space_runs (s +:+ String c1 (String c2 t))
    = replace_space_runs (s +:+ String c1 t) /\
  skip_run (s +:+ String c1 (String c2 t)) = skip_run (s +:+ String c1 t).
Proof.
  intros H1 H2. induction s as [|c s [IH1 IH2]]; simpl.
  - rewrite H1, H2. auto.
  - destruct (is_space c); rewrite ?IH1, ?IH2; auto.
Qed.

Lemma replace_space_runs_kind (s t : string) (c1 c2 : ascii) :
  is_space c1 = true -> is_space c2 = true ->
  replace_space_runs (s +:+ String c1 t) = replace_space_runs (s +:+ String c2 t) /\
  skip_run (s +:+ String c1 t) = skip_run (s +:+ String c2 t).
Proof.
  intros H1 H2. induction s as [|c s [IH1 IH2]]; simpl.
  - rewrite H1, H2. auto.
  - destruct (is_space c); rewrite ?IH1, ?IH2; auto.
Qed.

(** A run of white space counts as one space. *)
Lemma replace_space_runs_run (s t run : string) :
  space_run run = true ->
  replace_space_runs (s +:+ run +:+ t) = replace_space_runs (s +:+ String " " t).
Proof.
  unfold space_run. intros H. apply andb_true_iff in H as [Hne H].
  apply negb_true_iff, bool_decide_eq_false_1 in Hne.
  destruct run as [|c run]; [congruence|]. clear Hne.
  cbn [list_ascii_of_string forallb] in H. apply andb_true_iff in H as [Hc Hrun].
  revert Hrun. induction run as [|c' run IH]; intros Hrun.
  - change (String c "" +:+ t) with (String c t).
    apply (replace_space_runs_kind s t c " " Hc eq_refl).
  - cbn [list_ascii_of_string forallb] in Hrun.
    apply andb_true_iff in Hrun as [Hc' Hrun].
    change (String c (String c' run) +:+ t) with (String c (String c' (run +:+ t))).
    rewrite (proj1 (replace_space_runs_doubled s (run +:+ t) c c' Hc Hc')).
    exact (IH Hrun).
Qed.

Lemma toLowerCase_space_run (run : string) :
  space_run (toLowerCase run) = space_run run.
Proof.
  unfold space_run. f_equal.
  - unfold falsy. destruct run; [reflexivity|].
    cbn [toLowerCase]. rewrite !bool_decide_eq_false_2 by discriminate. reflexivity.
  - induction run as [|c run IH]; simpl; [reflexivity|].
    rewrite lower_char_space, IH. reflexivity.
Qed.

(** X2.  The derivation does not tell names apart that differ only in the
    case of ASCII letters, or in the length or the characters of a run of
    white space.  Two names with the same lower case derive the same
    database name; and so do two names that are made of parts with the
    same lower case around a run of white space, whatever the two runs.
    Two organizations with such names are given the same tenant
    database. *)
Theorem namespaceFor_collides :
  (forall a b : string,
     toLowerCase a = toLowerCase b -> namespaceFor a = namespaceFor b) /\
  (forall s s' t t' run run' : string,
     toLowerCase s = toLowerCase s' -> toLowerCase t = toLowerCase t' ->
     space_run run = true -> space_run run' = true ->
     namespaceFor (s +:+ run +:+ t) = namespaceFor (s' +:+ run' +:+ t')).
Proof.
  split.
  - intros a b H. unfold namespaceFor. rewrite H. reflexivity.
  - intros s s' t t' run run' Hs Ht Hrun Hrun'. unfold namespaceFor.
    rewrite !toLowerCase_app, Hs, Ht.
    rewrite <- toLowerCase_space_run in Hrun, Hrun'.
    rewrite (replace_space_runs_run _ _ _ Hrun), (replace_space_runs_run _ _ _ Hrun').
    reflexivity.
Qed.

Lemma namespaceFor_collides_witness :
  namespaceFor "ACME" = namespaceFor "acme" /\
  namespaceFor "Acme  Inc" = namespaceFor "acme inc".
Proof.
  split.
  - apply (proj1 namespaceFor_collides). reflexivity.
  - apply (proj2 namespaceFor_collides "Acme" "acme" "Inc" "inc" "  " " ");
      reflexivity.
Defined.

(** ** More on collections *)

Section MoreCollections.
Context {D : Type}.
Implicit Types (p q : D -> bool) (f : D -> D) (l : list D) (d : D).

Lemma updateFirst_app_None p f l l2 :
  findOne p l = None -> updateFirst p f (l ++ l2)%list = (l ++ updateFirst p f l2)%list.
Proof.
  unfold findOne. induction l as [|x l IH]; simpl; [reflexivity|].
  destruct (p x); [discriminate|]. intros H. rewrite IH; auto.
Qed.

Lemma deleteFirst_app_None p l l2 :
  findOne p l = None -> deleteFirst p (l ++ l2)%list = (l ++ deleteFirst p l2)%list.
Proof.
  unfold findOne. induction l as [|x l IH]; simpl; [reflexivity|].
  destruct (p x); [discriminate|]. intros H. rewrite IH; auto.
Qed.

Lemma findOne_key_free (key : D -> string) (v : string) l :
  key_taken key v l = false -> findOne (fun d => bool_decide (key d = v)) l = None.
Proof.
  unfold findOne, key_taken. induction l as [|x l IH]; simpl; [reflexivity|].
  destruct (bool_decide (key x = v)); [discriminate | exact IH].
Qed.

Lemma key_taken_In (key : D -> string) l d : In d l -> key_taken key (key d) l = true.
Proof.
  intros Hd. unfold key_taken. apply existsb_exists. exists d.
  split; [exact Hd | apply bool_decide_eq_true_2; reflexivity].
Qed.

Lemma map_updateFirst_kept {B} (g : D -> B) p f l :
  (forall d, g (f d) = g d) -> map g (updateFirst p f l) = map g l.
Proof.
  intros Hg. induction l as [|x l IH]; simpl; [reflexivity|].
  destruct (p x); simpl; [rewrite Hg | rewrite IH]; reflexivity.
Qed.

Lemma findOne_deleteFirst_other p q l :
  (forall d, q d = true -> p d = false) ->
  findOne q (deleteFirst p l) = findOne q l.
Proof.
  intros Hpq. unfold findOne. induction l as [|x l IH]; simpl; [reflexivity|].
  destruct (p x) eqn:Hp; simpl.
  - destruct (q x) eqn:Hq; [|reflexivity]. rewrite (Hpq x Hq) in Hp. discriminate.
  - rewrite IH. reflexivity.
Qed.

Lemma findOne_app_other q l d :
  q d = false -> findOne q (l ++ [d])%list = findOne q l.
Proof.
  intros Hd. unfold findOne. induction l as [|x l IH]; simpl.
  - rewrite Hd. reflexivity.
  - destruct (q x); [reflexivity | exact IH].
Qed.


(** Under a unique index, the first holder of a value is its holder. *)
Lemma findOne_unique {K} `{EqDecision K} (key : D -> K) l d :
  NoDup (map key l) -> In d l ->
  findOne (fun x => bool_decide (key x = key d)) l = Some d.
Proof.
  unfold findOne. induction l as [|x l IH]; simpl; [tauto|].
  intros Hnd Hin. apply NoDup_cons in Hnd as [Hx Hnd].
  destruct Hin as [->|Hin].
  - rewrite bool_decide_eq_true_2 by reflexivity. reflexivity.
  - rewrite bool_decide_eq_false_2; [apply IH; assumption|].
    intros Hk. apply Hx. rewrite Hk. apply list_elem_of_In, in_map, Hin.
Qed.

(** What an update of the first match leaves in a collection with a unique
    key: the rewritten document, and the documents with other keys. *)
Lemma In_updateFirst_unique (key : D -> string) p f l a d :
  NoDup (map key l) -> findOne p l = Some a ->
  In d (updateFirst p f l) -> d = f a \/ (In d l /\ key d <> key a).
Proof.
  unfold findOne. induction l as [|x l IH]; simpl; [discriminate|].
  intros Hnd. apply NoDup_cons in Hnd as [Hx Hnd].
  destruct (p x).
  - intros [= ->] [<-|Hd]; [left; reflexivity|]. right. split; [right; exact Hd|].
    intros Hk. apply Hx. rewrite <- Hk. apply list_elem_of_In, in_map, Hd.
  - intros Hf [<-|Hd].
    + right. split; [left; reflexivity|]. intros Hk. apply Hx. rewrite Hk.
      apply list_elem_of_In, in_map. apply find_some in Hf. tauto.
    + destruct (IH Hnd Hf Hd) as [->|[Hin Hk]]; [left; reflexivity|].
      right. split; [right; exact Hin | exact Hk].
Qed.

(** An update that the unique index lets through keeps the keys unique. *)
Lemma NoDup_updateFirst_key (key : D -> string) p f l a :
  NoDup (map key l) -> findOne p l = Some a ->
  key_clash key a (f a) l = false ->
  NoDup (map key (updateFirst p f l)).
Proof.
  intros Hnd Hf Hclash.
  assert (Hnew : key (f a) = key a \/ key_taken key (key (f a)) l = false).
  { unfold key_clash in Hclash. apply andb_false_iff in Hclash as [H|H]; [|auto].
    left. apply negb_false_iff, bool_decide_eq_true_1 in H. exact H. }
  clear Hclash. revert Hnd Hf Hnew. unfold findOne.
  induction l as [|x l IH]; simpl; [discriminate|].
  intros Hnd. apply NoDup_cons in Hnd as [Hx Hnd].
  destruct (p x) eqn:Hp.
  - intros [= ->] Hnew. simpl. apply NoDup_cons. split; [|exact Hnd].
    destruct Hnew as [->|Hfree]; [exact Hx|].
    intros Hin. apply orb_false_iff in Hfree as [_ Hfree].
    apply list_elem_of_In, in_map_iff in Hin as (y & Hy & Hin).
    apply not_true_iff_false in Hfree. apply Hfree.
    apply existsb_exists. exists y. split; [exact Hin|].
    apply bool_decide_eq_true_2, Hy.
  - intros Hf Hnew. simpl. apply NoDup_cons. split.
    + intros Hin. apply list_elem_of_In, in_map_iff in Hin as (y & Hy & Hin).
      destruct (In_updateFirst_unique key p f l a y Hnd Hf Hin) as [->|[Hin' _]].
      * destruct Hnew as [Hsame|Hfree].
        -- apply Hx. rewrite <- Hy, Hsame. apply list_elem_of_In, in_map.
           apply find_some in Hf. tauto.
        -- apply orb_false_iff in Hfree as [Hfree _].
           apply bool_decide_eq_false_1 in Hfree. apply Hfree. symmetry. exact Hy.
      * apply Hx. rewrite <- Hy. apply list_elem_of_In, in_map, Hin'.
    + apply IH; [exact Hnd | exact Hf |].
      destruct Hnew as [?|Hfree]; [left; assumption|].
      right. apply orb_false_iff in Hfree as [_ ?]. assumption.
Qed.

End MoreCollections.

(** ** A create, a login, a delete *)

Section CreateFacts.
Context {E : Externals}.

(** The administrators after a create that found no holder of the id it
    drew for the new one. *)
Lemma after_create_admin_users now salt orgName email password w :
  findOne (admin_with_id (N.succ (next_oid w))) (admin_users w) = None ->
  admin_users (after_create now salt orgName email password w)
  = (admin_users w ++ [created_admin now salt orgName email password w])%list.
Proof.
  intros Hfresh. unfold after_create. simpl.
  rewrite (updateFirst_app_None _ _ _ _ Hfresh). cbn [updateFirst].
  unfold admin_with_id at 1. cbn [AdminDoc._id].
  rewrite bool_decide_eq_true_2 by reflexivity. reflexivity.
Qed.

End CreateFacts.

(** X3. Whenever [createOrganization] succeeds, on a store in which no
    administrator already holds the id drawn for the new one, [adminLogin]
    with the same email and password on the store it leaves succeeds when
    bcrypt matches the password with its own hash: it returns the id of the
    new administrator, the id and the name of the new organization, and an
    access token for the role "org_admin".  A non-empty password that bcrypt
    does not match with that hash is answered "Invalid credentials" and
    writes nothing. *)
Theorem create_then_login `{E : Externals}
    (now now' : Date) (salt orgName email password : string)
    (w w' : World) (s : CreateResult.t) :
  createOrganization now salt orgName email password w = (Ok s, w') ->
  findOne (admin_with_id (N.succ (next_oid w))) (admin_users w) = None ->
  verifyPassword password (bcrypt_hash password salt) = true ->
  (exists r w'',
     adminLogin now' email password w' = (Ok r, w'') /\
     LoginResult.admin_id r = oid_toString (N.succ (next_oid w)) /\
     LoginResult.organization_id r = Some (CreateResult.id s) /\
     LoginResult.organization_name r = Some orgName /\
     LoginResult.access_token r
     = createAccessToken (oid_toString (N.succ (next_oid w)))
         (Some (CreateResult.id s)) (Some orgName) "org_admin" now') /\
  (forall other, other <> "" ->
     verifyPassword other (bcrypt_hash password salt) = false ->
     adminLogin now' email other w' = (Err "Invalid credentials", w')).
Proof.
  intros Hc Hfresh Hpw.
  destruct (createOrganization_Ok_checked _ _ _ _ _ _ _ _ Hc)
    as (He & Hp & _ & _ & Ha & _).
  destruct (createOrganization_Ok_inv _ _ _ _ _ _ _ _ Hc) as (_ & _ & -> & ->).
  set (a := created_admin now salt orgName email password w).
  assert (Hfound :
    findOne (fun x => bool_decide (AdminDoc.admin_email x = email))
      (admin_users (after_create now salt orgName email password w)) = Some a).
  { rewrite after_create_admin_users by exact Hfresh.
    rewrite (findOne_app_None _ _ _ (findOne_key_free AdminDoc.admin_email email _ Ha)).
    unfold a, created_admin. cbn [AdminDoc.admin_email].
    rewrite bool_decide_eq_true_2 by reflexivity. reflexivity. }
  split.
  - exists (login_result now' a), (after_login now' a
              (after_create now salt orgName email password w)).
    split; [|repeat split].
    apply adminLogin_found; assumption.
  - intros other Ho Hbad. apply (adminLogin_wrong_password _ _ _ _ a); assumption.
Qed.

Lemma create_then_login_witness :
  exists r w'',
    adminLogin (E := Sample.externals) 9000 "admin@acme.com" "Secret123" Scenario.created
    = (Ok r, w'') /\
    LoginResult.organization_name r = Some "Acme Inc".
Proof.
  assert (Hc : createOrganization (E := Sample.externals) 1000 "s1" "Acme Inc"
                 "admin@acme.com" "Secret123" empty_world
               = (Ok (CreateResult.mk "2" "Acme Inc" "org_acme_inc" "admin@acme.com" 1000
                        "Organization created successfully"), Scenario.created))
    by (vm_compute; reflexivity).
  destruct (create_then_login (E := Sample.externals) 1000 9000 "s1" "Acme Inc"
              "admin@acme.com" "Secret123" empty_world Scenario.created _ Hc)
    as [(r & w'' & H & _ & _ & Hn & _) _]; [vm_compute; reflexivity ..|].
  exists r, w''. split; [exact H | exact Hn].
Defined.

(** X4. Whenever [createOrganization] succeeds, on a store in which no
    administrator already holds the id drawn for the new one or refers to
    the id drawn for the new organization, [deleteOrganization] on the same
    name, on the store the create leaves, succeeds and puts the registry
    and the administrators back as they were before the create.  The
    tenant database of the name is gone, with whatever users it held
    before the create, and the three ids stay drawn. *)
Theorem create_then_delete `{E : Externals}
    (now : Date) (salt orgName email password : string) (adminId : option string)
    (w w' : World) (s : CreateResult.t) :
  createOrganization now salt orgName email password w = (Ok s, w') ->
  findOne (admin_with_id (N.succ (next_oid w))) (admin_users w) = None ->
  findOne (fun a => bool_decide (AdminDoc.organization_id a = Some (CreateResult.id s)))
          (admin_users w) = None ->
  exists w'',
    deleteOrganization orgName adminId w'
    = (Ok (Ack.mk "Organization deleted successfully" orgName), w'') /\
    organizations w'' = organizations w /\
    admin_users w'' = admin_users w /\
    org_dbs w'' = delete (namespaceFor orgName) (org_dbs w) /\
    next_oid w'' = next_oid w + 3.
Proof.
  intros Hc Hfresh Hnoref.
  destruct (createOrganization_Ok_checked _ _ _ _ _ _ _ _ Hc)
    as (_ & _ & _ & _ & _ & _ & Hdb).
  destruct (createOrganization_Ok_inv _ _ _ _ _ _ _ _ Hc) as (Hn & Hfree & -> & ->).
  cbn [CreateResult.id] in Hnoref.
  set (org := OrgDoc.mk (N.succ (N.succ (next_oid w))) orgName (namespaceFor orgName)
                        email (oid_toString (next_oid w)) now true).
  assert (Hfound :
    findOne (org_named orgName)
      (organizations (after_create now salt orgName email password w)) = Some org).
  { unfold after_create. cbn [organizations].
    rewrite (findOne_app_None _ _ _ Hfree). unfold org_named. cbn [OrgDoc.organization_name].
    rewrite bool_decide_eq_true_2 by reflexivity. reflexivity. }
  exists (after_delete orgName org (after_create now salt orgName email password w)).
  split; [apply deleteOrganization_found; assumption|].
  unfold after_delete. cbn [organizations admin_users org_dbs next_oid].
  rewrite after_create_admin_users by exact Hfresh.
  unfold after_create. cbn [organizations org_dbs next_oid].
  repeat split.
  - rewrite (deleteFirst_app_None _ _ _ Hfree). cbn [deleteFirst].
    unfold org_named at 1. cbn [OrgDoc.organization_name].
    rewrite bool_decide_eq_true_2 by reflexivity. apply app_nil_r.
  - unfold org. cbn [OrgDoc._id].
    rewrite (deleteFirst_app_None _ _ _ Hnoref). cbn [deleteFirst].
    unfold created_admin. cbn [AdminDoc.organization_id].
    rewrite bool_decide_eq_true_2 by reflexivity. apply app_nil_r.
  - apply delete_insert_eq.
  - lia.
Qed.

Lemma create_then_delete_witness :
  exists w'',
    deleteOrganization (E := Sample.externals) "Acme Inc" None Scenario.created
    = (Ok (Ack.mk "Organization deleted successfully" "Acme Inc"), w'') /\
    organizations w'' = [] /\ admin_users w'' = [] /\ next_oid w'' = 3.
Proof.
  assert (Hc : createOrganization (E := Sample.externals) 1000 "s1" "Acme Inc"
                 "admin@acme.com" "Secret123" empty_world
               = (Ok (CreateResult.mk "2" "Acme Inc" "org_acme_inc" "admin@acme.com" 1000
                        "Organization created successfully"), Scenario.created))
    by (vm_compute; reflexivity).
  destruct (create_then_delete (E := Sample.externals) 1000 "s1" "Acme Inc"
              "admin@acme.com" "Secret123" None empty_world Scenario.created _ Hc)
    as (w'' & H & Ho & Ha & _ & Hn); [vm_compute; reflexivity ..|].
  exists w''. auto.
Defined.

(** ** A create that the index of [admin_users] refuses *)

Section CreateRefused.
Context {E : Externals}.


Lemma admins_insertOne_refused doc w :
  key_taken AdminDoc.admin_email (AdminDoc.admin_email (doc (next_oid w)))
            (admin_users w) = true ->
  admins_insertOne doc w =
  (Err (duplicate_key_error AdminEmail (AdminDoc.admin_email (doc (next_oid w)))),
   mkWorld (organizations w) (admin_users w) (org_dbs w)
     (N.succ (next_oid w)) (trace w ++ [AdminInsertOne])).
Proof.
  intros Hk. unfold admins_insertOne. run. simpl. rewrite Hk. reflexivity.
Qed.

Lemma try_catch_Err {A} (m : M A) (h : string -> M A) w e w1 :
  m w = (Err e, w1) -> try_catch m h w = h e w1.
Proof. unfold try_catch. intros ->. reflexivity. Qed.

(** The head of a create whose inputs pass the checks and whose name is
    free. *)
Lemma createOrganization_attempt now salt orgName email password w :
  orgName <> "" -> email <> "" -> password <> "" ->
  isEmail email = true -> (6 <= String.length password)%nat ->
  findOne (org_named orgName) (organizations w) = None ->
  createOrganization now salt orgName email password w
  = try_catch
      (let* (dbName, orgDb) := createOrgDatabase orgName in
       let* hashedPassword := hashPassword salt password in
       let* userResult :=
         users_insertOne orgDb (fun id =>
           UserDoc.mk id email hashedPassword "org_admin" now true None) in
       let* adminResult :=
         admins_insertOne (fun id =>
           AdminDoc.mk id email hashedPassword "org_admin" None (Some orgName)
                       now true None None) in
       let* orgsResult :=
         orgs_insertOne (fun id =>
           OrgDoc.mk id orgName dbName email (oid_toString userResult) now true) in
       admins_updateOne
         (fun a => bool_decide (AdminDoc._id a = adminResult))
         (AdminDoc.set_organization_id (oid_toString orgsResult)) ;;;
       ret (CreateResult.mk (oid_toString orgsResult) orgName dbName email now
                            "Organization created successfully"))
      (fun m => throw ("Failed to create organization: " +:+ m)) w.
Proof.
  intros Hn He Hp Hm Hl Hf. unfold createOrganization.
  rewrite (falsy_false _ Hn), (falsy_false _ He), (falsy_false _ Hp), Hm. simpl.
  destruct (Nat.ltb_spec (String.length password) 6) as [Hlt|_]; [lia|].
  unfold bind at 1. unfold gets. rewrite Hf. reflexivity.
Qed.

(** The driver refuses the derived database name: the create fails before
    it issues a call. *)
Lemma createOrganization_name_refused now salt orgName email password w message :
  orgName <> "" -> email <> "" -> password <> "" ->
  isEmail email = true -> (6 <= String.length password)%nat ->
  findOne (org_named orgName) (organizations w) = None ->
  db_name_error (namespaceFor orgName) = Some message ->
  createOrganization now salt orgName email password w
  = (Err ("Failed to create organization: " +:+ message), w).
Proof.
  intros Hn He Hp Hm Hl Hf Hdb.
  rewrite createOrganization_attempt by assumption.
  erewrite try_catch_Err; [reflexivity|].
  erewrite bind_Err; [reflexivity|].
  apply createOrgDatabase_refused, Hdb.
Qed.



End CreateRefused.



(** ** An update, then a login *)

Section UpdateFacts.
Context {E : Externals}.



Lemma admins_updateOne_refused filter f w a :
  findOne filter (admin_users w) = Some a ->
  key_clash AdminDoc.admin_email a (f a) (admin_users w) = true ->
  admins_updateOne filter f w
  = (Err (duplicate_key_error AdminEmail (AdminDoc.admin_email (f a))),
     mkWorld (organizations w) (admin_users w) (org_dbs w) (next_oid w)
             (trace w ++ [AdminUpdateOne])).
Proof.
  intros Hf Hk. unfold admins_updateOne. run. simpl. rewrite Hf, Hk. reflexivity.
Qed.


End UpdateFacts.



(** X7. An update that would move the administrator of a registered
    organization onto an email that an administrator already holds is
    refused by the unique index: [updateOrganization] throws "Failed to
    update organization: " followed by the refusal of the index of
    [admin_users] for that email, and no document of the store has
    changed. *)
Theorem updateOrganization_email_in_use `{E : Externals}
    (now : Date) (salt orgName email password : string)
    (w : World) (org : OrgDoc.t) (a : AdminDoc.t) :
  orgName <> "" -> email <> "" -> password <> "" -> isEmail email = true ->
  findOne (org_named orgName) (organizations w) = Some org ->
  findOne (admin_of org) (admin_users w) = Some a ->
  AdminDoc.admin_email a <> email ->
  key_taken AdminDoc.admin_email email (admin_users w) = true ->
  updateOrganization now salt orgName email password w
  = (Err ("Failed to update organization: " +:+ duplicate_key_error AdminEmail email),
     mkWorld (organizations w) (admin_users w) (org_dbs w) (next_oid w)
             (trace w ++ [HashPassword; AdminUpdateOne])).
Proof.
  intros Hn He Hp Hm Horg Ha Hchg Htaken. unfold updateOrganization.
  rewrite (falsy_false _ Hn), (falsy_false _ He), (falsy_false _ Hp), Hm. simpl.
  unfold bind at 1. unfold gets. rewrite Horg.
  erewrite try_catch_Err; cycle 1.
  { rewrite (bind_Ok _ _ _ _ _ (hashPassword_run salt password w)).
    erewrite bind_Err; [reflexivity|].
    apply (admins_updateOne_refused _ _ _ a); [exact Ha|].
    unfold key_clash. simpl. rewrite Htaken.
    rewrite bool_decide_eq_false_2; [reflexivity|].
    intros Heq. apply Hchg. symmetry. exact Heq. }
  unfold throw. simpl. rewrite <- !app_assoc. reflexivity.
Qed.

Lemma updateOrganization_email_in_use_witness :
  fst (updateOrganization (E := Sample.externals) 7000 "s3" "Beta Ltd" "admin@acme.com"
         "Changed1" TwoTenants.both)
  = Err ("Failed to update organization: "
         +:+ duplicate_key_error (Externals := Sample.externals)
               AdminEmail "admin@acme.com").
Proof.
  rewrite (updateOrganization_email_in_use (E := Sample.externals) 7000 "s3" "Beta Ltd"
             "admin@acme.com" "Changed1" TwoTenants.both
             (OrgDoc.mk 5 "Beta Ltd" "org_beta_ltd" "admin@beta.com" "3" 2000 true)
             (AdminDoc.mk 4 "admin@beta.com"
                (bcrypt_hash (Externals := Sample.externals) "Secret456" "s2") "org_admin"
                (Some "5") (Some "Beta Ltd") 2000 true None None));
    [reflexivity | discriminate | discriminate | discriminate
    | vm_compute; reflexivity .. | discriminate | vm_compute; reflexivity].
Defined.

(** ** Two names, one tenant database *)

(** X8. Deleting a registered organization drops the tenant database that
    its name derives, and with it the users of every other organization
    whose name derives the same database name: the other organization
    stays registered, and its tenant database is gone.  That is when the
    driver accepts the derived name; when it refuses it, the other
    organization stays registered as well and no tenant database is
    touched. *)
Theorem deleteOrganization_drops_shared_database `{E : Externals}
    (orgName other : string) (adminId : option string) (w : World) (org o : OrgDoc.t) :
  orgName <> "" ->
  findOne (org_named orgName) (organizations w) = Some org ->
  other <> orgName ->
  findOne (org_named other) (organizations w) = Some o ->
  namespaceFor other = namespaceFor orgName ->
  let w' := snd (deleteOrganization orgName adminId w) in
  findOne (org_named other) (organizations w') = Some o /\
  match db_name_error (namespaceFor orgName) with
  | None =>
      org_dbs w' !! namespaceFor other = None /\
      users_of (namespaceFor other) w' = []
  | Some _ => org_dbs w' = org_dbs w
  end.
Proof.
  intros Hn Horg Hne Ho Hns.
  assert (Hother : findOne (org_named other)
                     (deleteFirst (org_named orgName) (organizations w)) = Some o).
  { rewrite findOne_deleteFirst_other; [exact Ho|].
    intros d Hd. unfold org_named in *. apply bool_decide_eq_true_1 in Hd.
    apply bool_decide_eq_false_2. congruence. }
  destruct (db_name_error (namespaceFor orgName)) as [message|] eqn:Hdb.
  - rewrite (deleteOrganization_refused _ adminId _ _ _ Hn Horg Hdb). cbn [snd].
    unfold after_refused_delete. cbn [organizations org_dbs].
    split; [exact Hother | reflexivity].
  - rewrite (deleteOrganization_found _ adminId _ _ Hn Horg Hdb). cbn [snd].
    unfold users_of, after_delete. cbn [organizations org_dbs].
    rewrite Hns, lookup_delete_eq. repeat split. exact Hother.
Qed.

Lemma deleteOrganization_drops_shared_database_witness :
  length (users_of "org_acme_inc" TwoTenants.colliding) = 2%nat /\
  users_of "org_acme_inc"
    (snd (deleteOrganization (E := Sample.externals) "Acme Inc" None TwoTenants.colliding))
  = [] /\
  fst (getOrganization (E := Sample.externals) "acme inc"
         (snd (deleteOrganization (E := Sample.externals) "Acme Inc" None
                 TwoTenants.colliding)))
  = Ok (GetResult.mk "5" "acme inc" "org_acme_inc" "admin@lower.com" 2000 true).
Proof.
  split; [vm_compute; reflexivity|].
  assert (H := deleteOrganization_drops_shared_database (E := Sample.externals)
                 "Acme Inc" "acme inc" None TwoTenants.colliding
                 (OrgDoc.mk 2 "Acme Inc" "org_acme_inc" "admin@acme.com" "0" 1000 true)
                 (OrgDoc.mk 5 "acme inc" "org_acme_inc" "admin@lower.com" "3" 2000 true)).
  cbv zeta in H.
  destruct H as (_ & H);
    [discriminate | vm_compute; reflexivity | discriminate
    | vm_compute; reflexivity | vm_compute; reflexivity |].
  assert (Hdb : db_name_error (Externals := Sample.externals) (namespaceFor "Acme Inc")
                = None) by (vm_compute; reflexivity).
  rewrite Hdb in H. destruct H as [_ H].
  split; [exact H | vm_compute; reflexivity].
Defined.

(** ** What a login writes *)

Lemma adminLogin_Err_inv `{E : Externals} now email password w e w1 :
  adminLogin now email password w = (Err e, w1) -> w1 = w.
Proof.
  intros H.
  destruct (decide (email = "")) as [He|He].
  { rewrite adminLogin_missing_input in H; [congruence | left; exact He]. }
  destruct (decide (password = "")) as [Hp|Hp].
  { rewrite adminLogin_missing_input in H; [congruence | right; exact Hp]. }
  destruct (findOne (admin_with_email email) (admin_users w)) as [admin|] eqn:Hf.
  - destruct (verifyPassword password (AdminDoc.password admin)) eqn:Hv.
    + rewrite (adminLogin_found _ _ _ _ _ He Hp Hf Hv) in H. discriminate.
    + rewrite (adminLogin_wrong_password _ _ _ _ _ He Hp Hf Hv) in H. congruence.
  - rewrite (adminLogin_unknown_email _ _ _ _ He Hp Hf) in H. congruence.
Qed.

(** X9. Whatever [adminLogin] returns or throws, it leaves the registry,
    the tenant databases and the id counter as they were, and of the
    administrators it changes at most the two refresh fields: ids, emails,
    password hashes, roles and organization references stay, in the same
    order. *)
Theorem adminLogin_frame `{E : Externals}
    (now : Date) (email password : string) (w : World) :
  organizations (snd (adminLogin now email password w)) = organizations w /\
  org_dbs (snd (adminLogin now email password w)) = org_dbs w /\
  next_oid (snd (adminLogin now email password w)) = next_oid w /\
  map identity_of (admin_users (snd (adminLogin now email password w)))
  = map identity_of (admin_users w).
Proof.
  destruct (adminLogin now email password w) as [[r|e] w1] eqn:H; cbn [snd].
  - apply adminLogin_Ok_inv in H as (admin & _ & _ & _ & ->).
    unfold after_login. cbn [organizations org_dbs next_oid admin_users].
    repeat split. apply map_updateFirst_kept. intros d. reflexivity.
  - apply adminLogin_Err_inv in H as ->. repeat split.
Qed.

(** ** Who writes the registry *)

Create HintDb registry.

Section Registry.
Context {E : Externals}.
Variable inv : list OrgDoc.t -> Prop.

Local Ltac untouched :=
  intros w H; unfold on_registry in *;
  cbv [log modify fresh_oid admins_insertOne admins_updateOne admins_deleteOne
       users_insertOne users_updateOne createOrgDatabase deleteOrgDatabase
       hashPassword getOrgDb client_db bind ret throw gets set_admin_users
       set_org_dbs];
  cbn [fst snd organizations]; repeat (case_match; simplify_eq);
  cbn [fst snd organizations]; exact H.

Lemma registry_log e : preserves (on_registry inv) (log e).
Proof. untouched. Qed.

Lemma registry_fresh_oid : preserves (on_registry inv) fresh_oid.
Proof. untouched. Qed.

Lemma registry_admins_insertOne doc : preserves (on_registry inv) (admins_insertOne doc).
Proof. untouched. Qed.

Lemma registry_admins_updateOne filter f : preserves (on_registry inv) (admins_updateOne filter f).
Proof. untouched. Qed.

Lemma registry_admins_deleteOne filter : preserves (on_registry inv) (admins_deleteOne filter).
Proof. untouched. Qed.

Lemma registry_users_insertOne dbName doc : preserves (on_registry inv) (users_insertOne dbName doc).
Proof. untouched. Qed.

Lemma registry_users_updateOne dbName filter f : preserves (on_registry inv) (users_updateOne dbName filter f).
Proof. untouched. Qed.

Lemma registry_createOrgDatabase orgName : preserves (on_registry inv) (createOrgDatabase orgName).
Proof. untouched. Qed.

Lemma registry_deleteOrgDatabase orgName : preserves (on_registry inv) (deleteOrgDatabase orgName).
Proof. untouched. Qed.

Lemma registry_hashPassword salt password : preserves (on_registry inv) (hashPassword salt password).
Proof. untouched. Qed.

Lemma registry_getOrgDb orgName : preserves (on_registry inv) (getOrgDb orgName).
Proof. untouched. Qed.

Lemma registry_orgs_insertOne doc :
  (forall l id, inv l -> inv (l ++ [doc id])%list) -> preserves (on_registry inv) (orgs_insertOne doc).
Proof.
  intros Hins w H. unfold on_registry in *. unfold orgs_insertOne. run. cbn [fst snd organizations next_oid].
  case_match; cbn [snd organizations]; [exact H | apply Hins, H].
Qed.

Lemma registry_orgs_deleteOne filter :
  (forall l, inv l -> inv (deleteFirst filter l)) -> preserves (on_registry inv) (orgs_deleteOne filter).
Proof.
  intros Hdel w H. unfold on_registry in *. unfold orgs_deleteOne. run. cbn [snd organizations]. apply Hdel, H.
Qed.

End Registry.

#[local] Hint Resolve preserves_ret preserves_throw preserves_gets preserves_lift
  registry_log registry_fresh_oid registry_admins_insertOne registry_admins_updateOne
  registry_admins_deleteOne registry_users_insertOne registry_users_updateOne
  registry_createOrgDatabase registry_deleteOrgDatabase registry_hashPassword
  registry_getOrgDb : registry.

Ltac keep_registry :=
  repeat first
    [ solve [auto with registry]
    | solve [apply registry_orgs_insertOne; intros; auto]
    | solve [apply registry_orgs_deleteOne; auto]
    | apply preserves_try_catch; [|intros ?]
    | apply preserves_bind; [|intros ?]
    | match goal with
      | |- preserves _ (if ?b then _ else _) => destruct b
      | |- preserves _ (match ?x with _ => _ end) => destruct x
      end ].

Section RegistryCalls.
Context {E : Externals}.
Variable inv : list OrgDoc.t -> Prop.

Lemma registry_getOrganization orgName : preserves (on_registry inv) (getOrganization orgName).
Proof. unfold getOrganization. keep_registry. Qed.

Lemma registry_updateOrganization now salt orgName email password :
  preserves (on_registry inv) (updateOrganization now salt orgName email password).
Proof. unfold updateOrganization. keep_registry. Qed.

Lemma registry_adminLogin now email password : preserves (on_registry inv) (adminLogin now email password).
Proof. unfold adminLogin. keep_registry. Qed.

Lemma registry_refreshAccessToken now adminId refreshToken :
  preserves (on_registry inv) (refreshAccessToken now adminId refreshToken).
Proof. unfold refreshAccessToken. keep_registry. Qed.

Lemma registry_createOrganization now salt orgName email password :
  (forall l d, OrgDoc.organization_name d = orgName -> inv l -> inv (l ++ [d])%list) ->
  preserves (on_registry inv) (createOrganization now salt orgName email password).
Proof.
  intros Hins. unfold createOrganization. keep_registry.
Qed.

Lemma registry_deleteOrganization orgName adminId :
  (forall l, inv l -> inv (deleteFirst (org_named orgName) l)) ->
  preserves (on_registry inv) (deleteOrganization orgName adminId).
Proof.
  intros Hdel. unfold deleteOrganization. keep_registry.
Qed.

End RegistryCalls.

Lemma getOrganization_reads_record `{E : Externals} (n : string) (w w' : World) :
  findOne (org_named n) (organizations w') = findOne (org_named n) (organizations w) ->
  fst (getOrganization n w') = fst (getOrganization n w).
Proof.
  intros H. unfold getOrganization. destruct (falsy n); [reflexivity|].
  run. rewrite H. destruct (findOne (org_named n) (organizations w)); reflexivity.
Qed.

(** X10. Of the six methods of the service, only [createOrganization] and
    [deleteOrganization] write the registry: after any other call, returned
    or thrown, the registry is what it was.  And a create or a delete of
    one name leaves the record of every other name alone: [getOrganization]
    on that other name returns, or throws, what it did before the call. *)
Theorem registry_written_by_create_and_delete `{E : Externals} (c : Call) (w : World) :
  (writes_registry c = false -> organizations (perform c w) = organizations w) /\
  (forall n, writes_record c n = false ->
     fst (getOrganization n (perform c w)) = fst (getOrganization n w)).
Proof.
  split.
  - intros Hc. destruct c; try discriminate; cbn [perform].
    + apply (registry_getOrganization (fun l => l = organizations w)). reflexivity.
    + apply (registry_updateOrganization (fun l => l = organizations w)). reflexivity.
    + apply (registry_adminLogin (fun l => l = organizations w)). reflexivity.
    + apply (registry_refreshAccessToken (fun l => l = organizations w)). reflexivity.
  - intros n Hc. apply getOrganization_reads_record.
    set (inv := fun l => findOne (org_named n) l = findOne (org_named n) (organizations w)).
    destruct c; cbn [perform writes_record] in *.
    + apply (registry_createOrganization inv); [|reflexivity].
      intros l d Hd Hl. unfold inv in *. rewrite findOne_app_other; [exact Hl|].
      apply bool_decide_eq_false_1 in Hc. apply bool_decide_eq_false_2. congruence.
    + apply (registry_getOrganization inv). reflexivity.
    + apply (registry_updateOrganization inv). reflexivity.
    + apply (registry_deleteOrganization inv); [|reflexivity].
      intros l Hl. unfold inv in *. rewrite findOne_deleteFirst_other; [exact Hl|].
      intros d Hd. unfold org_named in *. apply bool_decide_eq_true_1 in Hd.
      apply bool_decide_eq_false_1 in Hc. apply bool_decide_eq_false_2. congruence.
    + apply (registry_adminLogin inv). reflexivity.
    + apply (registry_refreshAccessToken inv). reflexivity.
Qed.

Lemma registry_written_by_create_and_delete_witness :
  organizations (perform (E := Sample.externals)
                   (CallUpdate 7000 "s2" "Acme Inc" "new@acme.com" "Changed1")
                   Scenario.created)
  = organizations Scenario.created /\
  fst (getOrganization (E := Sample.externals) "acme inc"
         (perform (E := Sample.externals) (CallDelete "Acme Inc" None) TwoTenants.colliding))
  = fst (getOrganization (E := Sample.externals) "acme inc" TwoTenants.colliding).
Proof.
  split.
  - apply (registry_written_by_create_and_delete (E := Sample.externals)). reflexivity.
  - apply (registry_written_by_create_and_delete (E := Sample.externals)). reflexivity.
Defined.

(** ** The administrators of a store that the service built *)

Lemma NoDup_deleteFirst_key {D K} (key : D -> K) (p : D -> bool) (l : list D) :
  NoDup (map key l) -> NoDup (map key (deleteFirst p l)).
Proof.
  induction l as [|x l IH]; simpl; [auto|].
  intros Hnd. apply NoDup_cons in Hnd as [Hx Hnd].
  destruct (p x); [exact Hnd|]. simpl. apply NoDup_cons. split; [|auto].
  intros Hin. apply Hx. clear -Hin.
  induction l as [|y l IH]; simpl in *; [exact Hin|].
  destruct (p y); [right; exact Hin|].
  apply elem_of_cons in Hin as [->|Hin]; [left | right; auto].
Qed.

Lemma In_deleteFirst {D} (p : D -> bool) (l : list D) (d : D) :
  In d (deleteFirst p l) -> In d l.
Proof.
  induction l as [|x l IH]; simpl; [tauto|].
  destruct (p x); simpl; [auto|]. intros [->|H]; auto.
Qed.

Create HintDb admins.

Section Administrators.
Context {E : Externals}.

Lemma admin_invariant_counter w o d n t :
  next_oid w <= n -> admin_invariant w ->
  admin_invariant (mkWorld o (admin_users w) d n t).
Proof.
  intros Hn (He & Hi & Hb). split; [exact He|]. split; [exact Hi|].
  intros a Ha. specialize (Hb a Ha). simpl. lia.
Qed.

Local Ltac counter :=
  intros w H;
  cbv [log modify fresh_oid orgs_insertOne orgs_deleteOne users_insertOne
       users_updateOne createOrgDatabase deleteOrgDatabase hashPassword getOrgDb
       client_db bind ret throw gets set_organizations set_org_dbs];
  cbn [fst snd next_oid]; repeat (case_match; simplify_eq); simpl;
  (apply (admin_invariant_counter w); [simpl; lia | exact H]).

Lemma admins_log e : preserves admin_invariant (log e).
Proof. counter. Qed.

Lemma admins_fresh_oid : preserves admin_invariant fresh_oid.
Proof. counter. Qed.

Lemma admins_orgs_insertOne doc : preserves admin_invariant (orgs_insertOne doc).
Proof. counter. Qed.

Lemma admins_orgs_deleteOne filter : preserves admin_invariant (orgs_deleteOne filter).
Proof. counter. Qed.

Lemma admins_users_insertOne dbName doc :
  preserves admin_invariant (users_insertOne dbName doc).
Proof. counter. Qed.

Lemma admins_users_updateOne dbName filter f :
  preserves admin_invariant (users_updateOne dbName filter f).
Proof. counter. Qed.

Lemma admins_createOrgDatabase orgName :
  preserves admin_invariant (createOrgDatabase orgName).
Proof.
  intros w H. destruct (db_name_error (namespaceFor orgName)) as [message|] eqn:Hdb.
  - rewrite (createOrgDatabase_refused _ _ _ Hdb). exact H.
  - rewrite (createOrgDatabase_run _ _ Hdb). cbn [snd].
    apply (admin_invariant_counter w); [simpl; lia | exact H].
Qed.

Lemma admins_deleteOrgDatabase orgName :
  preserves admin_invariant (deleteOrgDatabase orgName).
Proof.
  intros w H. destruct (db_name_error (namespaceFor orgName)) as [message|] eqn:Hdb.
  - rewrite (deleteOrgDatabase_refused _ _ _ Hdb). exact H.
  - rewrite (deleteOrgDatabase_run _ _ Hdb). cbn [snd].
    apply (admin_invariant_counter w); [simpl; lia | exact H].
Qed.

Lemma admins_hashPassword salt password :
  preserves admin_invariant (hashPassword salt password).
Proof. counter. Qed.

Lemma admins_getOrgDb orgName : preserves admin_invariant (getOrgDb orgName).
Proof.
  intros w H. unfold getOrgDb, client_db.
  destruct (db_name_error (namespaceFor orgName)); exact H.
Qed.

(** The driver gives the new document the id it drew. *)
Lemma admins_admins_insertOne doc :
  (forall id, AdminDoc._id (doc id) = id) ->
  preserves admin_invariant (admins_insertOne doc).
Proof.
  intros Hid w (He & Hi & Hb). unfold admins_insertOne. run.
  cbn [fst snd admin_users next_oid].
  destruct (key_taken _ _ _) eqn:Hk; cbn [snd].
  - apply (admin_invariant_counter w); [lia | repeat split; assumption].
  - split; [|split]; cbn [admin_users next_oid].
    + apply NoDup_snoc_fresh; assumption.
    + rewrite map_app. apply NoDup_app. split; [exact Hi|].
      split; [|apply NoDup_singleton].
      intros v Hv Hv'. apply list_elem_of_singleton in Hv'. subst v.
      apply list_elem_of_In, in_map_iff in Hv as (x & Hx & Hin).
      specialize (Hb x Hin). rewrite Hx, Hid in Hb. lia.
    + intros a Ha. apply in_app_iff in Ha as [Ha|[<-|[]]].
      * specialize (Hb a Ha). lia.
      * rewrite Hid. lia.
Qed.

(** An update that keeps the id. *)
Lemma admins_admins_updateOne filter f :
  (forall a, AdminDoc._id (f a) = AdminDoc._id a) ->
  preserves admin_invariant (admins_updateOne filter f).
Proof.
  intros Hid w (He & Hi & Hb). unfold admins_updateOne. run.
  cbn [fst snd admin_users].
  destruct (findOne filter (admin_users w)) as [a|] eqn:Hf; cbn [snd].
  - destruct (key_clash _ _ _ _) eqn:Hk; cbn [snd].
    + apply (admin_invariant_counter w); [lia | repeat split; assumption].
    + split; [|split]; cbn [admin_users next_oid].
      * exact (NoDup_updateFirst_key _ _ _ _ _ He Hf Hk).
      * rewrite (map_updateFirst_kept _ _ _ _ Hid). exact Hi.
      * intros d Hd. apply In_updateFirst_inv in Hd as [Hd|(d0 & Hd0 & ->)].
        -- apply Hb, Hd.
        -- rewrite Hid. apply Hb, Hd0.
  - apply (admin_invariant_counter w); [lia | repeat split; assumption].
Qed.

Lemma admins_admins_deleteOne filter :
  preserves admin_invariant (admins_deleteOne filter).
Proof.
  intros w (He & Hi & Hb). unfold admins_deleteOne. run. cbn [snd].
  split; [|split]; cbn [admin_users next_oid].
  - apply NoDup_deleteFirst, He.
  - apply NoDup_deleteFirst_key, Hi.
  - intros a Ha. apply Hb. exact (In_deleteFirst _ _ _ Ha).
Qed.

End Administrators.

#[local] Hint Resolve preserves_ret preserves_throw preserves_gets preserves_lift
  admins_log admins_fresh_oid admins_orgs_insertOne admins_orgs_deleteOne
  admins_users_insertOne admins_users_updateOne admins_createOrgDatabase
  admins_deleteOrgDatabase admins_hashPassword admins_getOrgDb
  admins_admins_deleteOne : admins.

Ltac keep_admins :=
  repeat first
    [ solve [auto with admins]
    | solve [apply admins_admins_insertOne; intros; reflexivity]
    | solve [apply admins_admins_updateOne; intros; reflexivity]
    | apply preserves_try_catch; [|intros ?]
    | apply preserves_bind; [|intros ?]
    | match goal with
      | |- preserves _ (if ?b then _ else _) => destruct b
      | |- preserves _ (match ?x with _ => _ end) => destruct x
      end ].

Lemma admin_invariant_perform `{E : Externals} (c : Call) (w : World) :
  admin_invariant w -> admin_invariant (perform c w).
Proof.
  revert w. change (preserves admin_invariant (fun w => (Ok tt, perform c w))).
  destruct c; intros w H; cbn [snd perform].
  - revert w H. change (preserves admin_invariant
                          (createOrganization now salt orgName email password)).
    unfold createOrganization. keep_admins.
  - revert w H. change (preserves admin_invariant (getOrganization orgName)).
    unfold getOrganization. keep_admins.
  - revert w H. change (preserves admin_invariant
                          (updateOrganization now salt orgName email password)).
    unfold updateOrganization. keep_admins.
  - revert w H. change (preserves admin_invariant (deleteOrganization orgName adminId)).
    unfold deleteOrganization. keep_admins.
  - revert w H. change (preserves admin_invariant (adminLogin now email password)).
    unfold adminLogin. keep_admins.
  - revert w H. change (preserves admin_invariant
                          (refreshAccessToken now adminId refreshToken)).
    unfold refreshAccessToken. keep_admins.
Qed.

(** X11. On every store that calls of the service build from the empty
    one, no two administrators share an email or an id, and every id in use
    is below the counter.  So the ids that the next create draws are held
    by no administrator, and a lookup by email, as [adminLogin] does it,
    reaches the one administrator that holds the email. *)
Theorem reachable_admin_invariant `{E : Externals} (w : World) :
  Reachable w ->
  admin_invariant w /\
  (forall k, findOne (admin_with_id (next_oid w + k)) (admin_users w) = None) /\
  (forall a, In a (admin_users w) ->
     findOne (admin_with_email (AdminDoc.admin_email a)) (admin_users w) = Some a).
Proof.
  intros Hr.
  assert (Hinv : admin_invariant w).
  { induction Hr as [|w c _ IH].
    - split; [apply NoDup_nil_2|]. split; [apply NoDup_nil_2 | intros a []].
    - apply admin_invariant_perform, IH. }
  split; [exact Hinv|]. destruct Hinv as (He & Hi & Hb). split.
  - intros k. apply findOne_none_all. intros a Ha. unfold admin_with_id.
    apply bool_decide_eq_false_2. specialize (Hb a Ha). lia.
  - intros a Ha. exact (findOne_unique AdminDoc.admin_email _ _ He Ha).
Qed.

Lemma reachable_admin_invariant_witness :
  findOne (admin_with_id (N.succ (next_oid Scenario.created)))
          (admin_users Scenario.created) = None.
Proof.
  destruct (reachable_admin_invariant (E := Sample.externals) Scenario.created)
    as (_ & H & _).
  - exact (Reachable_step empty_world
             (CallCreate 1000 "s1" "Acme Inc" "admin@acme.com" "Secret123")
             Reachable_empty).
  - exact (H 1).
Defined.

(** ** How long a token is accepted *)

Lemma seconds_before (now' limit : N) : now' < 1000 * limit <-> now' / 1000 < limit.
Proof.
  split; intros H.
  - apply N.Div0.div_lt_upper_bound. exact H.
  - destruct (N.lt_ge_cases now' (1000 * limit)) as [Hlt|Hge]; [exact Hlt|].
    exfalso. apply (N.lt_irrefl limit). eapply N.le_lt_trans; [|exact H].
    apply N.div_le_lower_bound; [discriminate | exact Hge].
Qed.

(** X12. The tokens of a login carry the clock in whole seconds.  When the
    library reads back what it signed, [verifyToken] accepts the access
    token at every instant before the 900th second after the second of the
    login and answers "Invalid token: jwt expired" from that second on;
    for the refresh token the span is 604800 seconds.  In milliseconds: an
    access token is accepted for more than 899 and at most 900 seconds. *)
Theorem issued_tokens_expire `{E : Externals}
    (now now' : Date) (admin : AdminDoc.t) :
  let r := login_result now admin in
  let a := access_payload (oid_toString (AdminDoc._id admin))
             (AdminDoc.organization_id admin) (AdminDoc.organization_name admin)
             (AdminDoc.role admin) now in
  let p := refresh_payload (oid_toString (AdminDoc._id admin))
             (AdminDoc.organization_id admin) now in
  jwt_decode (LoginResult.access_token r) jwtSecret jwtAlgorithm = Ok a ->
  jwt_decode (LoginResult.refresh_token r) jwtSecret jwtAlgorithm = Ok p ->
  verifyToken (LoginResult.access_token r) now'
  = (if now' <? 1000 * (now / 1000 + 900) then Ok a
     else Err "Invalid token: jwt expired") /\
  verifyToken (LoginResult.refresh_token r) now'
  = (if now' <? 1000 * (now / 1000 + 604800) then Ok p
     else Err "Invalid token: jwt expired") /\
  (now' <= now + 899000 -> verifyToken (LoginResult.access_token r) now' = Ok a) /\
  (now + 900000 <= now' ->
   verifyToken (LoginResult.access_token r) now' = Err "Invalid token: jwt expired").
Proof.
  intros r a p Ha Hp.
  assert (Hwin : forall token c span,
            jwt_decode token jwtSecret jwtAlgorithm = Ok c ->
            exp c = now / 1000 + span ->
            verifyToken token now'
            = (if now' <? 1000 * (now / 1000 + span) then Ok c
               else Err "Invalid token: jwt expired")).
  { intros token c span Hd Hexp.
    destruct (N.ltb_spec now' (1000 * (now / 1000 + span))) as [Hlt|Hge].
    - apply verifyToken_valid. split; [exact Hd|]. rewrite Hexp.
      apply seconds_before, Hlt.
    - apply (verifyToken_expired _ _ c Hd). rewrite Hexp.
      apply N.div_le_lower_bound; [discriminate | exact Hge]. }
  pose proof (Hwin _ _ 900 Ha eq_refl) as Hacc.
  pose proof (Hwin _ _ 604800 Hp eq_refl) as Href.
  split; [exact Hacc|]. split; [exact Href|].
  pose proof (N.Div0.div_mod now 1000) as Hdm.
  pose proof (N.mod_lt now 1000 ltac:(lia)) as Hm.
  pose proof (N.Div0.mul_div_le now 1000) as Hle.
  split; intros Hb; rewrite Hacc.
  - destruct (N.ltb_spec now' (1000 * (now / 1000 + 900))); [reflexivity | lia].
  - destruct (N.ltb_spec now' (1000 * (now / 1000 + 900))); [lia | reflexivity].
Qed.

Lemma issued_tokens_expire_witness :
  verifyToken (E := Sample.externals)
    (createAccessToken (E := Sample.externals) "1" (Some "2") (Some "Acme Inc")
       "org_admin" 5999) 905000
  = Err "Invalid token: jwt expired".
Proof.
  assert (H := issued_tokens_expire (E := Sample.externals) 5999 905000
                 (AdminDoc.mk 1 "admin@acme.com" "h" "org_admin" (Some "2")
                    (Some "Acme Inc") 1000 true None None)).
  cbv zeta in H.
  destruct H as (H & _); [vm_compute; reflexivity | vm_compute; reflexivity |].
  exact H.
Defined.

(** ** [extractToken] and [requireAuth] *)

Lemma substring_all (s : string) : String.substring 0 (String.length s) s = s.
Proof. induction s as [|c s IH]; simpl; [reflexivity | rewrite IH; reflexivity]. Qed.

Lemma prefix_slice (p h : string) :
  String.prefix p h = true ->
  h = p +:+ String.substring (String.length p) (String.length h - String.length p) h.
Proof.
  revert h. induction p as [|c p IH]; intros h; simpl.
  - intros _. rewrite Nat.sub_0_r, substring_all. reflexivity.
  - destruct h as [|c' h]; [discriminate|]. simpl.
    destruct (Ascii.ascii_dec c c') as [->|]; [|discriminate].
    intros Hp.
    change (String c' h
            = String c' (p +:+ String.substring (String.length p)
                                 (String.length h - String.length p) h)).
    f_equal. apply IH, Hp.
Qed.

(** X13. Behind [extractToken] and [requireAuth] a request is answered in
    one of three ways.  Without a header of the form "Bearer " followed by
    a non-empty token: 401, MISSING_TOKEN.  With a token that
    [verifyToken] refuses: 401, INVALID_TOKEN, the same body whatever the
    reason of the refusal.  Otherwise the handler runs with the payload
    that [verifyToken] returned for the text after "Bearer ". *)
Theorem requireAuth_outcomes `{E : Externals} (now : Date) (req : Req.t) :
  match requireAuth now (extractToken req) with
  | inl res =>
      (res = missing_token /\
       forall token, token <> "" -> Req.authorization req <> Some ("Bearer " +:+ token)) \/
      (res = invalid_token /\
       exists token m,
         Req.authorization req = Some ("Bearer " +:+ token) /\
         verifyToken token now = Err m)
  | inr user =>
      exists token,
        Req.authorization req = Some ("Bearer " +:+ token) /\ token <> "" /\
        verifyToken token now = Ok user
  end.
Proof.
  unfold extractToken.
  destruct (Req.authorization req) as [h|] eqn:Hh; cbn [requireAuth].
  2:{ left. split; [reflexivity | discriminate]. }
  destruct (falsy h) eqn:Hf; cbn [negb andb requireAuth].
  { left. split; [reflexivity|]. intros token _ [= ->].
    apply bool_decide_eq_true_1 in Hf. discriminate. }
  destruct (String.prefix "Bearer " h) eqn:Hp; cbn [requireAuth].
  2:{ left. split; [reflexivity|]. intros token _ [= ->].
      simpl in Hp. destruct token; discriminate. }
  pose proof (prefix_slice _ _ Hp) as Hs. cbn [String.length] in Hs.
  set (token := String.substring 7 (String.length h - 7) h) in *.
  destruct (falsy token) eqn:Ht.
  { left. split; [reflexivity|]. intros t Hne [= Heq].
    apply bool_decide_eq_true_1 in Ht. rewrite Ht in Hs. rewrite Hs in Heq.
    cbv in Heq. congruence. }
  apply bool_decide_eq_false_1 in Ht.
  destruct (verifyToken token now) as [user|m] eqn:Hv.
  - exists token. rewrite Hs at 1. auto.
  - right. split; [reflexivity|]. exists token, m. rewrite Hs at 1. auto.
Qed.

(** ** [validateRequest] *)

Section ValidatorFacts.
Context {J : Joi}.

Lemma validateRequest_inr schema req data :
  validateRequest schema req = inr data ->
  forallb (key_ok data) schema = true /\
  data = (if truthy (Req.body req !! "organization_name") then Req.body req
          else Req.query req).
Proof.
  unfold validateRequest, schema_validate.
  destruct (forallb (key_ok _) schema) eqn:Hk; [|discriminate].
  destruct (forallb (key_known schema) _); [|discriminate].
  cbn [andb]. intros [= <-]. auto.
Qed.

Lemma validateRequest_inl schema req res :
  validateRequest schema req = inl res -> res = validation_error.
Proof.
  unfold validateRequest. destruct (schema_validate _ _); [discriminate|].
  intros [= <-]. reflexivity.
Qed.

Lemma string_ok_present rule s : string_ok rule s = true -> s <> "".
Proof.
  unfold string_ok. intros H. apply andb_true_iff in H as [H _].
  apply andb_true_iff in H as [H _]. apply andb_true_iff in H as [H _].
  apply negb_true_iff, bool_decide_eq_false_1 in H. exact H.
Qed.

Lemma string_ok_min rule s n :
  string_ok rule s = true -> rule_min rule = Some n -> (n <= String.length s)%nat.
Proof.
  unfold string_ok. intros H Hn. rewrite Hn in H. apply andb_true_iff in H as [H _].
  apply andb_true_iff in H as [H _]. apply andb_true_iff in H as [_ H].
  apply Nat.leb_le, H.
Qed.

Lemma key_ok_field data k rule :
  key_ok data (k, rule) = true -> string_ok rule (field data k) = true.
Proof.
  unfold key_ok, field. cbn [fst snd].
  destruct (data !! k) as [[s|b]|]; [auto | discriminate | discriminate].
Qed.

(** A schema without the key [organization_name] passes no request whose
    query string is empty. *)
Lemma validateRequest_empty_query schema auth body :
  schema <> [] -> key_known schema "organization_name" = false ->
  validateRequest schema (Req.mk auth body ∅) = inl validation_error.
Proof.
  intros Hne Hk. unfold validateRequest. cbn [Req.body Req.query].
  assert (Hno : schema_validate schema
                  (if truthy (body !! "organization_name") then body else ∅) = false);
    [|rewrite Hno; reflexivity].
  unfold schema_validate.
  destruct (truthy (body !! "organization_name")) eqn:Ht.
  - apply andb_false_iff. right.
    destruct (body !! "organization_name") as [v|] eqn:Hv; [|discriminate].
    apply not_true_iff_false. intros Hall.
    rewrite forallb_forall in Hall.
    rewrite (Hall "organization_name") in Hk; [discriminate|].
    apply elem_of_map_to_list in Hv.
    apply list_elem_of_In in Hv.
    exact (in_map fst _ _ Hv).
  - apply andb_false_iff. left.
    destruct schema as [|entry schema]; [congruence|].
    cbn [forallb]. unfold key_ok at 1. rewrite lookup_empty. reflexivity.
Qed.

End ValidatorFacts.

(** What a limiter does with a request, by the count it holds for the
    client: the first [max] requests of a window go on, the later ones are
    answered 429 and touch nothing. *)
Lemma rateLimit_cases (max : N) (message : string) (hits : N) (next : Route) (w : World) :
  rateLimit max message hits next w
  = if hits <? max then next w else (Res.mk 429 (TextBody message), w).
Proof.
  unfold rateLimit.
  destruct (N.ltb_spec max (hits + 1)), (N.ltb_spec hits max); try lia; reflexivity.
Qed.

(** X14. [validateRequest] reads the body only when the body has a truthy
    [organization_name], and the schemas of [POST /admin/login] and
    [POST /auth/refresh] do not allow that key.  So neither route calls
    the service for a request whose query string is empty, whatever its
    body.  [POST /auth/refresh] answers it 400, VALIDATION_ERROR.  So does
    [POST /admin/login] while [loginLimiter] lets the client pass, for the
    first five requests of a window; from the sixth on the limiter answers
    429.  And what the two routes answer to a body without a truthy
    [organization_name] depends on the query string alone. *)
Theorem credentials_are_read_from_query `{E : Externals} `{J : Joi}
    (hits : N) (now : Date) (auth : option string) (body : gmap string Json)
    (w : World) :
  post_admin_login hits now (Req.mk auth body ∅) w
  = (if hits <? 5 then validation_error else too_many_logins, w) /\
  post_auth_refresh now (Req.mk auth body ∅) w = (validation_error, w) /\
  (forall query,
     truthy (body !! "organization_name") = false ->
     post_admin_login hits now (Req.mk auth body query) w
     = post_admin_login hits now (Req.mk auth ∅ query) w /\
     post_auth_refresh now (Req.mk auth body query) w
     = post_auth_refresh now (Req.mk auth ∅ query) w).
Proof.
  split; [|split].
  - unfold post_admin_login, loginLimiter. rewrite rateLimit_cases.
    rewrite validateRequest_empty_query; [|discriminate | reflexivity].
    destruct (hits <? 5); reflexivity.
  - unfold post_auth_refresh.
    rewrite validateRequest_empty_query; [reflexivity | discriminate | reflexivity].
  - intros query Ht. unfold post_admin_login, post_auth_refresh, validateRequest.
    cbn [Req.body Req.query]. rewrite Ht, lookup_empty. split; reflexivity.
Qed.

Lemma credentials_are_read_from_query_witness :
  fst (post_admin_login (E := Sample.externals) (J := SampleHttp.joi) 0 5000
         (Req.mk None
            (SampleHttp.object [("email", "admin@acme.com"); ("password", "Secret123")])
            ∅)
         Scenario.created)
  = validation_error /\
  fst (post_admin_login (E := Sample.externals) (J := SampleHttp.joi) 5 5000
         (Req.mk None
            (SampleHttp.object [("email", "admin@acme.com"); ("password", "Secret123")])
            ∅)
         Scenario.created)
  = too_many_logins.
Proof.
  split.
  - rewrite (proj1 (credentials_are_read_from_query (E := Sample.externals)
                      (J := SampleHttp.joi) 0 5000 None _ Scenario.created)).
    reflexivity.
  - rewrite (proj1 (credentials_are_read_from_query (E := Sample.externals)
                      (J := SampleHttp.joi) 5 5000 None _ Scenario.created)).
    reflexivity.
Defined.

(** ** The routes behind [requireAuth] *)

Lemma extractToken_bearer (req : Req.t) (token : string) :
  Req.authorization req = Some ("Bearer " +:+ token) -> extractToken req = Some token.
Proof.
  intros Hh. unfold extractToken. rewrite Hh.
  change ("Bearer " +:+ token)
    with (String "B" (String "e" (String "a" (String "r" (String "e" (String "r"
           (String " " token))))))).
  rewrite falsy_false by discriminate. cbn [negb andb].
  assert (Hp : String.prefix "Bearer "
                 (String "B" (String "e" (String "a" (String "r" (String "e" (String "r"
                    (String " " token))))))) = true).
  { cbn. destruct token; reflexivity. }
  rewrite Hp. simpl. rewrite Nat.sub_0_r, substring_all. reflexivity.
Qed.

Section AuthorizedRoutes.
Context {E : Externals} {J : Joi}.

Lemma requireAuth_bearer now req token user :
  Req.authorization req = Some ("Bearer " +:+ token) -> token <> "" ->
  verifyToken token now = Ok user ->
  requireAuth now (extractToken req) = inr user.
Proof.
  intros Hh Hne Hv. rewrite (extractToken_bearer _ _ Hh). unfold requireAuth.
  rewrite (falsy_false _ Hne), Hv. reflexivity.
Qed.

Lemma delete_org_delete_forbidden now req user data w :
  requireAuth now (extractToken req) = inr user ->
  validateRequest deleteOrgSchema req = inr data ->
  other_organization user (field data "organization_name") = true ->
  delete_org_delete now req w
  = (Res.mk 403 (ErrorBody "FORBIDDEN" "Cannot delete other organizations"), w).
Proof.
  intros Ha Hv Ho. unfold delete_org_delete. rewrite Ha, Hv, Ho. reflexivity.
Qed.

Lemma put_org_update_forbidden now salt req user data w :
  requireAuth now (extractToken req) = inr user ->
  validateRequest updateOrgSchema req = inr data ->
  other_organization user (field data "organization_name") = true ->
  put_org_update now salt req w
  = (Res.mk 403 (ErrorBody "FORBIDDEN" "Cannot update other organizations"), w).
Proof.
  intros Ha Hv Ho. unfold put_org_update. rewrite Ha, Hv, Ho. reflexivity.
Qed.

Lemma delete_org_delete_permitted now req user data w :
  requireAuth now (extractToken req) = inr user ->
  validateRequest deleteOrgSchema req = inr data ->
  other_organization user (field data "organization_name") = false ->
  delete_org_delete now req w
  = match findOne (org_named (field data "organization_name")) (organizations w) with
    | Some org =>
        match db_name_error (namespaceFor (field data "organization_name")) with
        | None =>
            (Res.mk 200 (AckBody (Ack.mk "Organization deleted successfully"
                                         (field data "organization_name"))),
             after_delete (field data "organization_name") org w)
        | Some message =>
            (Res.mk (if includes "not found"
                          ("Failed to delete organization: " +:+ message)
                     then 404 else 403)
                    (ErrorBody "DELETE_ORG_ERROR"
                               ("Failed to delete organization: " +:+ message)),
             after_refused_delete (field data "organization_name") org w)
        end
    | None =>
        (Res.mk 404 (ErrorBody "DELETE_ORG_ERROR" "Organization not found"), w)
    end.
Proof.
  intros Ha Hv Ho. unfold delete_org_delete. rewrite Ha, Hv, Ho.
  destruct (validateRequest_inr _ _ _ Hv) as [Hk _].
  cbn [forallb deleteOrgSchema] in Hk. apply andb_true_iff in Hk as [Hk _].
  pose proof (string_ok_present _ _ (key_ok_field _ _ _ Hk)) as Hn.
  unfold respond.
  destruct (findOne (org_named (field data "organization_name")) (organizations w))
    as [org|] eqn:Hf.
  - destruct (db_name_error (namespaceFor (field data "organization_name")))
      as [message|] eqn:Hdb.
    + rewrite (deleteOrganization_refused _ _ _ _ _ Hn Hf Hdb). reflexivity.
    + rewrite (deleteOrganization_found _ _ _ _ Hn Hf Hdb). reflexivity.
  - rewrite (deleteOrganization_not_found _ _ _ Hn Hf). reflexivity.
Qed.

End AuthorizedRoutes.

(** X15. [DELETE /org/delete], for a request that passed [requireAuth] as
    [user] and whose validated name is [n], answers in exactly one of four
    ways.  When [user] has not the role "admin" and its token names another
    organization: 403, FORBIDDEN, and the store is as it was.  Otherwise,
    when [n] is not registered: 404, "Organization not found".  Otherwise,
    when the driver accepts the database name that [n] derives: 200, and
    the store is the one that [deleteOrganization] leaves.  Otherwise the
    service has deleted the record and the administrator when the driver
    refuses the name, and the handler answers with the status it keeps
    for the other errors of the service, 403 unless the message holds
    "not found", and "Failed to delete organization: " followed by the
    driver's message.  The service's check for a missing name never
    fires. *)
Theorem delete_org_delete_outcomes `{E : Externals} `{J : Joi}
    (now : Date) (req : Req.t) (user : Claims) (data : gmap string Json) (w : World) :
  requireAuth now (extractToken req) = inr user ->
  validateRequest deleteOrgSchema req = inr data ->
  delete_org_delete now req w
  = (if other_organization user (field data "organization_name") then
       (Res.mk 403 (ErrorBody "FORBIDDEN" "Cannot delete other organizations"), w)
     else
       match findOne (org_named (field data "organization_name")) (organizations w) with
       | Some org =>
           match db_name_error (namespaceFor (field data "organization_name")) with
           | None =>
               (Res.mk 200 (AckBody (Ack.mk "Organization deleted successfully"
                                            (field data "organization_name"))),
                after_delete (field data "organization_name") org w)
           | Some message =>
               (Res.mk (if includes "not found"
                             ("Failed to delete organization: " +:+ message)
                        then 404 else 403)
                       (ErrorBody "DELETE_ORG_ERROR"
                                  ("Failed to delete organization: " +:+ message)),
                after_refused_delete (field data "organization_name") org w)
           end
       | None =>
           (Res.mk 404 (ErrorBody "DELETE_ORG_ERROR" "Organization not found"), w)
       end).
Proof.
  intros Ha Hv.
  destruct (other_organization user (field data "organization_name")) eqn:Ho.
  - apply (delete_org_delete_forbidden _ _ user data); assumption.
  - apply (delete_org_delete_permitted _ _ user data); assumption.
Qed.

Lemma delete_org_delete_outcomes_witness :
  fst (delete_org_delete (E := Sample.externals) (J := SampleHttp.joi) 6000
         (Req.mk (Some "Bearer k|HS256|1|=2|=Acme Inc|=org_admin|~|5|905") ∅
                 (SampleHttp.object [("organization_name", "Beta Ltd")]))
         TwoTenants.both)
  = Res.mk 403 (ErrorBody "FORBIDDEN" "Cannot delete other organizations").
Proof.
  rewrite (delete_org_delete_outcomes (E := Sample.externals) (J := SampleHttp.joi) 6000
             _ (mkClaims "1" (Some "2") (Some "Acme Inc") (Some "org_admin") None 5 905)
             (SampleHttp.object [("organization_name", "Beta Ltd")]));
    vm_compute; reflexivity.
Defined.

(** X16. The access token of a login names the organization of the
    administrator.  An administrator whose role is not "admin" cannot, with
    that token, update or delete an organization of another name: while
    the token is accepted, [PUT /org/update] and [DELETE /org/delete] answer
    403, FORBIDDEN, to every validated request for another name, and leave
    the store as it was. *)
Theorem login_token_scope `{E : Externals} `{J : Joi}
    (now0 now : Date) (salt : string) (admin : AdminDoc.t) (req : Req.t) (w : World) :
  let r := login_result now0 admin in
  let user := access_payload (oid_toString (AdminDoc._id admin))
                (AdminDoc.organization_id admin) (AdminDoc.organization_name admin)
                (AdminDoc.role admin) now0 in
  AdminDoc.role admin <> "admin" ->
  Req.authorization req = Some ("Bearer " +:+ LoginResult.access_token r) ->
  LoginResult.access_token r <> "" ->
  verifyToken (LoginResult.access_token r) now = Ok user ->
  (forall data,
     validateRequest deleteOrgSchema req = inr data ->
     AdminDoc.organization_name admin <> Some (field data "organization_name") ->
     delete_org_delete now req w
     = (Res.mk 403 (ErrorBody "FORBIDDEN" "Cannot delete other organizations"), w)) /\
  (forall data,
     validateRequest updateOrgSchema req = inr data ->
     AdminDoc.organization_name admin <> Some (field data "organization_name") ->
     put_org_update now salt req w
     = (Res.mk 403 (ErrorBody "FORBIDDEN" "Cannot update other organizations"), w)).
Proof.
  intros r user Hrole Hh Hne Hv.
  pose proof (requireAuth_bearer _ _ _ _ Hh Hne Hv) as Ha.
  assert (Hother : forall n, AdminDoc.organization_name admin <> Some n ->
                             other_organization user n = true).
  { intros n Hn. unfold other_organization, user, access_payload. cbn [role org_name].
    rewrite !bool_decide_eq_false_2; [reflexivity | exact Hn | congruence]. }
  split; intros data Hd Hn.
  - apply (delete_org_delete_forbidden _ _ user data); auto.
  - apply (put_org_update_forbidden _ _ _ user data); auto.
Qed.

Lemma login_token_scope_witness :
  put_org_update (E := Sample.externals) (J := SampleHttp.joi) 6000 "s3"
    (Req.mk (Some "Bearer k|HS256|1|=2|=Acme Inc|=org_admin|~|5|905")
            (SampleHttp.object [("organization_name", "Beta Ltd");
                                ("email", "x@beta.com"); ("password", "Changed1")]) ∅)
    TwoTenants.both
  = (Res.mk 403 (ErrorBody "FORBIDDEN" "Cannot update other organizations"),
     TwoTenants.both).
Proof.
  assert (H := login_token_scope (E := Sample.externals) (J := SampleHttp.joi)
                 5000 6000 "s3"
                 (AdminDoc.mk 1 "admin@acme.com" "h" "org_admin" (Some "2")
                    (Some "Acme Inc") 1000 true None None)
                 (Req.mk (Some "Bearer k|HS256|1|=2|=Acme Inc|=org_admin|~|5|905")
                    (SampleHttp.object [("organization_name", "Beta Ltd");
                                        ("email", "x@beta.com"); ("password", "Changed1")]) ∅)
                 TwoTenants.both).
  cbv zeta in H.
  destruct H as [_ H];
    [discriminate | vm_compute; reflexivity | discriminate | vm_compute; reflexivity|].
  apply (H (SampleHttp.object [("organization_name", "Beta Ltd");
                               ("email", "x@beta.com"); ("password", "Changed1")]));
    [vm_compute; reflexivity | discriminate].
Defined.



(** ** [POST /org/create] *)

Lemma createOrganization_Err_checked `{E : Externals}
    now salt orgName email password w m w' :
  orgName <> "" -> email <> "" -> password <> "" ->
  (6 <= String.length password)%nat ->
  createOrganization now salt orgName email password w = (Err m, w') ->
  m = "Invalid email format" \/
  m = "Organization with this name already exists" \/
  exists e, m = "Failed to create organization: " +:+ e.
Proof.
  intros Hn He Hp Hl. unfold createOrganization.
  rewrite (falsy_false _ Hn), (falsy_false _ He), (falsy_false _ Hp). cbn [orb].
  destruct (isEmail email); cbn [negb]; [|intros [= <- _]; auto].
  destruct (Nat.ltb_spec (String.length password) 6) as [Hlt|_]; [lia|].
  unfold bind at 1. unfold gets.
  destruct (findOne (org_named orgName) (organizations w)); [intros [= <- _]; auto|].
  unfold try_catch, throw.
  match goal with |- context [match ?body w with _ => _ end] =>
    destruct (body w) as [[s|e] w1] end.
  - discriminate.
  - intros [= <- _]. right. right. exists e. reflexivity.
Qed.

(** X18. [POST /org/create] answers 409 when the organization is
    registered already: for a request that [createOrgLimiter] lets pass,
    one of the first five of the client's window, and that
    [validateRequest] lets pass, whose email passes the address check of
    the service and whose name the registry holds, the response is 409,
    CREATE_ORG_ERROR, "Organization with this name already exists", and
    the store is as it was.  From the sixth request of the window on, the
    limiter answers 429 and the store is as it was.  And what
    [validateRequest] lets through has a name, an email and a password of
    six characters or more: the route never answers with the two messages
    of the service's own checks for missing inputs and for a short
    password. *)
Theorem post_org_create_outcomes `{E : Externals} `{J : Joi}
    (hits : N) (now : Date) (salt : string) (req : Req.t) (w : World) :
  (forall data o,
     hits < 5 ->
     validateRequest createOrgSchema req = inr data ->
     isEmail (field data "email") = true ->
     findOne (org_named (field data "organization_name")) (organizations w) = Some o ->
     post_org_create hits now salt req w
     = (Res.mk 409 (ErrorBody "CREATE_ORG_ERROR"
                              "Organization with this name already exists"), w)) /\
  (5 <= hits -> post_org_create hits now salt req w = (too_many_creates, w)) /\
  Res.json (fst (post_org_create hits now salt req w))
  <> ErrorBody "CREATE_ORG_ERROR" "Organization name, email, and password are required" /\
  Res.json (fst (post_org_create hits now salt req w))
  <> ErrorBody "CREATE_ORG_ERROR" "Password must be at least 6 characters".
Proof.
  assert (Hchecked : forall data,
            validateRequest createOrgSchema req = inr data ->
            field data "organization_name" <> "" /\ field data "email" <> "" /\
            field data "password" <> "" /\
            (6 <= String.length (field data "password"))%nat).
  { intros data Hv. destruct (validateRequest_inr _ _ _ Hv) as [Hk _].
    cbn [forallb createOrgSchema] in Hk.
    apply andb_true_iff in Hk as [Hname Hk]. apply andb_true_iff in Hk as [Hemail Hk].
    apply andb_true_iff in Hk as [Hpw _].
    apply key_ok_field in Hname, Hemail, Hpw.
    repeat split; try (eapply string_ok_present; eassumption).
    exact (string_ok_min _ _ _ Hpw eq_refl). }
  unfold post_org_create, createOrgLimiter. rewrite rateLimit_cases.
  destruct (N.ltb_spec hits 5) as [Hhits|Hhits].
  2:{ split; [intros; lia|]. split; [reflexivity|]. split; discriminate. }
  split; [|split; [intros; lia|]].
  - intros data o _ Hv Hm Hf. destruct (Hchecked data Hv) as (Hn & He & Hp & Hl).
    unfold respond. rewrite Hv.
    rewrite (createOrganization_taken _ _ _ _ _ _ _ Hf Hn He Hp Hm Hl). reflexivity.
  - destruct (validateRequest createOrgSchema req) as [res|data] eqn:Hv.
    { apply validateRequest_inl in Hv as ->. split; discriminate. }
    destruct (Hchecked data eq_refl) as (Hn & He & Hp & Hl). unfold respond.
    destruct (createOrganization now salt _ _ _ w) as [[s|m] w'] eqn:Hc; cbn [fst Res.json].
    { split; discriminate. }
    destruct (createOrganization_Err_checked _ _ _ _ _ _ _ _ Hn He Hp Hl Hc)
      as [->|[->|[e ->]]]; split; intros H; cbv in H; discriminate.
Qed.

Lemma post_org_create_outcomes_witness :
  post_org_create (E := Sample.externals) (J := SampleHttp.joi) 0 5000 "s2"
    (Req.mk None
       (SampleHttp.object [("organization_name", "Acme Inc"); ("email", "b@acme.com");
                           ("password", "Secret123")]) ∅)
    Scenario.created
  = (Res.mk 409 (ErrorBody "CREATE_ORG_ERROR"
                           "Organization with this name already exists"),
     Scenario.created).
Proof.
  apply (proj1 (post_org_create_outcomes (E := Sample.externals) (J := SampleHttp.joi)
                  0 5000 "s2" _ Scenario.created)
           (SampleHttp.object [("organization_name", "Acme Inc"); ("email", "b@acme.com");
                               ("password", "Secret123")])
           (OrgDoc.mk 2 "Acme Inc" "org_acme_inc" "admin@acme.com" "0" 1000 true));
    [lia | vm_compute; reflexivity ..].
Defined.

(** ** [seedMasterDb] *)

Section SeedFacts.
Context {E : Externals}.

Lemma seedMasterDb_registered now salt w o :
  findOne (org_named "Sample Org") (organizations w) = Some o ->
  seedMasterDb now salt w = (Ok tt, indexes_laid w).
Proof.
  intros Hf. unfold seedMasterDb, indexes_laid. apply try_catch_Ok.
  unfold bind at 1 2 3. unfold log at 1 2. unfold modify, gets. cbn [organizations].
  rewrite Hf. cbn. rewrite <- !app_assoc. reflexivity.
Qed.

Lemma seedMasterDb_writes now salt w :
  findOne (org_named "Sample Org") (organizations w) = None ->
  key_taken AdminDoc.admin_email "admin@sample.com" (admin_users w) = false ->
  seedMasterDb now salt w = (Ok tt, after_seed now salt w).
Proof.
  intros Hf Hk. unfold seedMasterDb. apply try_catch_Ok.
  unfold bind at 1 2 3. unfold log at 1 2. unfold modify, gets. cbn [organizations].
  rewrite Hf.
  rewrite (bind_Ok _ _ _ _ _ (hashPassword_run salt _ _)).
  erewrite bind_Ok; [|apply admins_insertOne_run; exact Hk].
  erewrite bind_Ok;
    [|apply orgs_insertOne_run; apply (key_taken_findOne OrgDoc.organization_name), Hf].
  erewrite admins_updateOne_run by reflexivity.
  unfold after_seed. cbn. rewrite <- !app_assoc. reflexivity.
Qed.

Lemma seedMasterDb_refused now salt w :
  findOne (org_named "Sample Org") (organizations w) = None ->
  key_taken AdminDoc.admin_email "admin@sample.com" (admin_users w) = true ->
  seedMasterDb now salt w
  = (Err ("Seeding error: " +:+ duplicate_key_error AdminEmail "admin@sample.com"),
     mkWorld (organizations w) (admin_users w) (org_dbs w) (N.succ (next_oid w))
             (trace w ++ [AdminCreateIndex; OrgsCreateIndex; HashPassword;
                          AdminInsertOne])).
Proof.
  intros Hf Hk. unfold seedMasterDb.
  erewrite try_catch_Err; cycle 1.
  { unfold bind at 1 2 3. unfold log at 1 2. unfold modify, gets. cbn [organizations].
    rewrite Hf.
    rewrite (bind_Ok _ _ _ _ _ (hashPassword_run salt _ _)).
    erewrite bind_Err; [reflexivity|].
    apply admins_insertOne_refused. exact Hk. }
  unfold throw. cbn. rewrite <- !app_assoc. reflexivity.
Qed.

End SeedFacts.

(** X19. [seedMasterDb] seeds once: whenever it succeeds, a second run on
    the store it leaves, at any time and with any salt, succeeds, issues
    the two calls that lay the indexes and no other, no password hash
    among them, and changes no document: the registry, the
    administrators, the tenant databases and the id counter are as the
    first run left them. *)
Theorem seedMasterDb_idempotent `{E : Externals}
    (now now' : Date) (salt salt' : string) (w w1 : World) (u : unit) :
  seedMasterDb now salt w = (Ok u, w1) ->
  exists w2,
    seedMasterDb now' salt' w1 = (Ok tt, w2) /\
    trace w2 = (trace w1 ++ [AdminCreateIndex; OrgsCreateIndex])%list /\
    organizations w2 = organizations w1 /\
    admin_users w2 = admin_users w1 /\
    org_dbs w2 = org_dbs w1 /\
    next_oid w2 = next_oid w1.
Proof.
  intros Hs.
  assert (Hreg : exists o, findOne (org_named "Sample Org") (organizations w1) = Some o).
  { destruct (findOne (org_named "Sample Org") (organizations w)) as [o|] eqn:Hf.
    - rewrite (seedMasterDb_registered _ _ _ _ Hf) in Hs.
      assert (w1 = indexes_laid w) as -> by congruence.
      exists o. exact Hf.
    - destruct (key_taken AdminDoc.admin_email "admin@sample.com" (admin_users w))
        eqn:Hk.
      + rewrite (seedMasterDb_refused _ _ _ Hf Hk) in Hs. discriminate.
      + rewrite (seedMasterDb_writes _ _ _ Hf Hk) in Hs.
        assert (w1 = after_seed now salt w) as -> by congruence.
        eexists. unfold after_seed. cbn [organizations].
        rewrite (findOne_app_None _ _ _ Hf). reflexivity. }
  destruct Hreg as [o Ho]. exists (indexes_laid w1).
  split; [exact (seedMasterDb_registered _ _ _ _ Ho)|]. repeat split.
Qed.

Lemma seedMasterDb_idempotent_witness :
  exists w2,
    seedMasterDb (E := Sample.externals) 200 "s8"
      (snd (seedMasterDb (E := Sample.externals) 100 "s9" Scenario.created))
    = (Ok tt, w2) /\
    trace w2
    = (trace (snd (seedMasterDb (E := Sample.externals) 100 "s9" Scenario.created))
       ++ [AdminCreateIndex; OrgsCreateIndex])%list /\
    admin_users w2
    = admin_users (snd (seedMasterDb (E := Sample.externals) 100 "s9" Scenario.created)).
Proof.
  destruct (seedMasterDb_idempotent (E := Sample.externals) 100 200 "s9" "s8"
              Scenario.created
              (snd (seedMasterDb (E := Sample.externals) 100 "s9" Scenario.created)) tt)
    as (w2 & H & Ht & _ & Ha & _); [vm_compute; reflexivity|].
  exists w2. split; [exact H|]. split; [exact Ht | exact Ha].
Defined.

(** X20. On a store without "Sample Org", [seedMasterDb] succeeds exactly
    when no administrator holds "admin@sample.com".  When it succeeds it
    registers "Sample Org" under the database name that [createOrgDatabase]
    would derive, but provisions nothing: the tenant databases are as they
    were.  When the email is held, it prints "Seeding error: " followed by
    the refusal of the index of [admin_users], and the registry and the
    administrators are as they were. *)
Theorem seedMasterDb_outcomes `{E : Externals} (now : Date) (salt : string) (w : World) :
  findOne (org_named "Sample Org") (organizations w) = None ->
  let r := seedMasterDb now salt w in
  (key_taken AdminDoc.admin_email "admin@sample.com" (admin_users w) = false ->
   fst r = Ok tt /\
   org_dbs (snd r) = org_dbs w /\
   fst (getOrganization "Sample Org" (snd r))
   = Ok (GetResult.mk (oid_toString (N.succ (next_oid w))) "Sample Org"
           (namespaceFor "Sample Org") "admin@sample.com" now true)) /\
  (key_taken AdminDoc.admin_email "admin@sample.com" (admin_users w) = true ->
   fst r = Err ("Seeding error: "
                +:+ duplicate_key_error AdminEmail "admin@sample.com") /\
   organizations (snd r) = organizations w /\
   admin_users (snd r) = admin_users w /\
   org_dbs (snd r) = org_dbs w).
Proof.
  intros Hf r. split; intros Hk; subst r.
  - rewrite (seedMasterDb_writes _ _ _ Hf Hk). cbn [fst snd].
    split; [reflexivity|]. split; [reflexivity|].
    unfold getOrganization. rewrite falsy_false by discriminate. run.
    unfold after_seed. cbn [organizations]. rewrite (findOne_app_None _ _ _ Hf).
    reflexivity.
  - rewrite (seedMasterDb_refused _ _ _ Hf Hk). cbn [fst snd]. repeat split.
Qed.

Lemma seedMasterDb_outcomes_witness :
  fst (seedMasterDb (E := Sample.externals) 100 "s9" empty_world) = Ok tt /\
  org_dbs (snd (seedMasterDb (E := Sample.externals) 100 "s9" empty_world)) = ∅.
Proof.
  assert (H := seedMasterDb_outcomes (E := Sample.externals) 100 "s9" empty_world eq_refl).
  cbv zeta in H. destruct H as [H _].
  destruct (H eq_refl) as (H1 & H2 & _). split; [exact H1 | exact H2].
Defined.

(** X21. The administrator that the seed writes has the role "admin".  On
    the store that a writing seed leaves, when the id it drew was not in
    use, a login with "admin@sample.com" and the seed's password succeeds,
    given that bcrypt matches the password with its own hash, and its access
    token names the role "admin" and no organization.  With that token,
    while it is accepted, [DELETE /org/delete] is not answered FORBIDDEN:
    for every validated name that is registered, in any store, the service
    is called, and the organization is deleted when the driver accepts the
    database name that the name derives; when it refuses it, the answer is
    the one that the handler keeps for the other errors of the service. *)
Theorem seeded_admin_is_unrestricted `{E : Externals} `{J : Joi}
    (now now1 now2 : Date) (salt : string) (w w' : World) (req : Req.t)
    (data : gmap string Json) (org : OrgDoc.t) :
  let token := createAccessToken (oid_toString (next_oid w))
                 (Some (oid_toString (N.succ (next_oid w)))) None "admin" now1 in
  findOne (org_named "Sample Org") (organizations w) = None ->
  key_taken AdminDoc.admin_email "admin@sample.com" (admin_users w) = false ->
  findOne (admin_with_id (next_oid w)) (admin_users w) = None ->
  verifyPassword "sample_password_123" (bcrypt_hash "sample_password_123" salt) = true ->
  token <> "" ->
  verifyToken token now2
  = Ok (access_payload (oid_toString (next_oid w))
          (Some (oid_toString (N.succ (next_oid w)))) None "admin" now1) ->
  Req.authorization req = Some ("Bearer " +:+ token) ->
  validateRequest deleteOrgSchema req = inr data ->
  findOne (org_named (field data "organization_name")) (organizations w') = Some org ->
  (exists r w2,
     adminLogin now1 "admin@sample.com" "sample_password_123"
       (snd (seedMasterDb now salt w)) = (Ok r, w2) /\
     LoginResult.access_token r = token) /\
  delete_org_delete now2 req w'
  = match db_name_error (namespaceFor (field data "organization_name")) with
    | None =>
        (Res.mk 200 (AckBody (Ack.mk "Organization deleted successfully"
                                     (field data "organization_name"))),
         after_delete (field data "organization_name") org w')
    | Some message =>
        (Res.mk (if includes "not found" ("Failed to delete organization: " +:+ message)
                 then 404 else 403)
                (ErrorBody "DELETE_ORG_ERROR"
                           ("Failed to delete organization: " +:+ message)),
         after_refused_delete (field data "organization_name") org w')
    end.
Proof.
  intros token Hf Hk Hfresh Hpw Hne Hv Hh Hd Horg. split.
  - rewrite (seedMasterDb_writes _ _ _ Hf Hk). cbn [snd].
    assert (Hadm : admin_users (after_seed now salt w)
                   = (admin_users w ++ [seeded_admin now salt w])%list).
    { unfold after_seed. cbn [admin_users].
      rewrite (updateFirst_app_None _ _ _ _ Hfresh). cbn [updateFirst].
      unfold admin_with_id at 1. cbn [AdminDoc._id].
      rewrite bool_decide_eq_true_2 by reflexivity. reflexivity. }
    exists (login_result now1 (seeded_admin now salt w)),
           (after_login now1 (seeded_admin now salt w) (after_seed now salt w)).
    split; [|reflexivity].
    apply adminLogin_found; [discriminate | discriminate | | exact Hpw].
    rewrite Hadm.
    rewrite (findOne_app_None _ _ _
               (findOne_key_free AdminDoc.admin_email "admin@sample.com" _ Hk)).
    reflexivity.
  - pose proof (requireAuth_bearer _ _ _ _ Hh Hne Hv) as Ha.
    rewrite (delete_org_delete_permitted _ _ _ data w' Ha Hd eq_refl), Horg.
    reflexivity.
Qed.

Lemma seeded_admin_is_unrestricted_witness :
  delete_org_delete (E := Sample.externals) (J := SampleHttp.joi) 9000
    (Req.mk (Some "Bearer k|HS256|0|=1|~|=admin|~|5|905") ∅
            (SampleHttp.object [("organization_name", "Acme Inc")]))
    Scenario.created
  = (Res.mk 200 (AckBody (Ack.mk "Organization deleted successfully" "Acme Inc")),
     after_delete (E := Sample.externals) "Acme Inc"
       (OrgDoc.mk 2 "Acme Inc" "org_acme_inc" "admin@acme.com" "0" 1000 true)
       Scenario.created).
Proof.
  assert (H := seeded_admin_is_unrestricted (E := Sample.externals) (J := SampleHttp.joi)
                 100 5000 9000 "s9" empty_world Scenario.created
                 (Req.mk (Some "Bearer k|HS256|0|=1|~|=admin|~|5|905") ∅
                         (SampleHttp.object [("organization_name", "Acme Inc")]))
                 (SampleHttp.object [("organization_name", "Acme Inc")])
                 (OrgDoc.mk 2 "Acme Inc" "org_acme_inc" "admin@acme.com" "0" 1000 true)).
  cbv zeta in H.
  destruct H as [_ H];
    [vm_compute; reflexivity | vm_compute; reflexivity | vm_compute; reflexivity
    | vm_compute; reflexivity | discriminate | vm_compute; reflexivity
    | vm_compute; reflexivity | vm_compute; reflexivity | vm_compute; reflexivity |].
  assert (Hdb : db_name_error (Externals := Sample.externals)
                  (namespaceFor
                     (field (SampleHttp.object [("organization_name", "Acme Inc")])
                            "organization_name"))
                = None) by (vm_compute; reflexivity).
  rewrite Hdb in H. exact H.
Defined.

(** ** The routes without [requireAuth] *)

(** X22. [GET /org/get] answers every request in one of three ways, and
    never writes: 400, VALIDATION_ERROR; 200 with the record of the
    validated name; 404, "Organization not found".  The 400 that the
    handler keeps for the other errors of the service is never sent. *)
Theorem get_org_get_outcomes `{E : Externals} `{J : Joi} (req : Req.t) (w : World) :
  get_org_get req w
  = (match validateRequest getOrgSchema req with
     | inl _ => validation_error
     | inr data =>
         match findOne (org_named (field data "organization_name")) (organizations w) with
         | Some org =>
             Res.mk 200 (GetBody (GetResult.mk (oid_toString (OrgDoc._id org))
                                    (OrgDoc.organization_name org) (OrgDoc.db_name org)
                                    (OrgDoc.admin_email org) (OrgDoc.created_at org)
                                    (OrgDoc.is_active org)))
         | None => Res.mk 404 (ErrorBody "GET_ORG_ERROR" "Organization not found")
         end
     end, w).
Proof.
  unfold get_org_get.
  destruct (validateRequest getOrgSchema req) as [res|data] eqn:Hv.
  { apply validateRequest_inl in Hv as ->. reflexivity. }
  destruct (validateRequest_inr _ _ _ Hv) as [Hk _].
  cbn [forallb getOrgSchema] in Hk. apply andb_true_iff in Hk as [Hk _].
  pose proof (string_ok_present _ _ (key_ok_field _ _ _ Hk)) as Hn.
  unfold respond, getOrganization. rewrite (falsy_false _ Hn). run.
  destruct (findOne (org_named (field data "organization_name")) (organizations w));
    reflexivity.
Qed.

(** X23. [POST /admin/login] answers every request in one of four ways.
    When the limiter already counts five requests of the client in the
    window: 429 with the limiter's message, whatever the request holds.
    Otherwise: 400, VALIDATION_ERROR; 401, LOGIN_ERROR, "Invalid
    credentials"; 200 with the tokens of an administrator of the store,
    whose refresh fields are then rewritten.  In the first three cases the
    store is as it was.  The 400 that the handler keeps for the other
    errors of the service is never sent: what [validateRequest] lets
    through has an email and a password. *)
Theorem post_admin_login_outcomes `{E : Externals} `{J : Joi}
    (hits : N) (now : Date) (req : Req.t) (w : World) :
  (5 <= hits /\ post_admin_login hits now req w = (too_many_logins, w)) \/
  (hits < 5 /\
   (post_admin_login hits now req w = (validation_error, w) \/
    post_admin_login hits now req w
    = (Res.mk 401 (ErrorBody "LOGIN_ERROR" "Invalid credentials"), w) \/
    exists admin,
      In admin (admin_users w) /\
      post_admin_login hits now req w
      = (Res.mk 200 (LoginBody (login_result now admin)), after_login now admin w))).
Proof.
  unfold post_admin_login, loginLimiter. rewrite rateLimit_cases.
  destruct (N.ltb_spec hits 5) as [Hlt|Hge]; [right; split; [exact Hlt|] | left].
  2:{ split; [exact Hge | reflexivity]. }
  destruct (validateRequest loginSchema req) as [res|data] eqn:Hv.
  { apply validateRequest_inl in Hv as ->. left. reflexivity. }
  destruct (validateRequest_inr _ _ _ Hv) as [Hk _].
  cbn [forallb loginSchema] in Hk.
  apply andb_true_iff in Hk as [Hemail Hk]. apply andb_true_iff in Hk as [Hpw _].
  pose proof (string_ok_present _ _ (key_ok_field _ _ _ Hemail)) as He.
  pose proof (string_ok_present _ _ (key_ok_field _ _ _ Hpw)) as Hp.
  right. unfold respond.
  destruct (findOne (admin_with_email (field data "email")) (admin_users w))
    as [admin|] eqn:Hf.
  - destruct (verifyPassword (field data "password") (AdminDoc.password admin)) eqn:Hc.
    + right. exists admin. split; [exact (findOne_Some_In _ _ _ Hf)|].
      rewrite (adminLogin_found _ _ _ _ _ He Hp Hf Hc). reflexivity.
    + left. rewrite (adminLogin_wrong_password _ _ _ _ _ He Hp Hf Hc). reflexivity.
  - left. rewrite (adminLogin_unknown_email _ _ _ _ He Hp Hf). reflexivity.
Qed.

(** X24. [POST /auth/refresh] never writes, and answers every request in
    one of three ways: 400, VALIDATION_ERROR; 401, REFRESH_ERROR, with a
    message that starts with "Token refresh failed: ", whatever the reason;
    200 with a new access token for an administrator of the store. *)
Theorem post_auth_refresh_outcomes `{E : Externals} `{J : Joi}
    (now : Date) (req : Req.t) (w : World) :
  snd (post_auth_refresh now req w) = w /\
  (fst (post_auth_refresh now req w) = validation_error \/
   (exists m, fst (post_auth_refresh now req w)
              = Res.mk 401 (ErrorBody "REFRESH_ERROR" ("Token refresh failed: " +:+ m))) \/
   (exists admin, In admin (admin_users w) /\
      fst (post_auth_refresh now req w) = Res.mk 200 (RefreshBody (refreshed now admin)))).
Proof.
  unfold post_auth_refresh.
  destruct (validateRequest refreshTokenSchema req) as [res|data] eqn:Hv.
  { apply validateRequest_inl in Hv as ->. split; [reflexivity | left; reflexivity]. }
  unfold respond. rewrite refreshAccessToken_cases.
  destruct (verifyToken (field data "refresh_token") now) as [decoded|m].
  2:{ split; [reflexivity|]. right. left. exists m. reflexivity. }
  destruct (bool_decide (type decoded = Some "refresh")).
  2:{ split; [reflexivity|]. right. left. eexists. reflexivity. }
  destruct (oid_parse (field data "admin_id")) as [oid|].
  2:{ split; [reflexivity|]. right. left. eexists. reflexivity. }
  destruct (findOne (admin_with_id oid) (admin_users w)) as [admin|] eqn:Hf.
  2:{ split; [reflexivity|]. right. left. eexists. reflexivity. }
  destruct (bool_decide (AdminDoc.refresh_token_hash admin
                         = Some (hashToken (field data "refresh_token")))).
  - split; [reflexivity|]. right. right. exists admin.
    split; [exact (findOne_Some_In _ _ _ Hf) | reflexivity].
  - split; [reflexivity|]. right. left. eexists. reflexivity.
Qed.
